(** * rGuiStyler: style-file serialization and change tracking

    A shallow embedding of the save/export functions of [rguistyler.c]
    (v3.5): [StyleChangesCounter], [SaveStyle] (binary and text [.rgs])
    and [ExportStyleAsCode], with the properties of the Change-Set and of
    the file layouts proved about them; and of the command line
    ([ShowCommandLineInfo], [ProcessCommandLine]), of the loop of [main]
    that keeps the baseline and of [GuiColorBox].

    Conventions of the embedding:
    - a C [int]/[unsigned int]/[short] is a [Z]; where the C code narrows
      a value or stores it in a fixed number of bytes the wrap-around is
      written out ([cast_short], [cast_int], [le_bytes], [fmt_08x]);
    - [fwrite (&x, 1, sizeof x, f)] appends the object representation of
      [x]: little-endian, [sizeof (short) = 2], [sizeof (int) = 4];
    - global variables of the program and the file system are threaded
      through a state monad [M];
    - what [raygui.h] and [raylib.h] provide (they are not part of the
      sources) is taken as a parameter: the classes [Raygui] and [Raylib],
      and [RaylibText], [RayguiLoader], [StyleTableImage] and
      [RaylibInput] for the rest of the program. *)

From Stdlib Require Import ZArith List String Ascii DecimalString Lia Bool.
From Stdlib.Strings Require Import Byte.
From stdpp Require Import base strings gmap list sorting.

Open Scope Z_scope.

(** ** Constants and collaborators that the sources take from headers *)

(** [raygui.h]: the dimensions of the style table and the indices of the
    two DEFAULT extended properties the text writer prints. *)
Class Raygui := {
  RAYGUI_MAX_CONTROLS : nat;
  RAYGUI_MAX_PROPS_BASE : nat;
  RAYGUI_MAX_PROPS_EXTENDED : nat;
  TEXT_SIZE : nat;
  TEXT_SPACING : nat
}.

(** Modelled from the spec: [DEFAULT] is an enumerator of [raygui.h];
    "controlKind = 0 denotes the DEFAULT pseudo-control". *)
Definition DEFAULT : nat := 0%nat.

(** A raylib [Image]: pixel data and its description. *)
Record Image := {
  im_data : list byte;
  im_width : Z;
  im_height : Z;
  im_mipmaps : Z;
  im_format : Z
}.

(** [raylib.h]: floats, textures, image helpers, compression and the text
    helpers. *)
Class Raylib := {
  float : Type;
  float_zero : float;
  float_bytes : float -> list byte;
  fmt_1_0f : float -> string;
  Texture2D : Type;
  LoadImageFromTexture : Texture2D -> Image;
  GetPixelDataSize : Z -> Z -> Z -> Z;
  ImageFormat : Image -> Z -> Image;
  CompressData : list byte -> Z -> list byte;
  PIXELFORMAT_UNCOMPRESSED_GRAY_ALPHA : Z;
  GetFileName : string -> string;
  TextToPascal : string -> string;
  TextToUpper : string -> string
}.

(** ** Style file type to export *)

Definition STYLE_BINARY : Z := 0.
Definition STYLE_AS_CODE : Z := 1.
Definition STYLE_TABLE_IMAGE : Z := 2.
Definition STYLE_TEXT : Z := 3.

(** ** Name tables *)

Definition guiControlText : list string :=
  [ "DEFAULT"; "LABEL"; "BUTTON"; "TOGGLE"; "SLIDER"; "PROGRESSBAR";
    "CHECKBOX"; "COMBOBOX"; "DROPDOWNBOX"; "TEXTBOX"; "VALUEBOX";
    "SPINNER"; "LISTVIEW"; "COLORPICKER"; "SCROLLBAR"; "STATUSBAR" ]%string.

Definition guiPropsText : list string :=
  [ "BORDER_COLOR_NORMAL"; "BASE_COLOR_NORMAL"; "TEXT_COLOR_NORMAL";
    "BORDER_COLOR_FOCUSED"; "BASE_COLOR_FOCUSED"; "TEXT_COLOR_FOCUSED";
    "BORDER_COLOR_PRESSED"; "BASE_COLOR_PRESSED"; "TEXT_COLOR_PRESSED";
    "BORDER_COLOR_DISABLED"; "BASE_COLOR_DISABLED"; "TEXT_COLOR_DISABLED";
    "BORDER_WIDTH"; "TEXT_PADDING"; "TEXT_ALIGNMENT"; "RESERVED" ]%string.

(** The table local to [ExportStyleAsCode]. *)
Definition guiPropsExText : list string :=
  [ "TEXT_SIZE"; "TEXT_SPACING"; "LINE_COLOR"; "BACKGROUND_COLOR";
    "EXTENDED01"; "EXTENDED02"; "EXTENDED03"; "EXTENDED04" ]%string.

(** [table[i]] for a table of C strings. *)
Definition text_at (table : list string) (i : nat) : string :=
  nth i table EmptyString.

(** Position of [BASE_COLOR_NORMAL] in [guiPropsText]. *)
Definition BASE_COLOR_NORMAL : nat := 1%nat.

(** ** Object representations *)

Definition sizeof_short : nat := 2%nat.
Definition sizeof_int : nat := 4%nat.

Definition byte_of_Z (z : Z) : byte :=
  default x00 (Byte.of_N (Z.to_N (z mod 256))).

(** The [n] low-order bytes of [z], least significant first (two's
    complement for a negative [z]). *)
Fixpoint le_bytes (n : nat) (z : Z) : list byte :=
  match n with
  | O => []
  | S n' => byte_of_Z z :: le_bytes n' (z / 256)
  end.

(** The value read back from little-endian bytes. *)
Fixpoint le_value (bs : list byte) : Z :=
  match bs with
  | [] => 0
  | b :: bs' => Z.of_N (Byte.to_N b) + 256 * le_value bs'
  end.

(** [(short)z] *)
Definition cast_short (z : Z) : Z := (z + 2 ^ 15) mod 2 ^ 16 - 2 ^ 15.

(** [(int)z]: raygui keeps the style table as [unsigned int] and
    [GuiGetStyle] returns an [int]; where the program prints that [int]
    with [%i], an entry from [2^31] on is printed as a negative number. *)
Definition cast_int (z : Z) : Z := (z + 2 ^ 31) mod 2 ^ 32 - 2 ^ 31.

(** ** printf conversions *)

Definition nl : string := String "010"%char EmptyString.

(** [%i] *)
Definition fmt_i (z : Z) : string := NilZero.string_of_int (Z.to_int z).

(** [%02i]: at least two characters, padded with a zero on the left. *)
Definition fmt_02i (z : Z) : string :=
  let s := fmt_i z in
  if (String.length s <? 2)%nat then ("0" +:+ s)%string else s.

Definition hex_digit (d : Z) : ascii :=
  nth (Z.to_nat d)
    [ "0"; "1"; "2"; "3"; "4"; "5"; "6"; "7";
      "8"; "9"; "a"; "b"; "c"; "d"; "e"; "f" ]%char "0"%char.

(** The [width] low-order hexadecimal digits of [v], most significant first. *)
Fixpoint fmt_hex (width : nat) (v : Z) : string :=
  match width with
  | O => EmptyString
  | S w => fmt_hex w (v / 16) +:+ String (hex_digit (v mod 16)) EmptyString
  end.

(** [%08x] of an [int]: the argument is read as a 32-bit [unsigned int],
    which has at most eight hexadecimal digits. *)
Definition fmt_08x (v : Z) : string := fmt_hex 8 (v mod 2 ^ 32).

(** [%02x] of an [unsigned char]. *)
Definition fmt_02x (b : byte) : string := fmt_hex 2 (Z.of_N (Byte.to_N b)).

Definition bytes_of_text (s : string) : list byte := list_byte_of_string s.

(** ** Program state *)

Record GlyphInfo := {
  glyph_value : Z;
  glyph_offsetX : Z;
  glyph_offsetY : Z;
  glyph_advanceX : Z
}.

(** A stream is named by the file it was opened on. *)
Definition FILE : Type := string.

(** The file system and the standard output. [writable] says for which
    names [fopen] in a write mode succeeds; [fopen_log] records every call
    of [fopen] with its mode. *)
Record World := {
  files : gmap string (list byte);
  writable : string -> bool;
  fopen_log : list (string * string);
  stdout : list byte
}.

Definition append_file (f : FILE) (bs : list byte) (w : World) : World :=
  {| files := alter (fun content => content ++ bs) f (files w);
     writable := writable w;
     fopen_log := fopen_log w;
     stdout := stdout w |}.

Declare Scope prog_scope.
Delimit Scope prog_scope with prog.

Section Program.
Context {gui : Raygui} {ray : Raylib}.

Local Abbreviation NPROPS := (RAYGUI_MAX_PROPS_BASE + RAYGUI_MAX_PROPS_EXTENDED)%nat.

Record Rectangle := {
  rec_x : float;
  rec_y : float;
  rec_width : float;
  rec_height : float
}.

Record Font := {
  baseSize : Z;
  glyphCount : Z;
  texture : Texture2D;
  recs : list Rectangle;
  glyphs : list GlyphInfo
}.

(** The global variables the save and export functions use. [guiStyle] is
    raygui's style table, [styleBackup] the baseline snapshot; both are
    flat arrays of [RAYGUI_MAX_CONTROLS*NPROPS] 32-bit values. *)
Record Globals := {
  guiStyle : list Z;
  styleBackup : list Z;
  customFont : Font;
  customFontLoaded : bool;
  fontFilePath : string
}.

Record state := {
  globals : Globals;
  world : World
}.

(** *** The state monad *)

Definition M (A : Type) : Type := state -> A * state.

Definition ret {A} (a : A) : M A := fun st => (a, st).

Definition bind {A B} (m : M A) (k : A -> M B) : M B :=
  fun st => let r := m st in k (fst r) (snd r).

Notation "x <- m ;; k" := (bind m (fun x => k))
  (at level 100, m at next level, right associativity) : prog_scope.
Notation "m ;; k" := (bind m (fun _ => k))
  (at level 100, right associativity) : prog_scope.
Local Open Scope prog_scope.

(** Reading a global variable. *)
Definition global {A} (var : Globals -> A) : M A :=
  fun st => (var (globals st), st).

(** [a != b], both operands evaluated. *)
Definition ne_ (a b : M Z) : M bool :=
  x <- a ;; y <- b ;; ret (negb (x =? y)).

(** [a && b]: [b] is evaluated only when [a] holds. *)
Definition and_ (a b : M bool) : M bool :=
  x <- a ;; if x then b else ret false.

(** [if (c) body] *)
Definition if_ (c : M bool) (body : M unit) : M unit :=
  x <- c ;; if x then body else ret tt.

(** [for (int i = lo; i < hi; i++) body], with the local variables the body
    updates passed from one iteration to the next. *)
Fixpoint for_count {A} (n i : nat) (body : nat -> A -> M A) (a : A) : M A :=
  match n with
  | O => ret a
  | S n' => a' <- body i a ;; for_count n' (S i) body a'
  end.

Definition for_ {A} (lo hi : nat) (body : nat -> A -> M A) (a : A) : M A :=
  for_count (hi - lo) lo body a.

(** *** stdio *)

(** [fopen] in a write mode: the file is created or truncated. *)
Definition fopen (fileName mode : string) : M (option FILE) :=
  fun st =>
    let w := world st in
    let log := fopen_log w ++ [(fileName, mode)] in
    if writable w fileName
    then (Some fileName,
          {| globals := globals st;
             world := {| files := <[fileName := []]> (files w);
                         writable := writable w;
                         fopen_log := log;
                         stdout := stdout w |} |})
    else (None,
          {| globals := globals st;
             world := {| files := files w;
                         writable := writable w;
                         fopen_log := log;
                         stdout := stdout w |} |}).

(** The state after [bs] is appended to the stream [f]. *)
Definition with_file (f : FILE) (bs : list byte) (st : state) : state :=
  {| globals := globals st; world := append_file f bs (world st) |}.

Definition fwrite (bs : list byte) (f : FILE) : M unit :=
  fun st => (tt, with_file f bs st).

Definition fprintf (f : FILE) (s : string) : M unit :=
  fwrite (bytes_of_text s) f.

Definition fclose (f : FILE) : M unit := ret tt.

(** [LOG] is [printf]. *)
Definition LOG (s : string) : M unit :=
  fun st =>
    let w := world st in
    (tt, {| globals := globals st;
            world := {| files := files w;
                        writable := writable w;
                        fopen_log := fopen_log w;
                        stdout := stdout w ++ bytes_of_text s |} |}).

(** *** The style table *)

(** Modelled from the spec: [GuiGetStyle] is raygui's accessor
    ([external/raygui.h] is not part of the sources); the spec gives it as
    [get(control, property)] over the two-dimensional table of 32-bit
    values, which [styleBackup] mirrors row by row. *)
Definition GuiGetStyle (control property : nat) : M Z :=
  global (fun g => nth (control * NPROPS + property) (guiStyle g) 0).

(** [styleBackup[k]] *)
Definition styleBackup_at (k : nat) : M Z :=
  global (fun g => nth k (styleBackup g) 0).

(** ** Count changed properties in current style *)

Definition StyleChangesCounter : M Z :=
  let changes := 0 in
  (* Count all properties that have changed in default style *)
  changes <-
    for_ 0 NPROPS (fun i changes =>
      c <- ne_ (styleBackup_at i) (GuiGetStyle 0 i) ;;
      if c then ret (changes + 1) else ret changes) changes ;;
  (* Add to count all properties that have changed in comparison to
     default style *)
  changes <-
    for_ 1 RAYGUI_MAX_CONTROLS (fun i changes =>
      for_ 0 NPROPS (fun j changes =>
        c <- and_ (ne_ (styleBackup_at (i * NPROPS + j)) (GuiGetStyle i j))
                  (ne_ (GuiGetStyle i j) (GuiGetStyle 0 j)) ;;
        if c then ret (changes + 1) else ret changes) changes) changes ;;
  ret changes.

(** ** Save raygui style file (.rgs) *)

Definition rect_bytes (r : Rectangle) : list byte :=
  float_bytes (rec_x r) ++ float_bytes (rec_y r) ++
  float_bytes (rec_width r) ++ float_bytes (rec_height r).

(** [Rectangle rec = { 0 }] *)
Definition rect_zero : Rectangle :=
  {| rec_x := float_zero; rec_y := float_zero;
     rec_width := float_zero; rec_height := float_zero |}.

Definition glyph_zero : GlyphInfo :=
  {| glyph_value := 0; glyph_offsetX := 0;
     glyph_offsetY := 0; glyph_advanceX := 0 |}.

(** The label of property [j] in the text format:
    [(j < RAYGUI_MAX_PROPS_BASE)? guiPropsText[j]
       : TextFormat("EXT%02i", (j - RAYGUI_MAX_PROPS_BASE))] *)
Definition prop_label (j : nat) : string :=
  if (j <? RAYGUI_MAX_PROPS_BASE)%nat
  then text_at guiPropsText j
  else ("EXT" +:+ fmt_02i (Z.of_nat j - Z.of_nat RAYGUI_MAX_PROPS_BASE))%string.

Definition RGS_FILE_VERSION_TEXT : string := "3.5".

(** Write font data (embedding): the branch [if (customFontLoaded)] of the
    binary writer, with [SUPPORT_COMPRESSED_FONT_ATLAS] defined. *)
Definition SaveStyle_font (rgsFile : FILE) : M unit :=
  customFont <- global customFont ;;
  let imFont := LoadImageFromTexture (texture customFont) in
  (* Write font parameters *)
  let fontParamsSize := 32 in
  let fontImageUncompSize :=
    GetPixelDataSize (im_width imFont) (im_height imFont) (im_format imFont) in
  let fontGlyphDataSize := glyphCount customFont * 32 in
  let fontType := 0 in
  (* Make sure font atlas image data is GRAY + ALPHA for better compression *)
  let '(imFont, fontImageUncompSize) :=
    if negb (im_format imFont =? PIXELFORMAT_UNCOMPRESSED_GRAY_ALPHA)
    then
      let imFont := ImageFormat imFont PIXELFORMAT_UNCOMPRESSED_GRAY_ALPHA in
      (imFont,
       GetPixelDataSize (im_width imFont) (im_height imFont) (im_format imFont))
    else (imFont, fontImageUncompSize) in
  (* Compress font atlas image data *)
  let compData := CompressData (im_data imFont) fontImageUncompSize in
  let fontImageCompSize := Z.of_nat (length compData) in
  let fontDataSize := fontParamsSize + fontImageCompSize + fontGlyphDataSize in
  fwrite (le_bytes sizeof_int fontDataSize) rgsFile ;;
  fwrite (le_bytes sizeof_int (baseSize customFont)) rgsFile ;;
  fwrite (le_bytes sizeof_int (glyphCount customFont)) rgsFile ;;
  fwrite (le_bytes sizeof_int fontType) rgsFile ;;
  let rec := rect_zero in
  fwrite (rect_bytes rec) rgsFile ;;
  (* Write font image parameters *)
  fwrite (le_bytes sizeof_int fontImageUncompSize) rgsFile ;;
  fwrite (le_bytes sizeof_int fontImageCompSize) rgsFile ;;
  fwrite (le_bytes sizeof_int (im_width imFont)) rgsFile ;;
  fwrite (le_bytes sizeof_int (im_height imFont)) rgsFile ;;
  fwrite (le_bytes sizeof_int (im_format imFont)) rgsFile ;;
  fwrite compData rgsFile ;;
  (* Write font recs data *)
  for_ 0 (Z.to_nat (glyphCount customFont)) (fun i _ =>
    fwrite (rect_bytes (nth i (recs customFont) rect_zero)) rgsFile) tt ;;
  (* Write font chars info data *)
  for_ 0 (Z.to_nat (glyphCount customFont)) (fun i _ =>
    let glyph := nth i (glyphs customFont) glyph_zero in
    fwrite (le_bytes sizeof_int (glyph_value glyph)) rgsFile ;;
    fwrite (le_bytes sizeof_int (glyph_offsetX glyph)) rgsFile ;;
    fwrite (le_bytes sizeof_int (glyph_offsetY glyph)) rgsFile ;;
    fwrite (le_bytes sizeof_int (glyph_advanceX glyph)) rgsFile) tt.

Definition SaveStyle (fileName : string) (format : Z) : M bool :=
  let success := false in
  success <-
    (if format =? STYLE_BINARY then
       rgsFile <- fopen fileName "wb" ;;
       match rgsFile with
       | Some rgsFile =>
           let signature := "rGS "%string in
           let version := 200 in
           let reserved := 0 in
           fwrite (take 4 (bytes_of_text signature)) rgsFile ;;
           fwrite (le_bytes sizeof_short version) rgsFile ;;
           fwrite (le_bytes sizeof_short reserved) rgsFile ;;
           changedPropCounter <- StyleChangesCounter ;;
           fwrite (le_bytes sizeof_int changedPropCounter) rgsFile ;;
           let controlId := 0 in
           (* Save first all properties that have changed in DEFAULT style *)
           for_ 0 NPROPS (fun i _ =>
             if_ (ne_ (styleBackup_at i) (GuiGetStyle 0 i))
               (let propertyId := cast_short (Z.of_nat i) in
                propertyValue <- GuiGetStyle 0 i ;;
                fwrite (le_bytes sizeof_short controlId) rgsFile ;;
                fwrite (le_bytes sizeof_short propertyId) rgsFile ;;
                fwrite (le_bytes sizeof_int propertyValue) rgsFile)) tt ;;
           (* Save all properties that have changed in comparison to
              DEFAULT style *)
           for_ 1 RAYGUI_MAX_CONTROLS (fun i _ =>
             for_ 0 NPROPS (fun j _ =>
               if_ (and_ (ne_ (styleBackup_at (i * NPROPS + j)) (GuiGetStyle i j))
                         (ne_ (GuiGetStyle i j) (GuiGetStyle 0 j)))
                 (let controlId := cast_short (Z.of_nat i) in
                  let propertyId := cast_short (Z.of_nat j) in
                  propertyValue <- GuiGetStyle i j ;;
                  fwrite (le_bytes sizeof_short controlId) rgsFile ;;
                  fwrite (le_bytes sizeof_short propertyId) rgsFile ;;
                  fwrite (le_bytes sizeof_int propertyValue) rgsFile)) tt) tt ;;
           let fontSize := 0 in
           (* Write font data (embedding) *)
           loaded <- global customFontLoaded ;;
           (if loaded then SaveStyle_font rgsFile
            else fwrite (le_bytes sizeof_int fontSize) rgsFile) ;;
           fclose rgsFile ;;
           ret true
       | None => ret success
       end
     else ret success) ;;
  success <-
    (if format =? STYLE_TEXT then
       rgsFile <- fopen fileName "wt" ;;
       match rgsFile with
       | Some rgsFile =>
           (* Write some description comments *)
           fprintf rgsFile
             ("#" +:+ nl +:+ "# rgs style text file (v" +:+ RGS_FILE_VERSION_TEXT
              +:+ ") - raygui style file generated using rGuiStyler" +:+ nl
              +:+ "#" +:+ nl) ;;
           fprintf rgsFile
             ("# Info:  p <controlId> <propertyId> <propertyValue>  // Property description"
              +:+ nl +:+ "#" +:+ nl) ;;
           loaded <- global customFontLoaded ;;
           (if loaded then
              fprintf rgsFile
                ("# WARNING: This style uses a custom font, must be provided with style file"
                 +:+ nl) ;;
              size <- GuiGetStyle DEFAULT TEXT_SIZE ;;
              spacing <- GuiGetStyle DEFAULT TEXT_SPACING ;;
              path <- global fontFilePath ;;
              fprintf rgsFile
                ("f " +:+ fmt_i (cast_int size) +:+ " "
                 +:+ fmt_i (cast_int spacing) +:+ " "
                 +:+ GetFileName path +:+ nl)
            else ret tt) ;;
           (* Save DEFAULT properties that changed *)
           for_ 0 NPROPS (fun j _ =>
             if_ (ne_ (styleBackup_at j) (GuiGetStyle 0 j))
               (value <- GuiGetStyle 0 j ;;
                fprintf rgsFile
                  ("p 00 " +:+ fmt_02i (Z.of_nat j) +:+ " 0x" +:+ fmt_08x value
                   +:+ "    DEFAULT_" +:+ prop_label j +:+ " " +:+ nl))) tt ;;
           (* Save other controls properties that changed *)
           for_ 1 RAYGUI_MAX_CONTROLS (fun i _ =>
             for_ 0 NPROPS (fun j _ =>
               if_ (and_ (ne_ (styleBackup_at (i * NPROPS + j)) (GuiGetStyle i j))
                         (ne_ (GuiGetStyle i j) (GuiGetStyle 0 j)))
                 (value <- GuiGetStyle i j ;;
                  fprintf rgsFile
                    ("p " +:+ fmt_02i (Z.of_nat i) +:+ " " +:+ fmt_02i (Z.of_nat j)
                     +:+ " 0x" +:+ fmt_08x value +:+ "    "
                     +:+ text_at guiControlText i +:+ "_" +:+ prop_label j
                     +:+ " " +:+ nl))) tt) tt ;;
           fclose rgsFile ;;
           ret true
       | None => ret success
       end
     else ret success) ;;
  ret success.

(** ** Export gui style as (ready-to-use) code file *)

Definition BYTES_TEXT_PER_LINE : Z := 20.

(** The label of DEFAULT property [i] in the exported code. *)
Definition code_default_label (i : nat) : string :=
  if (i <? RAYGUI_MAX_PROPS_BASE)%nat
  then text_at guiPropsText i
  else text_at guiPropsExText (i - RAYGUI_MAX_PROPS_BASE).

(** The label of property [j] of another control in the exported code. *)
Definition code_prop_label (j : nat) : string :=
  if (j <? RAYGUI_MAX_PROPS_BASE)%nat
  then text_at guiPropsText j
  else ("EXTENDED"
        +:+ fmt_02i (Z.of_nat j - Z.of_nat RAYGUI_MAX_PROPS_BASE + 1))%string.

(** Save font image data (compressed): the byte array, written as
    hexadecimal text. The last statement reads [compData[compDataSize - 1]]:
    the array is not empty (for [compDataSize = 0] the index is [-1] and C
    leaves the read undefined; what is proved of the exported code assumes
    a non-empty array).
    [for (int i = 0; i < compDataSize - 1; i++)
       fprintf(txtFile, ((i%BYTES_TEXT_PER_LINE == 0)? "0x%02x,\n    " : "0x%02x, "), compData[i]);
     fprintf(txtFile, "0x%02x };\n\n", compData[compDataSize - 1]);] *)
Definition ExportStyleAsCode_fontData
    (txtFile : FILE) (compData : list byte) (compDataSize : Z) : M unit :=
  for_ 0 (Z.to_nat (compDataSize - 1)) (fun i _ =>
    fprintf txtFile
      (if Z.of_nat i mod BYTES_TEXT_PER_LINE =? 0
       then "0x" +:+ fmt_02x (nth i compData x00) +:+ "," +:+ nl +:+ "    "
       else "0x" +:+ fmt_02x (nth i compData x00) +:+ ", ")) tt ;;
  fprintf txtFile
    ("0x" +:+ fmt_02x (nth (Z.to_nat (compDataSize - 1)) compData x00)
     +:+ " };" +:+ nl +:+ nl).

Definition image_zero : Image :=
  {| im_data := []; im_width := 0; im_height := 0;
     im_mipmaps := 0; im_format := 0 |}.

Definition ExportStyleAsCode (fileName styleName : string) : M unit :=
  txtFile <- fopen fileName "wt" ;;
  match txtFile with
  | Some txtFile =>
  fprintf txtFile ("//////////////////////////////////////////////////////////////////////////////////" +:+ nl) ;;
  fprintf txtFile ("//                                                                              //" +:+ nl) ;;
  fprintf txtFile ("// StyleAsCode exporter v1.2 - Style data exported as a values array            //" +:+ nl) ;;
  fprintf txtFile ("//                                                                              //" +:+ nl) ;;
  fprintf txtFile ("// USAGE: On init call: GuiLoadStyle" +:+ TextToPascal styleName +:+ "();                             //" +:+ nl) ;;
  fprintf txtFile ("//                                                                              //" +:+ nl) ;;
  fprintf txtFile ("// more info and bugs-report:  github.com/raysan5/raygui                        //" +:+ nl) ;;
  fprintf txtFile ("// feedback and support:       ray[at]raylibtech.com                            //" +:+ nl) ;;
  fprintf txtFile ("//                                                                              //" +:+ nl) ;;
  fprintf txtFile ("// Copyright (c) 2020-2022 raylib technologies (@raylibtech)                    //" +:+ nl) ;;
  fprintf txtFile ("//                                                                              //" +:+ nl) ;;
  fprintf txtFile ("//////////////////////////////////////////////////////////////////////////////////" +:+ nl +:+ nl) ;;
  (* Export only properties that change from default style *)
  count <- StyleChangesCounter ;;
  fprintf txtFile ("#define " +:+ TextToUpper styleName +:+ "_STYLE_PROPS_COUNT  " +:+ fmt_i count +:+ nl +:+ nl) ;;
  (* Write byte data as hexadecimal text *)
  fprintf txtFile ("// Custom style name: " +:+ styleName +:+ nl) ;;
  fprintf txtFile ("static const GuiStyleProp " +:+ styleName +:+ "StyleProps[" +:+ TextToUpper styleName +:+ "_STYLE_PROPS_COUNT] = {" +:+ nl) ;;
  (* Count all properties that have changed in default style *)
  for_ 0 NPROPS (fun i _ =>
    if_ (ne_ (styleBackup_at i) (GuiGetStyle 0 i))
      (value <- GuiGetStyle DEFAULT i ;;
       fprintf txtFile
         ("    { 0, " +:+ fmt_i (Z.of_nat i) +:+ ", 0x" +:+ fmt_08x value
          +:+ " },    // DEFAULT_" +:+ code_default_label i +:+ " " +:+ nl))) tt ;;
  (* Add to count all properties that have changed in comparison to
     default style *)
  for_ 1 RAYGUI_MAX_CONTROLS (fun i _ =>
    for_ 0 NPROPS (fun j _ =>
      if_ (and_ (ne_ (styleBackup_at (i * NPROPS + j)) (GuiGetStyle i j))
                (ne_ (GuiGetStyle i j) (GuiGetStyle 0 j)))
        (value <- GuiGetStyle i j ;;
         fprintf txtFile
           ("    { " +:+ fmt_i (Z.of_nat i) +:+ ", " +:+ fmt_i (Z.of_nat j)
            +:+ ", 0x" +:+ fmt_08x value +:+ " },    // "
            +:+ text_at guiControlText i +:+ "_" +:+ code_prop_label j
            +:+ " " +:+ nl))) tt) tt ;;
  fprintf txtFile ("};" +:+ nl +:+ nl) ;;
  loaded <- global customFontLoaded ;;
  customFont <- global customFont ;;
  (if loaded then
     path <- global fontFilePath ;;
     size <- GuiGetStyle DEFAULT TEXT_SIZE ;;
     spacing <- GuiGetStyle DEFAULT TEXT_SPACING ;;
     fprintf txtFile ("// WARNING: This style uses a custom font: " +:+ GetFileName path +:+ " (size: " +:+ fmt_i (cast_int size) +:+ ", spacing: " +:+ fmt_i (cast_int spacing) +:+ ")" +:+ nl +:+ nl)
   else ret tt) ;;
  let imFont :=
    if loaded then LoadImageFromTexture (texture customFont) else image_zero in
  (if loaded then
     (* Support font export and initialization *)
     (if negb (im_format imFont =? PIXELFORMAT_UNCOMPRESSED_GRAY_ALPHA)
      then LOG "WARNING: Font image format is not GRAY+ALPHA!"
      else ret tt) ;;
     let imFontSize :=
       GetPixelDataSize (im_width imFont) (im_height imFont) (im_format imFont) in
     (* Compress font image data *)
     let compData := CompressData (im_data imFont) imFontSize in
     let compDataSize := Z.of_nat (length compData) in
     (* Save font image data (compressed) *)
     fprintf txtFile ("#define " +:+ TextToUpper styleName +:+ "_COMPRESSED_DATA_SIZE " +:+ fmt_i compDataSize +:+ nl +:+ nl) ;;
     fprintf txtFile ("// Font image pixels data compressed (DEFLATE)" +:+ nl) ;;
     fprintf txtFile ("// NOTE: Original pixel data simplified to GRAYSCALE" +:+ nl) ;;
     fprintf txtFile ("static unsigned char " +:+ styleName +:+ "FontData[" +:+ TextToUpper styleName +:+ "_COMPRESSED_DATA_SIZE] = { ") ;;
     ExportStyleAsCode_fontData txtFile compData compDataSize ;;
     (* Save font recs data *)
     fprintf txtFile ("// Font characters rectangles data" +:+ nl) ;;
     fprintf txtFile ("static const Rectangle " +:+ styleName +:+ "FontRecs[" +:+ fmt_i (glyphCount customFont) +:+ "] = {" +:+ nl) ;;
     for_ 0 (Z.to_nat (glyphCount customFont)) (fun i _ =>
       let r := nth i (recs customFont) rect_zero in
       fprintf txtFile ("    { " +:+ fmt_1_0f (rec_x r) +:+ ", " +:+ fmt_1_0f (rec_y r) +:+ ", " +:+ fmt_1_0f (rec_width r) +:+ " , " +:+ fmt_1_0f (rec_height r) +:+ " }," +:+ nl)) tt ;;
     fprintf txtFile ("};" +:+ nl +:+ nl) ;;
     (* Save font chars data *)
     fprintf txtFile ("// Font characters info data" +:+ nl) ;;
     fprintf txtFile ("// NOTE: No chars.image data provided" +:+ nl) ;;
     fprintf txtFile ("static const GlyphInfo " +:+ styleName +:+ "FontChars[" +:+ fmt_i (glyphCount customFont) +:+ "] = {" +:+ nl) ;;
     for_ 0 (Z.to_nat (glyphCount customFont)) (fun i _ =>
       let glyph := nth i (glyphs customFont) glyph_zero in
       fprintf txtFile ("    { " +:+ fmt_i (glyph_value glyph) +:+ ", " +:+ fmt_i (glyph_offsetX glyph) +:+ ", " +:+ fmt_i (glyph_offsetY glyph) +:+ ", " +:+ fmt_i (glyph_advanceX glyph) +:+ ", { 0 }}," +:+ nl)) tt ;;
     fprintf txtFile ("};" +:+ nl +:+ nl)
   else ret tt) ;;
  fprintf txtFile ("// Style loading function: " +:+ styleName +:+ nl) ;;
  fprintf txtFile ("static void GuiLoadStyle" +:+ TextToPascal styleName +:+ "(void)" +:+ nl +:+ "{" +:+ nl) ;;
  fprintf txtFile ("    // Load style properties provided" +:+ nl) ;;
  fprintf txtFile ("    // NOTE: Default properties are propagated" +:+ nl) ;;
  fprintf txtFile ("    for (int i = 0; i < " +:+ TextToUpper styleName +:+ "_STYLE_PROPS_COUNT; i++)" +:+ nl +:+ "    {" +:+ nl) ;;
  fprintf txtFile ("        GuiSetStyle(" +:+ styleName +:+ "StyleProps[i].controlId, " +:+ styleName +:+ "StyleProps[i].propertyId, " +:+ styleName +:+ "StyleProps[i].propertyValue);" +:+ nl +:+ "    }" +:+ nl +:+ nl) ;;
  (if loaded then
     fprintf txtFile ("    // Custom font loading" +:+ nl) ;;
     fprintf txtFile ("    // NOTE: Compressed font image data (DEFLATE), it requires DecompressData() function" +:+ nl) ;;
     fprintf txtFile ("    int " +:+ styleName +:+ "FontDataSize = 0;" +:+ nl) ;;
     fprintf txtFile ("    unsigned char *data = DecompressData(" +:+ styleName +:+ "FontData, " +:+ TextToUpper styleName +:+ "_COMPRESSED_DATA_SIZE, &" +:+ styleName +:+ "FontDataSize);" +:+ nl) ;;
     fprintf txtFile ("    Image imFont = { data, " +:+ fmt_i (im_width imFont) +:+ ", " +:+ fmt_i (im_height imFont) +:+ ", 1, " +:+ fmt_i (im_format imFont) +:+ " };" +:+ nl +:+ nl) ;;
     fprintf txtFile ("    Font font = { 0 };" +:+ nl) ;;
     size <- GuiGetStyle DEFAULT TEXT_SIZE ;;
     fprintf txtFile ("    font.baseSize = " +:+ fmt_i (cast_int size) +:+ ";" +:+ nl) ;;
     fprintf txtFile ("    font.glyphCount = " +:+ fmt_i (glyphCount customFont) +:+ ";" +:+ nl +:+ nl) ;;
     fprintf txtFile ("    // Load texture from image" +:+ nl) ;;
     fprintf txtFile ("    font.texture = LoadTextureFromImage(imFont);" +:+ nl +:+ nl) ;;
     fprintf txtFile ("    // Copy char recs data from global fontRecs" +:+ nl) ;;
     fprintf txtFile ("    // NOTE: Required to avoid issues if trying to free font" +:+ nl) ;;
     fprintf txtFile ("    font.recs = (Rectangle *)malloc(font.glyphCount*sizeof(Rectangle));" +:+ nl) ;;
     fprintf txtFile ("    memcpy(font.recs, " +:+ styleName +:+ "FontRecs, font.glyphCount*sizeof(Rectangle));" +:+ nl +:+ nl) ;;
     fprintf txtFile ("    // Copy font char info data from global fontChars" +:+ nl) ;;
     fprintf txtFile ("    // NOTE: Required to avoid issues if trying to free font" +:+ nl) ;;
     fprintf txtFile ("    font.glyphs = (GlyphInfo *)malloc(font.glyphCount*sizeof(GlyphInfo));" +:+ nl) ;;
     fprintf txtFile ("    memcpy(font.glyphs, " +:+ styleName +:+ "FontChars, font.glyphCount*sizeof(GlyphInfo));" +:+ nl +:+ nl) ;;
     fprintf txtFile ("    GuiSetFont(font);" +:+ nl +:+ nl) ;;
     fprintf txtFile ("    // TODO: Setup a white rectangle on the font to be used on shapes drawing," +:+ nl) ;;
     fprintf txtFile ("    // this way we make sure all gui can be drawn on a single pass because no texture change is required" +:+ nl) ;;
     fprintf txtFile ("    // NOTE: Setting up this rectangle is a manual process (for the moment)" +:+ nl) ;;
     fprintf txtFile ("    //Rectangle whiteChar = { 0, 0, 0, 0 };" +:+ nl) ;;
     fprintf txtFile ("    //SetShapesTexture(font.texture, whiteChar);" +:+ nl +:+ nl)
   else ret tt) ;;
  fprintf txtFile ("    //-----------------------------------------------------------------" +:+ nl +:+ nl) ;;
  fprintf txtFile ("    // TODO: Custom user style setup: Set specific properties here (if required)" +:+ nl) ;;
  fprintf txtFile ("    // i.e. Controls specific BORDER_WIDTH, TEXT_PADDING, TEXT_ALIGNMENT" +:+ nl) ;;
  fprintf txtFile ("}" +:+ nl) ;;
  fclose txtFile
  | None => ret tt
  end.

End Program.

(** ** The Change-Set *)

(** An entry of the Change-Set: the [GuiStyleProp] of the exported code. *)
Record GuiStyleProp := {
  controlId : nat;
  propertyId : nat;
  propertyValue : Z
}.

Section ChangeSet.
Context {gui : Raygui} {ray : Raylib}.

Local Abbreviation NPROPS := (RAYGUI_MAX_PROPS_BASE + RAYGUI_MAX_PROPS_EXTENDED)%nat.

(** The current value of property [j] of control [i], and its baseline. *)
Definition current (g : Globals) (i j : nat) : Z :=
  nth (i * NPROPS + j) (guiStyle g) 0.

Definition baseline (g : Globals) (i j : nat) : Z :=
  nth (i * NPROPS + j) (styleBackup g) 0.

Definition entry (g : Globals) (i j : nat) : GuiStyleProp :=
  {| controlId := i; propertyId := j; propertyValue := current g i j |}.

(** [store[0][j] != baseline[0][j]] *)
Definition changedDefault (g : Globals) (j : nat) : bool :=
  negb (baseline g 0 j =? current g 0 j).

(** [store[i][j] != baseline[i][j]] AND [store[i][j] != store[0][j]] *)
Definition changedControl (g : Globals) (i j : nat) : bool :=
  negb (baseline g i j =? current g i j)
  && negb (current g i j =? current g 0 j).

(** Step 1 of the spec's algorithm: the changed DEFAULT properties. *)
Definition defaultChanges (g : Globals) : list GuiStyleProp :=
  flat_map (fun j => if changedDefault g j then [entry g 0 j] else [])
    (seq 0 NPROPS).

(** Step 2 of the spec's algorithm, for one control [i]. *)
Definition controlChanges (g : Globals) (i : nat) : list GuiStyleProp :=
  flat_map (fun j => if changedControl g i j then [entry g i j] else [])
    (seq 0 NPROPS).

(** The spec's [computeChanges(store, baseline)], written after its words
    (4.2): first the DEFAULT properties that differ from the baseline, then,
    for each control from 1 to controlCount-1, the properties that differ
    from the baseline and from the current DEFAULT value. The functions of
    the program are compared with it below. *)
Definition computeChanges (g : Globals) : list GuiStyleProp :=
  defaultChanges g
  ++ flat_map (controlChanges g) (seq 1 (RAYGUI_MAX_CONTROLS - 1)).

(** The order of the Change-Set: by control, then by property. *)
Definition prop_before (a b : GuiStyleProp) : Prop :=
  (controlId a < controlId b)%nat
  \/ (controlId a = controlId b /\ (propertyId a < propertyId b)%nat).

(** *** What each writer produces for one entry *)

(** The 8-byte record of the binary file. *)
Definition record_bytes (e : GuiStyleProp) : list byte :=
  le_bytes sizeof_short (cast_short (Z.of_nat (controlId e)))
  ++ le_bytes sizeof_short (cast_short (Z.of_nat (propertyId e)))
  ++ le_bytes sizeof_int (propertyValue e).

(** The line of the text file. *)
Definition text_line (e : GuiStyleProp) : string :=
  ("p " +:+ fmt_02i (Z.of_nat (controlId e)) +:+ " "
   +:+ fmt_02i (Z.of_nat (propertyId e))
   +:+ " 0x" +:+ fmt_08x (propertyValue e) +:+ "    "
   +:+ text_at guiControlText (controlId e) +:+ "_" +:+ prop_label (propertyId e)
   +:+ " " +:+ nl)%string.

(** The array element of the exported code. *)
Definition code_line (e : GuiStyleProp) : string :=
  ("    { " +:+ fmt_i (Z.of_nat (controlId e)) +:+ ", "
   +:+ fmt_i (Z.of_nat (propertyId e))
   +:+ ", 0x" +:+ fmt_08x (propertyValue e) +:+ " },    // "
   +:+ text_at guiControlText (controlId e) +:+ "_"
   +:+ (if (controlId e =? 0)%nat then code_default_label (propertyId e)
        else code_prop_label (propertyId e))
   +:+ " " +:+ nl)%string.

(** The fixed header of the binary file, up to and including the count. *)
Definition binary_header (count : Z) : list byte :=
  bytes_of_text "rGS " ++ le_bytes sizeof_short 200
  ++ le_bytes sizeof_short 0 ++ le_bytes sizeof_int count.

(** The comment header of the text file. *)
Definition text_header : string :=
  ("#" +:+ nl +:+ "# rgs style text file (v" +:+ RGS_FILE_VERSION_TEXT
   +:+ ") - raygui style file generated using rGuiStyler" +:+ nl
   +:+ "#" +:+ nl
   +:+ "# Info:  p <controlId> <propertyId> <propertyValue>  // Property description"
   +:+ nl +:+ "#" +:+ nl)%string.

Definition text_font_warning : string :=
  ("# WARNING: This style uses a custom font, must be provided with style file"
   +:+ nl)%string.

(** The line that names the font file, written after the warning. *)
Definition text_font_line (g : Globals) : string :=
  ("f " +:+ fmt_i (cast_int (current g DEFAULT TEXT_SIZE)) +:+ " "
   +:+ fmt_i (cast_int (current g DEFAULT TEXT_SPACING)) +:+ " "
   +:+ GetFileName (fontFilePath g) +:+ nl)%string.

(** What the font branch of the binary writer appends. *)
Definition font_bytes (g : Globals) : list byte :=
  let customFont := customFont g in
  let imFont := LoadImageFromTexture (texture customFont) in
  let fontParamsSize := 32 in
  let fontImageUncompSize :=
    GetPixelDataSize (im_width imFont) (im_height imFont) (im_format imFont) in
  let fontGlyphDataSize := glyphCount customFont * 32 in
  let fontType := 0 in
  let '(imFont, fontImageUncompSize) :=
    if negb (im_format imFont =? PIXELFORMAT_UNCOMPRESSED_GRAY_ALPHA)
    then
      let imFont := ImageFormat imFont PIXELFORMAT_UNCOMPRESSED_GRAY_ALPHA in
      (imFont,
       GetPixelDataSize (im_width imFont) (im_height imFont) (im_format imFont))
    else (imFont, fontImageUncompSize) in
  let compData := CompressData (im_data imFont) fontImageUncompSize in
  let fontImageCompSize := Z.of_nat (length compData) in
  let fontDataSize := fontParamsSize + fontImageCompSize + fontGlyphDataSize in
  le_bytes sizeof_int fontDataSize
  ++ le_bytes sizeof_int (baseSize customFont)
  ++ le_bytes sizeof_int (glyphCount customFont)
  ++ le_bytes sizeof_int fontType
  ++ rect_bytes rect_zero
  ++ le_bytes sizeof_int fontImageUncompSize
  ++ le_bytes sizeof_int fontImageCompSize
  ++ le_bytes sizeof_int (im_width imFont)
  ++ le_bytes sizeof_int (im_height imFont)
  ++ le_bytes sizeof_int (im_format imFont)
  ++ compData
  ++ flat_map (fun i => rect_bytes (nth i (recs customFont) rect_zero))
       (seq 0 (Z.to_nat (glyphCount customFont)))
  ++ flat_map (fun i =>
       let glyph := nth i (glyphs customFont) glyph_zero in
       le_bytes sizeof_int (glyph_value glyph)
       ++ le_bytes sizeof_int (glyph_offsetX glyph)
       ++ le_bytes sizeof_int (glyph_offsetY glyph)
       ++ le_bytes sizeof_int (glyph_advanceX glyph))
       (seq 0 (Z.to_nat (glyphCount customFont))).

(** The font section of the binary file. *)
Definition binary_font_section (g : Globals) : list byte :=
  if customFontLoaded g then font_bytes g else le_bytes sizeof_int 0.

(** The binary file of a style. *)
Definition binary_file (g : Globals) : list byte :=
  binary_header (Z.of_nat (length (computeChanges g)))
  ++ flat_map record_bytes (computeChanges g)
  ++ binary_font_section g.

(** The text file of a style. *)
Definition text_file (g : Globals) : string :=
  (text_header
   +:+ (if customFontLoaded g then text_font_warning +:+ text_font_line g
        else EmptyString)
   +:+ String.concat EmptyString (map text_line (computeChanges g)))%string.

(** The state after [fileName] was opened in [mode] and [content] written
    to it. *)
Definition saved (fileName mode : string) (content : list byte) (st : state)
    : state :=
  {| globals := globals st;
     world := {| files := <[fileName := content]> (files (world st));
                 writable := writable (world st);
                 fopen_log := fopen_log (world st) ++ [(fileName, mode)];
                 stdout := stdout (world st) |} |}.

(** The state after [fopen] failed on [fileName]. *)
Definition refused (fileName mode : string) (st : state) : state :=
  {| globals := globals st;
     world := {| files := files (world st);
                 writable := writable (world st);
                 fopen_log := fopen_log (world st) ++ [(fileName, mode)];
                 stdout := stdout (world st) |} |}.

(** The state after the chunks of [chunks] were appended to the stream
    [f], one after the other. *)
Definition with_files (f : FILE) (chunks : list (list byte)) (st : state)
    : state :=
  fold_left (fun s chunk => with_file f chunk s) chunks st.

(** The bytes of the strings of [chunks], followed by [rest]. *)
Definition chunks_bytes (chunks : list string) (rest : list byte) : list byte :=
  fold_right (fun s acc => bytes_of_text s ++ acc) rest chunks.

(** The content of the file [fileName] after a computation has run. *)
Definition written {A} (r : A * state) (fileName : string)
    : option (list byte) :=
  files (world (snd r)) !! fileName.

(** *** The exported code *)

(** The state after [LOG] printed [s]. *)
Definition with_stdout (s : string) (st : state) : state :=
  {| globals := globals st;
     world := {| files := files (world st);
                 writable := writable (world st);
                 fopen_log := fopen_log (world st);
                 stdout := stdout (world st) ++ bytes_of_text s |} |}.

(** The strings printed before the elements of the properties array, one
    for each [fprintf]. *)
Definition code_prologue (styleName : string) (count : Z) : list string :=
  [ "//////////////////////////////////////////////////////////////////////////////////" +:+ nl;
    "//                                                                              //" +:+ nl;
    "// StyleAsCode exporter v1.2 - Style data exported as a values array            //" +:+ nl;
    "//                                                                              //" +:+ nl;
    "// USAGE: On init call: GuiLoadStyle" +:+ TextToPascal styleName +:+ "();                             //" +:+ nl;
    "//                                                                              //" +:+ nl;
    "// more info and bugs-report:  github.com/raysan5/raygui                        //" +:+ nl;
    "// feedback and support:       ray[at]raylibtech.com                            //" +:+ nl;
    "//                                                                              //" +:+ nl;
    "// Copyright (c) 2020-2022 raylib technologies (@raylibtech)                    //" +:+ nl;
    "//                                                                              //" +:+ nl;
    "//////////////////////////////////////////////////////////////////////////////////" +:+ nl +:+ nl;
    "#define " +:+ TextToUpper styleName +:+ "_STYLE_PROPS_COUNT  " +:+ fmt_i count +:+ nl +:+ nl;
    "// Custom style name: " +:+ styleName +:+ nl;
    "static const GuiStyleProp " +:+ styleName +:+ "StyleProps[" +:+ TextToUpper styleName +:+ "_STYLE_PROPS_COUNT] = {" +:+ nl ]%string.

(** One element of the font data array with what follows it: a comma and a
    line break after the elements whose index is a multiple of
    [BYTES_TEXT_PER_LINE], a comma and a space after the others. *)
Definition code_byte (compData : list byte) (i : nat) : string :=
  ("0x" +:+ fmt_02x (nth i compData x00)
   +:+ (if (Z.of_nat i mod BYTES_TEXT_PER_LINE =? 0)%Z
        then "," +:+ nl +:+ "    " else ", "))%string.

(** The elements of the font data array and the end of its declaration. *)
Definition code_font_data (compData : list byte) : string :=
  (String.concat EmptyString
     (map (code_byte compData) (seq 0 (length compData - 1)))
   +:+ "0x" +:+ fmt_02x (nth (length compData - 1) compData x00)
   +:+ " };" +:+ nl +:+ nl)%string.

Definition code_rec_line (r : Rectangle) : string :=
  ("    { " +:+ fmt_1_0f (rec_x r) +:+ ", " +:+ fmt_1_0f (rec_y r) +:+ ", "
   +:+ fmt_1_0f (rec_width r) +:+ " , " +:+ fmt_1_0f (rec_height r)
   +:+ " }," +:+ nl)%string.

Definition code_glyph_line (glyph : GlyphInfo) : string :=
  ("    { " +:+ fmt_i (glyph_value glyph) +:+ ", "
   +:+ fmt_i (glyph_offsetX glyph) +:+ ", " +:+ fmt_i (glyph_offsetY glyph)
   +:+ ", " +:+ fmt_i (glyph_advanceX glyph) +:+ ", { 0 }}," +:+ nl)%string.

(** The font of the exported code: the warning, the compressed atlas, the
    rectangles and the glyphs. *)
Definition code_font (g : Globals) (styleName : string) : list string :=
  let customFont := customFont g in
  let imFont := LoadImageFromTexture (texture customFont) in
  let imFontSize :=
    GetPixelDataSize (im_width imFont) (im_height imFont) (im_format imFont) in
  let compData := CompressData (im_data imFont) imFontSize in
  let compDataSize := Z.of_nat (length compData) in
  [ "// WARNING: This style uses a custom font: " +:+ GetFileName (fontFilePath g) +:+ " (size: " +:+ fmt_i (cast_int (current g DEFAULT TEXT_SIZE)) +:+ ", spacing: " +:+ fmt_i (cast_int (current g DEFAULT TEXT_SPACING)) +:+ ")" +:+ nl +:+ nl;
    "#define " +:+ TextToUpper styleName +:+ "_COMPRESSED_DATA_SIZE " +:+ fmt_i compDataSize +:+ nl +:+ nl;
    "// Font image pixels data compressed (DEFLATE)" +:+ nl;
    "// NOTE: Original pixel data simplified to GRAYSCALE" +:+ nl;
    "static unsigned char " +:+ styleName +:+ "FontData[" +:+ TextToUpper styleName +:+ "_COMPRESSED_DATA_SIZE] = { ";
    code_font_data compData;
    "// Font characters rectangles data" +:+ nl;
    "static const Rectangle " +:+ styleName +:+ "FontRecs[" +:+ fmt_i (glyphCount customFont) +:+ "] = {" +:+ nl;
    String.concat EmptyString
      (map (fun i => code_rec_line (nth i (recs customFont) rect_zero))
         (seq 0 (Z.to_nat (glyphCount customFont))));
    "};" +:+ nl +:+ nl;
    "// Font characters info data" +:+ nl;
    "// NOTE: No chars.image data provided" +:+ nl;
    "static const GlyphInfo " +:+ styleName +:+ "FontChars[" +:+ fmt_i (glyphCount customFont) +:+ "] = {" +:+ nl;
    String.concat EmptyString
      (map (fun i => code_glyph_line (nth i (glyphs customFont) glyph_zero))
         (seq 0 (Z.to_nat (glyphCount customFont))));
    "};" +:+ nl +:+ nl ]%string.

(** The compressed atlas of the custom font, as [ExportStyleAsCode]
    computes it: its last byte is read by the code, so that the exported
    code is that of the program when this array is not empty. *)
Definition code_font_atlas (g : Globals) : list byte :=
  let imFont := LoadImageFromTexture (texture (customFont g)) in
  let imFontSize :=
    GetPixelDataSize (im_width imFont) (im_height imFont) (im_format imFont) in
  CompressData (im_data imFont) imFontSize.

(** The font set-up inside the loading function. *)
Definition code_loader_font (g : Globals) (styleName : string) : list string :=
  let customFont := customFont g in
  let imFont := LoadImageFromTexture (texture customFont) in
  [ "    // Custom font loading" +:+ nl;
    "    // NOTE: Compressed font image data (DEFLATE), it requires DecompressData() function" +:+ nl;
    "    int " +:+ styleName +:+ "FontDataSize = 0;" +:+ nl;
    "    unsigned char *data = DecompressData(" +:+ styleName +:+ "FontData, " +:+ TextToUpper styleName +:+ "_COMPRESSED_DATA_SIZE, &" +:+ styleName +:+ "FontDataSize);" +:+ nl;
    "    Image imFont = { data, " +:+ fmt_i (im_width imFont) +:+ ", " +:+ fmt_i (im_height imFont) +:+ ", 1, " +:+ fmt_i (im_format imFont) +:+ " };" +:+ nl +:+ nl;
    "    Font font = { 0 };" +:+ nl;
    "    font.baseSize = " +:+ fmt_i (cast_int (current g DEFAULT TEXT_SIZE)) +:+ ";" +:+ nl;
    "    font.glyphCount = " +:+ fmt_i (glyphCount customFont) +:+ ";" +:+ nl +:+ nl;
    "    // Load texture from image" +:+ nl;
    "    font.texture = LoadTextureFromImage(imFont);" +:+ nl +:+ nl;
    "    // Copy char recs data from global fontRecs" +:+ nl;
    "    // NOTE: Required to avoid issues if trying to free font" +:+ nl;
    "    font.recs = (Rectangle *)malloc(font.glyphCount*sizeof(Rectangle));" +:+ nl;
    "    memcpy(font.recs, " +:+ styleName +:+ "FontRecs, font.glyphCount*sizeof(Rectangle));" +:+ nl +:+ nl;
    "    // Copy font char info data from global fontChars" +:+ nl;
    "    // NOTE: Required to avoid issues if trying to free font" +:+ nl;
    "    font.glyphs = (GlyphInfo *)malloc(font.glyphCount*sizeof(GlyphInfo));" +:+ nl;
    "    memcpy(font.glyphs, " +:+ styleName +:+ "FontChars, font.glyphCount*sizeof(GlyphInfo));" +:+ nl +:+ nl;
    "    GuiSetFont(font);" +:+ nl +:+ nl;
    "    // TODO: Setup a white rectangle on the font to be used on shapes drawing," +:+ nl;
    "    // this way we make sure all gui can be drawn on a single pass because no texture change is required" +:+ nl;
    "    // NOTE: Setting up this rectangle is a manual process (for the moment)" +:+ nl;
    "    //Rectangle whiteChar = { 0, 0, 0, 0 };" +:+ nl;
    "    //SetShapesTexture(font.texture, whiteChar);" +:+ nl +:+ nl ]%string.

(** The loading function. *)
Definition code_loader (g : Globals) (styleName : string) : list string :=
  [ "// Style loading function: " +:+ styleName +:+ nl;
    "static void GuiLoadStyle" +:+ TextToPascal styleName +:+ "(void)" +:+ nl +:+ "{" +:+ nl;
    "    // Load style properties provided" +:+ nl;
    "    // NOTE: Default properties are propagated" +:+ nl;
    "    for (int i = 0; i < " +:+ TextToUpper styleName +:+ "_STYLE_PROPS_COUNT; i++)" +:+ nl +:+ "    {" +:+ nl;
    "        GuiSetStyle(" +:+ styleName +:+ "StyleProps[i].controlId, " +:+ styleName +:+ "StyleProps[i].propertyId, " +:+ styleName +:+ "StyleProps[i].propertyValue);" +:+ nl +:+ "    }" +:+ nl +:+ nl ]%string
  ++ (if customFontLoaded g then code_loader_font g styleName else [])
  ++ [ "    //-----------------------------------------------------------------" +:+ nl +:+ nl;
    "    // TODO: Custom user style setup: Set specific properties here (if required)" +:+ nl;
    "    // i.e. Controls specific BORDER_WIDTH, TEXT_PADDING, TEXT_ALIGNMENT" +:+ nl;
    "}" +:+ nl ]%string.

(** The exported code of a style. *)
Definition code_file (g : Globals) (styleName : string) : string :=
  String.concat EmptyString
    (code_prologue styleName (Z.of_nat (length (computeChanges g)))
     ++ map code_line (computeChanges g)
     ++ [ ("};" +:+ nl +:+ nl)%string ]
     ++ (if customFontLoaded g then code_font g styleName else [])
     ++ code_loader g styleName).

(** What [ExportStyleAsCode] prints on the standard output. *)
Definition code_log (g : Globals) : string :=
  if customFontLoaded g
     && negb (im_format (LoadImageFromTexture (texture (customFont g)))
              =? PIXELFORMAT_UNCOMPRESSED_GRAY_ALPHA)%Z
  then "WARNING: Font image format is not GRAY+ALPHA!"%string
  else EmptyString.

(** *** The text format as the spec words it *)

(** The spec's symbolic name: "the control's display name concatenated with
    the property's display name for base properties, or a synthesized
    [EXT<nn>] label for extended properties". *)
Definition spec_symbolic_name (e : GuiStyleProp) : string :=
  if (propertyId e <? RAYGUI_MAX_PROPS_BASE)%nat
  then (text_at guiControlText (controlId e)
        +:+ text_at guiPropsText (propertyId e))%string
  else ("EXT" +:+ fmt_02i (Z.of_nat (propertyId e)
                            - Z.of_nat RAYGUI_MAX_PROPS_BASE))%string.

(** The spec's line:
    [p <controlIndex:2-digit> <propertyIndex:2-digit> 0x<value:8-hex>    <symbolic-name>] *)
Definition spec_text_line (e : GuiStyleProp) : string :=
  ("p " +:+ fmt_02i (Z.of_nat (controlId e)) +:+ " "
   +:+ fmt_02i (Z.of_nat (propertyId e))
   +:+ " 0x" +:+ fmt_08x (propertyValue e) +:+ "    "
   +:+ spec_symbolic_name e +:+ nl)%string.

(** The spec's text file: the comment header, the font warning when a
    custom font is loaded, then one line per Change-Set entry. *)
Definition spec_text_file (g : Globals) : string :=
  (text_header
   +:+ (if customFontLoaded g then text_font_warning else EmptyString)
   +:+ String.concat EmptyString (map spec_text_line (computeChanges g)))%string.

End ChangeSet.

(** ** Lines of generated source text *)

Definition newline : byte := "010"%byte.

(** The lines of a text, split at the newline characters. *)
Fixpoint text_lines (cur : list byte) (bs : list byte) : list (list byte) :=
  match bs with
  | [] => [rev cur]
  | b :: bs' =>
      if Byte.eqb b newline then rev cur :: text_lines [] bs'
      else text_lines (b :: cur) bs'
  end.

(** The number of [0x] literals in a line. *)
Fixpoint count_literals (line : list byte) : nat :=
  match line with
  | b0 :: ((b1 :: _) as rest) =>
      if Byte.eqb b0 "0"%byte && Byte.eqb b1 "x"%byte
      then S (count_literals rest) else count_literals rest
  | _ => 0%nat
  end.

(** The numbers of literals on the lines that the loop of
    [ExportStyleAsCode_fontData] gives from the byte of index [i] on, when
    the current line holds [c] literals already and [m] bytes come before
    the last one. The last line is followed by an empty line. *)
Fixpoint line_counts (c i m : nat) : list nat :=
  match m with
  | O => [S c; 0; 0]%nat
  | S m' =>
      if Z.of_nat i mod 20 =? 0
      then S c :: line_counts 0 (S i) m'
      else line_counts (S c) (S i) m'
  end.

(** How many byte entries each line of a text holds, for the lines that
    hold any. *)
Definition entries_per_line (bs : list byte) : list nat :=
  List.filter (fun n => negb (n =? 0)%nat) (map count_literals (text_lines [] bs)).


(** ** Command line, baseline snapshot and colour boxes *)

(** [raylib.h]: its version, the file-name helpers and the text helper
    that the command line uses. *)
Class RaylibText := {
  RAYLIB_VERSION : string;
  IsFileExtension : string -> string -> bool;
  TextToInteger : string -> Z;
  GetFileNameWithoutExt : string -> string
}.

(** [raygui.h]: its version and the style loader. [GuiLoadStyle] reads a
    style file and sets the properties of raygui's style table from it; it
    knows nothing of the variables of [rguistyler.c].
    [LoadedStyle fileName files table] is the table it leaves, given the
    files there are and the table before the call. *)
Class RayguiLoader := {
  RAYGUI_VERSION : string;
  LoadedStyle : string -> gmap string (list byte) -> list Z -> list Z
}.

(** A raylib [Color]: four [unsigned char]. *)
Record Color := {
  color_r : Z;
  color_g : Z;
  color_b : Z;
  color_a : Z
}.

(** Drawing the controls table goes through raygui's controls and raylib's
    render texture, which are not part of the sources: what
    [GenImageStyleControlsTable] and [ExportImage] do to the state is left
    open. *)
Class StyleTableImage {ray : Raylib} := {
  GenImageStyleControlsTable : string -> M Image;
  ExportImage : Image -> string -> M bool
}.

(** [raylib.h]: the mouse as it is during one frame, the collision test
    and the conversion of a 32-bit value to a colour. *)
Class RaylibInput {ray : Raylib} := {
  Vector2 : Type;
  Mouse : Type;
  GetMousePosition : Mouse -> Vector2;
  IsMouseButtonPressed : Mouse -> Z -> bool;
  MOUSE_LEFT_BUTTON : Z;
  MOUSE_RIGHT_BUTTON : Z;
  CheckCollisionPointRec : Vector2 -> Rectangle -> bool;
  GetColor : Z -> Color
}.

Definition toolName : string := "rGuiStyler".
Definition toolVersion : string := "3.5".
Definition toolDescription : string :=
  "A simple and easy-to-use raygui styles editor".

(** Position of [BORDER_COLOR_NORMAL] in [guiPropsText]. *)
Definition BORDER_COLOR_NORMAL : nat := 0%nat.

(** [s[0] == '\0'] *)
Definition empty_text (s : string) : bool :=
  match s with
  | EmptyString => true
  | String _ _ => false
  end.

(** [arg[0] != '-'] *)
Definition no_dash (arg : string) : bool :=
  match arg with
  | EmptyString => true
  | String c _ => negb (Ascii.eqb c "-")
  end.

(** [(strcmp(arg, short) == 0) || (strcmp(arg, long) == 0)] *)
Definition is_option (arg short long : string) : bool :=
  String.eqb arg short || String.eqb arg long.

(** The local variables of [ProcessCommandLine] (compiled with
    [VERSION_ONE]). The names are copied with [strcpy] into buffers of 256
    bytes: the model is that of arguments shorter than 256 characters. *)
Record CommandLine := {
  showUsageInfo : bool;
  inFileName : string;
  outFileName : string;
  outputFormat : Z
}.

Section CommandLineProgram.
Context {gui : Raygui} {ray : Raylib} {text : RaylibText} {loader : RayguiLoader}.
Context {image : StyleTableImage} {input : RaylibInput}.

Local Abbreviation NPROPS := (RAYGUI_MAX_PROPS_BASE + RAYGUI_MAX_PROPS_EXTENDED)%nat.

Notation "x <- m ;; k" := (bind m (fun x => k))
  (at level 100, m at next level, right associativity) : prog_scope.
Notation "m ;; k" := (bind m (fun _ => k))
  (at level 100, right associativity) : prog_scope.
Local Open Scope prog_scope.

Definition printf (s : string) : M unit := LOG s.

(** *** Show command line usage info *)

Definition ShowCommandLineInfo : M unit :=
  printf (nl +:+ "//////////////////////////////////////////////////////////////////////////////////" +:+ nl) ;;
  printf ("//                                                                              //" +:+ nl) ;;
  printf ("// " +:+ toolName +:+ " v" +:+ toolVersion +:+ " - " +:+ toolDescription +:+ "                 //" +:+ nl) ;;
  printf ("// powered by raylib v" +:+ RAYLIB_VERSION +:+ " and raygui v" +:+ RAYGUI_VERSION +:+ "                                       //" +:+ nl) ;;
  printf ("// more info and bugs-report: github.com/raylibtech/rtools                      //" +:+ nl) ;;
  printf ("// feedback and support:      ray[at]raylibtech.com                             //" +:+ nl) ;;
  printf ("//                                                                              //" +:+ nl) ;;
  printf ("// Copyright (c) 2017-2022 raylib technologies (@raylibtech)                    //" +:+ nl) ;;
  printf ("//                                                                              //" +:+ nl) ;;
  printf ("//////////////////////////////////////////////////////////////////////////////////" +:+ nl +:+ nl) ;;
  printf ("USAGE:" +:+ nl +:+ nl) ;;
  printf ("    > rguistyler [--help] --input <filename.ext> [--output <filename.ext>]" +:+ nl) ;;
  printf ("                 [--format <styleformat>] [--edit-prop <property> <value>]" +:+ nl) ;;
  printf (nl +:+ "OPTIONS:" +:+ nl +:+ nl) ;;
  printf ("    -h, --help                      : Show tool version and command line usage help" +:+ nl) ;;
  printf ("    -i, --input <filename.ext>      : Define input file." +:+ nl) ;;
  printf ("                                      Supported extensions: .rgs (text or binary)" +:+ nl) ;;
  printf ("    -o, --output <filename.ext>     : Define output file." +:+ nl) ;;
  printf ("                                      Supported extensions: .rgs, .png, .h" +:+ nl) ;;
  printf ("                                      NOTE: Extension could be modified depending on format" +:+ nl +:+ nl) ;;
  printf ("    -f, --format <type_value>       : Define output file format to export style data." +:+ nl) ;;
  printf ("                                      Supported values:" +:+ nl) ;;
  printf ("                                          0 - Style text format (.rgs)  " +:+ nl) ;;
  printf ("                                          1 - Style binary format (.rgs)" +:+ nl) ;;
  printf ("                                          2 - Style as code (.h)" +:+ nl) ;;
  printf ("                                          3 - Controls table image (.png)" +:+ nl +:+ nl) ;;
  printf (nl +:+ "EXAMPLES:" +:+ nl +:+ nl) ;;
  printf ("    > rguistyler --input tools.rgs --output tools.png" +:+ nl).

(** The text that [ShowCommandLineInfo] prints, one string for each
    [printf]. *)
Definition usage_text : list string :=
  [ nl +:+ "//////////////////////////////////////////////////////////////////////////////////" +:+ nl;
    "//                                                                              //" +:+ nl;
    "// " +:+ toolName +:+ " v" +:+ toolVersion +:+ " - " +:+ toolDescription +:+ "                 //" +:+ nl;
    "// powered by raylib v" +:+ RAYLIB_VERSION +:+ " and raygui v" +:+ RAYGUI_VERSION +:+ "                                       //" +:+ nl;
    "// more info and bugs-report: github.com/raylibtech/rtools                      //" +:+ nl;
    "// feedback and support:      ray[at]raylibtech.com                             //" +:+ nl;
    "//                                                                              //" +:+ nl;
    "// Copyright (c) 2017-2022 raylib technologies (@raylibtech)                    //" +:+ nl;
    "//                                                                              //" +:+ nl;
    "//////////////////////////////////////////////////////////////////////////////////" +:+ nl +:+ nl;
    "USAGE:" +:+ nl +:+ nl;
    "    > rguistyler [--help] --input <filename.ext> [--output <filename.ext>]" +:+ nl;
    "                 [--format <styleformat>] [--edit-prop <property> <value>]" +:+ nl;
    nl +:+ "OPTIONS:" +:+ nl +:+ nl;
    "    -h, --help                      : Show tool version and command line usage help" +:+ nl;
    "    -i, --input <filename.ext>      : Define input file." +:+ nl;
    "                                      Supported extensions: .rgs (text or binary)" +:+ nl;
    "    -o, --output <filename.ext>     : Define output file." +:+ nl;
    "                                      Supported extensions: .rgs, .png, .h" +:+ nl;
    "                                      NOTE: Extension could be modified depending on format" +:+ nl +:+ nl;
    "    -f, --format <type_value>       : Define output file format to export style data." +:+ nl;
    "                                      Supported values:" +:+ nl;
    "                                          0 - Style text format (.rgs)  " +:+ nl;
    "                                          1 - Style binary format (.rgs)" +:+ nl;
    "                                          2 - Style as code (.h)" +:+ nl;
    "                                          3 - Controls table image (.png)" +:+ nl +:+ nl;
    nl +:+ "EXAMPLES:" +:+ nl +:+ nl;
    "    > rguistyler --input tools.rgs --output tools.png" +:+ nl ]%string.

(** *** Process command line input *)

(** [GuiLoadStyle(fileName)]: raygui's table becomes what the loader makes
    of the file. *)
Definition GuiLoadStyle (fileName : string) : M unit :=
  fun st =>
    let g := globals st in
    (tt, {| globals :=
              {| guiStyle := LoadedStyle fileName (files (world st)) (guiStyle g);
                 styleBackup := styleBackup g;
                 customFont := customFont g;
                 customFontLoaded := customFontLoaded g;
                 fontFilePath := fontFilePath g |};
            world := world st |}).

Definition UnloadImage (image : Image) : M unit := ret tt.

(** Process command line arguments: the loop
    [for (int i = 1; i < argc; i++)], on the arguments from [argv[i]] on.
    [argv[i + 1]] is the argument after the first, [(i + 1) < argc] says
    that there is one, and the [i++] of an option that takes its value
    leaves the arguments after that value. *)
Fixpoint ProcessCommandLine_arguments (args : list string) (v : CommandLine)
    : M CommandLine :=
  match args with
  | [] => ret v
  | arg :: rest =>
      if is_option arg "-h" "--help" then
        ProcessCommandLine_arguments rest
          {| showUsageInfo := true;
             inFileName := inFileName v;
             outFileName := outFileName v;
             outputFormat := outputFormat v |}
      else if is_option arg "-i" "--input" then
        (* Check for valid argument and valid file extension *)
        match rest with
        | next :: rest' =>
            if no_dash next then
              if IsFileExtension next ".rgs" then
                ProcessCommandLine_arguments rest'
                  {| showUsageInfo := showUsageInfo v;
                     inFileName := next;
                     outFileName := outFileName v;
                     outputFormat := outputFormat v |}
              else
                printf ("WARNING: Input file extension not recognized" +:+ nl) ;;
                ProcessCommandLine_arguments rest' v
            else
              printf ("WARNING: No input file provided" +:+ nl) ;;
              ProcessCommandLine_arguments rest v
        | [] =>
            printf ("WARNING: No input file provided" +:+ nl) ;;
            ProcessCommandLine_arguments rest v
        end
      else if is_option arg "-o" "--output" then
        match rest with
        | next :: rest' =>
            if no_dash next then
              if IsFileExtension next ".rgs"
                 || IsFileExtension next ".h"
                 || IsFileExtension next ".png" then
                ProcessCommandLine_arguments rest'
                  {| showUsageInfo := showUsageInfo v;
                     inFileName := inFileName v;
                     outFileName := next;
                     outputFormat := outputFormat v |}
              else
                printf ("WARNING: Output file extension not recognized" +:+ nl) ;;
                ProcessCommandLine_arguments rest' v
            else
              printf ("WARNING: No output file provided" +:+ nl) ;;
              ProcessCommandLine_arguments rest v
        | [] =>
            printf ("WARNING: No output file provided" +:+ nl) ;;
            ProcessCommandLine_arguments rest v
        end
      else if is_option arg "-f" "--format" then
        (* Check for valid argumment and valid parameters *)
        match rest with
        | next :: rest' =>
            if no_dash next then
              let format := TextToInteger next in
              ProcessCommandLine_arguments rest'
                (if (0 <=? format) && (format <=? 3)
                 then {| showUsageInfo := showUsageInfo v;
                         inFileName := inFileName v;
                         outFileName := outFileName v;
                         outputFormat := format |}
                 else v)
            else
              printf ("WARNING: Format parameters provided not valid" +:+ nl) ;;
              ProcessCommandLine_arguments rest v
        | [] =>
            printf ("WARNING: Format parameters provided not valid" +:+ nl) ;;
            ProcessCommandLine_arguments rest v
        end
      else ProcessCommandLine_arguments rest v
  end.

(** The second part of [ProcessCommandLine]: with an input file, the style
    is loaded and exported in the format asked for. *)
Definition ProcessCommandLine_export (v : CommandLine) : M unit :=
  if negb (empty_text (inFileName v)) then
    let inFileName := inFileName v in
    let outputFormat := outputFormat v in
    (* Set a default name for output in case not provided *)
    let outFileName :=
      if empty_text (outFileName v) then "output"%string
      else outFileName v in
    printf (nl +:+ "Input file:       " +:+ inFileName) ;;
    printf (nl +:+ "Output file:      " +:+ outFileName) ;;
    (* Process input .rgs file *)
    GuiLoadStyle inFileName ;;
    (* Export style files with different formats *)
    (if outputFormat =? STYLE_BINARY then
       _ <- SaveStyle (outFileName +:+ ".rgs") outputFormat ;; ret tt
     else if outputFormat =? STYLE_AS_CODE then
       ExportStyleAsCode (outFileName +:+ ".h")
         (GetFileNameWithoutExt outFileName)
     else if outputFormat =? STYLE_TABLE_IMAGE then
       imStyleTable <-
         GenImageStyleControlsTable (GetFileNameWithoutExt outFileName) ;;
       _ <- ExportImage imStyleTable (outFileName +:+ ".png") ;;
       UnloadImage imStyleTable
     else ret tt)
  else ret tt.

(** [ProcessCommandLine(argc, argv)], [argc] being the length of [argv]. *)
Definition ProcessCommandLine (argv : list string) : M unit :=
  (* CLI required variables *)
  v <- ProcessCommandLine_arguments (skipn 1 argv)
         {| showUsageInfo := false;
            inFileName := EmptyString;
            outFileName := EmptyString;
            outputFormat := STYLE_BINARY |} ;;
  ProcessCommandLine_export v ;;
  if showUsageInfo v then ShowCommandLineInfo else ret tt.

(** *** The baseline snapshot *)

(** [styleBackup[k] = v] *)
Definition set_styleBackup (k : nat) (v : Z) : M unit :=
  fun st =>
    let g := globals st in
    (tt, {| globals :=
              {| guiStyle := guiStyle g;
                 styleBackup := <[k := v]> (styleBackup g);
                 customFont := customFont g;
                 customFontLoaded := customFontLoaded g;
                 fontFilePath := fontFilePath g |};
            world := world st |}).

(** The loop of [main] that keeps a backup of the style, used to track
    changes:
    [for (int i = 0; i < RAYGUI_MAX_CONTROLS; i++)
       for (int j = 0; j < (RAYGUI_MAX_PROPS_BASE + RAYGUI_MAX_PROPS_EXTENDED); j++)
         styleBackup[i*(RAYGUI_MAX_PROPS_BASE + RAYGUI_MAX_PROPS_EXTENDED) + j] = GuiGetStyle(i, j);] *)
Definition main_keep_backup : M unit :=
  for_ 0 RAYGUI_MAX_CONTROLS (fun i _ =>
    for_ 0 NPROPS (fun j _ =>
      value <- GuiGetStyle i j ;;
      set_styleBackup (i * NPROPS + j) value) tt) tt.

(** *** Color box control to save color samples from color picker *)

(** The drawing calls of raylib, recorded in the order they are made. *)
Inductive DrawCall :=
| DrawRectangleRec (rec : Rectangle) (color : Color)
| DrawRectangleLinesEx (rec : Rectangle) (lineThick : Z) (color : Color).

(** [GuiColorBox(bounds, &picker, color)] in a frame where the mouse is
    [mouse]: the result is the colour returned, the colour [*colorPicker]
    holds after the call and the drawing calls made. *)
Definition GuiColorBox (mouse : Mouse) (bounds : Rectangle)
    (colorPicker : Color) (color : Color)
    : M (Color * Color * list DrawCall) :=
  let mousePoint := GetMousePosition mouse in
  (* Update color box *)
  let '(colorPicker, color) :=
    if CheckCollisionPointRec mousePoint bounds then
      if IsMouseButtonPressed mouse MOUSE_LEFT_BUTTON then
        ({| color_r := color_r color; color_g := color_g color;
            color_b := color_b color; color_a := color_a color |}, color)
      else if IsMouseButtonPressed mouse MOUSE_RIGHT_BUTTON then
        (colorPicker, colorPicker)
      else (colorPicker, color)
    else (colorPicker, color) in
  (* Draw color box *)
  border <- GuiGetStyle DEFAULT BORDER_COLOR_NORMAL ;;
  ret (color, colorPicker,
       [ DrawRectangleRec bounds color;
         DrawRectangleLinesEx bounds 1 (GetColor border) ]).

End CommandLineProgram.
(** ** Examples *)

Module Examples.

(** The dimensions of raygui 3.1, which the tables of [rguistyler.c] are
    initialised for: 16 controls, 16 base and 8 extended properties. *)
Definition raygui_3_1 : Raygui :=
  {| RAYGUI_MAX_CONTROLS := 16;
     RAYGUI_MAX_PROPS_BASE := 16;
     RAYGUI_MAX_PROPS_EXTENDED := 8;
     TEXT_SIZE := 16;
     TEXT_SPACING := 17 |}.

(** A stand-in for raylib, to run the model on examples: a float is an
    integer, a texture is its image, compression stores the data as it is
    and the text helpers return their argument. *)
Definition raylib_plain : Raylib :=
  {| float := Z;
     float_zero := 0;
     float_bytes := le_bytes 4;
     fmt_1_0f := fmt_i;
     Texture2D := Image;
     LoadImageFromTexture := fun im => im;
     GetPixelDataSize := fun w h _ => w * h * 2;
     ImageFormat := fun im fmt =>
       {| im_data := im_data im; im_width := im_width im;
          im_height := im_height im; im_mipmaps := im_mipmaps im;
          im_format := fmt |};
     CompressData := fun data _ => data;
     PIXELFORMAT_UNCOMPRESSED_GRAY_ALPHA := 2;
     GetFileName := fun path => path;
     TextToPascal := fun text => text;
     TextToUpper := fun text => text |}.

#[local] Existing Instance raygui_3_1.
#[local] Existing Instance raylib_plain.

(** A font without glyphs whose atlas holds the bytes [data]. *)
Definition font_of (data : list byte) : Font :=
  {| baseSize := 10;
     glyphCount := 0;
     texture := {| im_data := data; im_width := 1; im_height := 1;
                   im_mipmaps := 1; im_format := 2 |};
     recs := [];
     glyphs := [] |}.

(** A table of 16 x 24 values, all of them [v]. *)
Definition table_of (v : Z) : list Z := repeat v (16 * 24).

(** [table[i][j] = v] *)
Definition set_prop (i j : nat) (v : Z) (table : list Z) : list Z :=
  <[ (i * 24 + j)%nat := v ]> table.

(** A file system where every name but those under [/ro/] can be opened for
    writing. *)
Definition world0 : World :=
  {| files := ∅;
     writable := fun name => negb (String.prefix "/ro/" name);
     fopen_log := [];
     stdout := [] |}.

(** The scenario of the spec: only DEFAULT's BASE_COLOR_NORMAL differs from
    the baseline, [0xFFFFFFFF] there and [0x202020FF] now; no custom font. *)
Definition st_base_color : state :=
  {| globals :=
       {| guiStyle := set_prop 0 1 0x202020FF (table_of 0);
          styleBackup := set_prop 0 1 0xFFFFFFFF (table_of 0);
          customFont := font_of [];
          customFontLoaded := false;
          fontFilePath := EmptyString |};
     world := world0 |}.

(** LABEL (1) and BUTTON (2) both hold [0x11223344] as TEXT_COLOR_NORMAL
    (2), which DEFAULT and the baseline have as [0]; SLIDER (4) had
    BORDER_WIDTH (12) changed to [7], and DEFAULT's BORDER_WIDTH too. *)
Definition st_siblings : state :=
  {| globals :=
       {| guiStyle :=
            set_prop 1 2 0x11223344
              (set_prop 2 2 0x11223344
                 (set_prop 4 12 7 (set_prop 0 12 7 (table_of 0))));
          styleBackup := table_of 0;
          customFont := font_of [];
          customFontLoaded := false;
          fontFilePath := EmptyString |};
     world := world0 |}.

(** A custom font is loaded; BUTTON (2) has TEXT_COLOR_NORMAL (2) and its
    first extended property (16) changed. *)
Definition st_font : state :=
  {| globals :=
       {| guiStyle :=
            set_prop 2 2 0x11223344 (set_prop 2 16 5 (table_of 0));
          styleBackup := table_of 0;
          customFont := font_of [x01; x02];
          customFontLoaded := true;
          fontFilePath := "font.ttf" |};
     world := world0 |}.

(** A custom font is loaded and nothing has changed; DEFAULT's TEXT_SIZE
    (16) is [10] and its TEXT_SPACING (17) is [0xFFFFFFFF], which
    [GuiGetStyle] returns as the [int] [-1]. *)
Definition st_font_spacing : state :=
  {| globals :=
       {| guiStyle := set_prop 0 16 10 (set_prop 0 17 0xFFFFFFFF (table_of 0));
          styleBackup := set_prop 0 16 10 (set_prop 0 17 0xFFFFFFFF (table_of 0));
          customFont := font_of [x01; x02];
          customFontLoaded := true;
          fontFilePath := "font.ttf" |};
     world := world0 |}.

(** Twenty-one bytes of compressed data, [0x00] to [0x14]. *)
Definition data21 : list byte :=
  map (fun i => byte_of_Z (Z.of_nat i)) (seq 0 21).

(** A state in which the stream [out.h] is open and empty. *)
Definition st_open : state :=
  {| globals := globals st_base_color;
     world := {| files := {[ "out.h"%string := [] ]};
                 writable := writable world0;
                 fopen_log := [("out.h", "wt")]%string;
                 stdout := [] |} |}.


(** Stand-ins for the helpers of the command line: a name has an extension
    when it ends with it, a number is read from its decimal digits (0 for
    anything else) and a name is its own name without extension. *)
Definition raylib_text_plain : RaylibText :=
  {| RAYLIB_VERSION := "4.0";
     IsFileExtension := fun fileName ext =>
       let n := String.length fileName in
       let m := String.length ext in
       (m <=? n)%nat && String.eqb (substring (n - m) m fileName) ext;
     TextToInteger := fun text =>
       match NilZero.int_of_string text with
       | Some i => Z.of_int i
       | None => 0
       end;
     GetFileNameWithoutExt := fun filePath => filePath |}.

(** A stand-in for the loader: a style file holds one byte for each cell of
    the table, from the first cell on; a file that is not there leaves the
    table as it is. *)
Definition raygui_loader_plain : RayguiLoader :=
  {| RAYGUI_VERSION := "3.1";
     LoadedStyle := fun fileName files table =>
       match files !! fileName with
       | Some content =>
           map (fun b => Z.of_N (Byte.to_N b)) content
           ++ drop (length content) table
       | None => table
       end |}.

(** A stand-in for the table image: an empty image, written nowhere. *)
Definition table_image_plain : StyleTableImage :=
  {| GenImageStyleControlsTable := fun _ st => (image_zero, st);
     ExportImage := fun _ _ st => (true, st) |}.

(** A stand-in for the mouse: its position, on a line, and the buttons
    that are pressed; a rectangle is hit between [x] and [x + width]. *)
Definition raylib_input_plain : RaylibInput :=
  {| Vector2 := Z;
     Mouse := Z * list Z;
     GetMousePosition := fun mouse => fst mouse;
     IsMouseButtonPressed := fun mouse button =>
       existsb (Z.eqb button) (snd mouse);
     MOUSE_LEFT_BUTTON := 0;
     MOUSE_RIGHT_BUTTON := 1;
     CheckCollisionPointRec := fun point rec =>
       (rec_x rec <=? point) && (point <? rec_x rec + rec_width rec);
     GetColor := fun hexValue =>
       {| color_r := (hexValue / 2 ^ 24) mod 256;
          color_g := (hexValue / 2 ^ 16) mod 256;
          color_b := (hexValue / 2 ^ 8) mod 256;
          color_a := hexValue mod 256 |} |}.

(** The program as it starts: [styleBackup] and the font variables hold
    their static initial values, raygui holds the table [table], and the
    style file [in.rgs] is there. *)
Definition st_start (table : list Z) : state :=
  {| globals :=
       {| guiStyle := table;
          styleBackup := table_of 0;
          customFont := font_of [];
          customFontLoaded := false;
          fontFilePath := EmptyString |};
     world := {| files := {[ "in.rgs"%string := [x05; x00; x07] ]};
                 writable := writable world0;
                 fopen_log := [];
                 stdout := [] |} |}.
End Examples.

(** * Properties *)

Section Properties.
Context {gui : Raygui} {ray : Raylib}.

Local Abbreviation NPROPS := (RAYGUI_MAX_PROPS_BASE + RAYGUI_MAX_PROPS_EXTENDED)%nat.

(** ** Appending to a file *)

Lemma append_file_nil f w : append_file f [] w = w.
Proof.
  destruct w as [fs wr lg out]. unfold append_file. simpl. f_equal.
  apply alter_id. intros x _. apply app_nil_r.
Qed.

Lemma append_file_app f b1 b2 w :
  append_file f b2 (append_file f b1 w) = append_file f (b1 ++ b2) w.
Proof.
  unfold append_file. simpl. f_equal.
  rewrite alter_alter_eq. apply alter_ext. intros x _. simpl.
  symmetry. apply app_assoc.
Qed.

Lemma with_file_nil f st : with_file f [] st = st.
Proof. destruct st. unfold with_file. simpl. by rewrite append_file_nil. Qed.

Lemma with_file_app f b1 b2 st :
  with_file f b2 (with_file f b1 st) = with_file f (b1 ++ b2) st.
Proof. unfold with_file. simpl. by rewrite append_file_app. Qed.

Lemma globals_with_file f bs st : globals (with_file f bs st) = globals st.
Proof. reflexivity. Qed.

(** ** Running a computation *)

Lemma bind_run {A B} (m : M A) (k : A -> M B) st :
  bind m k st = k (m st).1 (m st).2.
Proof. reflexivity. Qed.

(** The test of the DEFAULT loops. *)
Lemma default_test_run j st :
  ne_ (styleBackup_at j) (GuiGetStyle 0 j) st
  = (changedDefault (globals st) j, st).
Proof. reflexivity. Qed.

(** The test of the loops over the other controls. *)
Lemma control_test_run i j st :
  and_ (ne_ (styleBackup_at (i * NPROPS + j)) (GuiGetStyle i j))
       (ne_ (GuiGetStyle i j) (GuiGetStyle 0 j)) st
  = (changedControl (globals st) i j, st).
Proof.
  unfold and_, changedControl. rewrite bind_run.
  change (ne_ (styleBackup_at (i * NPROPS + j)) (GuiGetStyle i j) st)
    with (negb (baseline (globals st) i j =? current (globals st) i j), st).
  cbn [fst snd]. by destruct (negb (baseline _ i j =? _)).
Qed.

Lemma GuiGetStyle_run i j st :
  GuiGetStyle i j st = (current (globals st) i j, st).
Proof. reflexivity. Qed.

Lemma global_run {A} (var : Globals -> A) st :
  global var st = (var (globals st), st).
Proof. reflexivity. Qed.

Lemma fwrite_run bs f st : fwrite bs f st = (tt, with_file f bs st).
Proof. reflexivity. Qed.

Lemma fprintf_run f s st :
  fprintf f s st = (tt, with_file f (bytes_of_text s) st).
Proof. reflexivity. Qed.

Lemma ret_run {A} (a : A) st : ret a st = (a, st).
Proof. reflexivity. Qed.

(** ** Loops *)

(** A loop whose body only counts: the result is the number of counted
    iterations added to the initial value, and the state is unchanged. *)
Lemma for_count_counts {E} (w : nat -> Globals -> list E)
    (body : nat -> Z -> M Z) n :
  (forall i a st,
      body i a st = (a + Z.of_nat (length (w i (globals st))), st)) ->
  forall lo a st,
    for_count n lo body a st
    = (a + Z.of_nat (length (flat_map (fun i => w i (globals st)) (seq lo n))),
       st).
Proof.
  intros Hbody. induction n as [|n IH]; intros lo a st; simpl.
  - unfold ret. by rewrite Z.add_0_r.
  - unfold bind. rewrite Hbody. simpl. rewrite IH.
    rewrite length_app. f_equal. lia.
Qed.

(** A loop whose body only appends to the stream [f]: the loop appends the
    outputs of the iterations, in order. *)
Lemma for_count_writes f (w : nat -> Globals -> list byte)
    (body : nat -> unit -> M unit) n :
  forall lo,
    (forall i st, (lo <= i < lo + n)%nat ->
        body i tt st = (tt, with_file f (w i (globals st)) st)) ->
    forall st,
      for_count n lo body tt st
      = (tt, with_file f (flat_map (fun i => w i (globals st)) (seq lo n)) st).
Proof.
  induction n as [|n IH]; intros lo Hbody st; simpl.
  - unfold ret. by rewrite with_file_nil.
  - unfold bind. rewrite Hbody by lia. simpl. rewrite IH.
    + simpl. by rewrite with_file_app.
    + intros i st' Hi. apply Hbody. lia.
Qed.

Lemma flat_map_cond {A B} (c : nat -> bool) (e : nat -> A) (enc : A -> list B) l :
  flat_map enc (flat_map (fun j => if c j then [e j] else []) l)
  = flat_map (fun j => if c j then enc (e j) else []) l.
Proof.
  induction l as [|j l IH]; simpl; [done|].
  rewrite flat_map_app, IH. destruct (c j); simpl; [|done].
  by rewrite app_nil_r.
Qed.

Lemma flat_map_flat_map {A B C} (f : A -> list B) (g : B -> list C) l :
  flat_map g (flat_map f l) = flat_map (fun x => flat_map g (f x)) l.
Proof.
  induction l as [|x l IH]; simpl; [done|]. by rewrite flat_map_app, IH.
Qed.


Lemma for_counts {E} (w : nat -> Globals -> list E)
    (body : nat -> Z -> M Z) lo hi :
  (forall i a st,
      body i a st = (a + Z.of_nat (length (w i (globals st))), st)) ->
  forall a st,
    for_ lo hi body a st
    = (a + Z.of_nat (length (flat_map (fun i => w i (globals st))
                               (seq lo (hi - lo)))), st).
Proof. intros Hbody a st. unfold for_. by apply for_count_counts. Qed.

Lemma for_writes f (w : nat -> Globals -> list byte)
    (body : nat -> unit -> M unit) lo hi :
  (forall i st, (lo <= i < hi)%nat ->
      body i tt st = (tt, with_file f (w i (globals st)) st)) ->
  forall st,
    for_ lo hi body tt st
    = (tt, with_file f (flat_map (fun i => w i (globals st))
                          (seq lo (hi - lo))) st).
Proof.
  intros Hbody st. unfold for_. apply for_count_writes.
  intros i st' Hi. apply Hbody. lia.
Qed.

(** ** StyleChangesCounter *)

(** The counter returns the length of the Change-Set and leaves the state
    as it is. *)
Lemma StyleChangesCounter_run st :
  StyleChangesCounter st
  = (Z.of_nat (length (computeChanges (globals st))), st).
Proof.
  unfold StyleChangesCounter. rewrite bind_run.
  rewrite (for_counts (fun j g =>
    if changedDefault g j then [entry g 0 j] else [])).
  2:{ intros i a st'. rewrite bind_run, default_test_run. cbn [fst snd].
      destruct (changedDefault _ _); rewrite ret_run; simpl; f_equal; lia. }
  cbn [fst snd]. rewrite bind_run.
  rewrite (for_counts (fun i g => controlChanges g i)).
  2:{ intros i a st'. unfold controlChanges.
      rewrite (for_counts (fun j g =>
        if changedControl g i j then [entry g i j] else []));
        [by rewrite Nat.sub_0_r|].
      intros j a' st''. rewrite bind_run, control_test_run. cbn [fst snd].
      destruct (changedControl _ _ _); rewrite ret_run; simpl; f_equal; lia. }
  cbn [fst snd]. rewrite ret_run. f_equal.
  unfold computeChanges, defaultChanges.
  rewrite length_app, Nat.sub_0_r, Nat2Z.inj_add. reflexivity.
Qed.

(** ** The loops that write the Change-Set *)

(** Whatever a writer appends for one entry ([enc]), its DEFAULT loop
    appends that for the changed DEFAULT properties, in order. *)
Lemma default_loop_writes f (enc : GuiStyleProp -> list byte)
    (body : nat -> unit -> M unit) :
  (forall j st,
      body j tt st
      = (tt, with_file f (if changedDefault (globals st) j
                          then enc (entry (globals st) 0 j) else []) st)) ->
  forall st,
    for_ 0 NPROPS body tt st
    = (tt, with_file f (flat_map enc (defaultChanges (globals st))) st).
Proof.
  intros Hbody st.
  rewrite (for_writes f (fun j g =>
    if changedDefault g j then enc (entry g 0 j) else [])); [|by intros].
  unfold defaultChanges. by rewrite flat_map_cond, Nat.sub_0_r.
Qed.

(** The same for the nested loops over the other controls. *)
Lemma control_loops_write f (enc : GuiStyleProp -> list byte)
    (body : nat -> nat -> unit -> M unit) :
  (forall i j st, (1 <= i)%nat ->
      body i j tt st
      = (tt, with_file f (if changedControl (globals st) i j
                          then enc (entry (globals st) i j) else []) st)) ->
  forall st,
    for_ 1 RAYGUI_MAX_CONTROLS (fun i _ => for_ 0 NPROPS (body i) tt) tt st
    = (tt, with_file f
             (flat_map enc (flat_map (controlChanges (globals st))
                              (seq 1 (RAYGUI_MAX_CONTROLS - 1)))) st).
Proof.
  intros Hbody st.
  rewrite (for_writes f (fun i g => flat_map enc (controlChanges g i))).
  - by rewrite flat_map_flat_map.
  - intros i st' Hi.
    rewrite (for_writes f (fun j g =>
      if changedControl g i j then enc (entry g i j) else []));
      [|intros; apply Hbody; lia].
    unfold controlChanges. by rewrite flat_map_cond, Nat.sub_0_r.
Qed.

(** ** stdio *)

Lemma with_file_saved f mode content bs st :
  with_file f bs (saved f mode content st) = saved f mode (content ++ bs) st.
Proof.
  unfold with_file, saved, append_file. simpl.
  by rewrite alter_insert_eq.
Qed.

Lemma fopen_run_ok f mode st :
  writable (world st) f = true ->
  fopen f mode st = (Some f, saved f mode [] st).
Proof. intros Hw. unfold fopen. by rewrite Hw. Qed.

Lemma fopen_run_fail f mode st :
  writable (world st) f = false ->
  fopen f mode st = (None, refused f mode st).
Proof. intros Hw. unfold fopen. by rewrite Hw. Qed.

(** ** SaveStyle, binary *)

Ltac run_step :=
  rewrite bind_run;
  rewrite ?fwrite_run, ?fprintf_run, ?GuiGetStyle_run, ?global_run,
    ?StyleChangesCounter_run, ?ret_run;
  cbn [fst snd].

Lemma binary_default_body f j st :
  if_ (ne_ (styleBackup_at j) (GuiGetStyle 0 j))
    (let propertyId := cast_short (Z.of_nat j) in
     bind (GuiGetStyle 0 j) (fun propertyValue =>
     bind (fwrite (le_bytes sizeof_short 0) f) (fun _ =>
     bind (fwrite (le_bytes sizeof_short propertyId) f) (fun _ =>
     fwrite (le_bytes sizeof_int propertyValue) f)))) st
  = (tt, with_file f (if changedDefault (globals st) j
                      then record_bytes (entry (globals st) 0 j) else []) st).
Proof.
  unfold if_. rewrite bind_run, default_test_run. cbn [fst snd].
  destruct (changedDefault _ _).
  - do 3 run_step. rewrite !with_file_app. reflexivity.
  - by rewrite ret_run, with_file_nil.
Qed.

Lemma binary_control_body f i j st :
  if_ (and_ (ne_ (styleBackup_at (i * NPROPS + j)) (GuiGetStyle i j))
            (ne_ (GuiGetStyle i j) (GuiGetStyle 0 j)))
    (let controlId := cast_short (Z.of_nat i) in
     let propertyId := cast_short (Z.of_nat j) in
     bind (GuiGetStyle i j) (fun propertyValue =>
     bind (fwrite (le_bytes sizeof_short controlId) f) (fun _ =>
     bind (fwrite (le_bytes sizeof_short propertyId) f) (fun _ =>
     fwrite (le_bytes sizeof_int propertyValue) f)))) st
  = (tt, with_file f (if changedControl (globals st) i j
                      then record_bytes (entry (globals st) i j) else []) st).
Proof.
  unfold if_. rewrite bind_run, control_test_run. cbn [fst snd].
  destruct (changedControl _ _ _).
  - do 3 run_step. rewrite !with_file_app. reflexivity.
  - by rewrite ret_run, with_file_nil.
Qed.

Lemma font_recs_loop f (font : Font) n st :
  for_ 0 n (fun i _ => fwrite (rect_bytes (nth i (recs font) rect_zero)) f) tt st
  = (tt, with_file f
           (flat_map (fun i => rect_bytes (nth i (recs font) rect_zero))
              (seq 0 n)) st).
Proof.
  rewrite (for_writes f (fun i _ => rect_bytes (nth i (recs font) rect_zero)));
    [by rewrite Nat.sub_0_r | reflexivity].
Qed.

Lemma font_glyphs_loop f (font : Font) n st :
  for_ 0 n (fun i _ =>
    let glyph := nth i (glyphs font) glyph_zero in
    bind (fwrite (le_bytes sizeof_int (glyph_value glyph)) f) (fun _ =>
    bind (fwrite (le_bytes sizeof_int (glyph_offsetX glyph)) f) (fun _ =>
    bind (fwrite (le_bytes sizeof_int (glyph_offsetY glyph)) f) (fun _ =>
    fwrite (le_bytes sizeof_int (glyph_advanceX glyph)) f)))) tt st
  = (tt, with_file f
           (flat_map (fun i =>
              let glyph := nth i (glyphs font) glyph_zero in
              le_bytes sizeof_int (glyph_value glyph)
              ++ le_bytes sizeof_int (glyph_offsetX glyph)
              ++ le_bytes sizeof_int (glyph_offsetY glyph)
              ++ le_bytes sizeof_int (glyph_advanceX glyph))
              (seq 0 n)) st).
Proof.
  rewrite (for_writes f (fun i _ =>
    let glyph := nth i (glyphs font) glyph_zero in
    le_bytes sizeof_int (glyph_value glyph)
    ++ le_bytes sizeof_int (glyph_offsetX glyph)
    ++ le_bytes sizeof_int (glyph_offsetY glyph)
    ++ le_bytes sizeof_int (glyph_advanceX glyph)));
    [by rewrite Nat.sub_0_r|].
  intros i st' _. do 3 run_step. rewrite !with_file_app.
  by rewrite <- ?app_assoc.
Qed.

(** The font branch appends [font_bytes]. *)
Lemma SaveStyle_font_run f st :
  SaveStyle_font f st = (tt, with_file f (font_bytes (globals st)) st).
Proof.
  unfold SaveStyle_font, font_bytes. run_step.
  destruct (negb (im_format _ =? _)).
  - do 11 run_step. rewrite bind_run, font_recs_loop. cbn [fst snd].
    rewrite font_glyphs_loop, !with_file_app.
    by rewrite <- ?app_assoc.
  - do 11 run_step. rewrite bind_run, font_recs_loop. cbn [fst snd].
    rewrite font_glyphs_loop, !with_file_app.
    by rewrite <- ?app_assoc.
Qed.

Lemma bind_step {A B} (m : M A) (k : A -> M B) st a st' r :
  m st = (a, st') -> k a st' = r -> bind m k st = r.
Proof. intros Hm Hk. by rewrite bind_run, Hm. Qed.

Lemma bind_assoc_run {A B C} (m : M A) (k1 : A -> M B) (k2 : B -> M C) st :
  bind (bind m k1) k2 st = bind m (fun x => bind (k1 x) k2) st.
Proof. reflexivity. Qed.

Lemma with_stdout_nil st : with_stdout EmptyString st = st.
Proof.
  destruct st as [g [fs wr lg out]]. unfold with_stdout. simpl.
  by rewrite app_nil_r.
Qed.

Lemma log_run (c : bool) s st :
  (if c then LOG s else ret tt) st
  = (tt, with_stdout (if c then s else EmptyString) st).
Proof. destruct c; [done|]. by rewrite ret_run, with_stdout_nil. Qed.

(** One step of a straight-line computation. *)
Ltac step :=
  lazymatch goal with
  | |- bind (bind _ _) _ _ = _ => apply (eq_trans (bind_assoc_run _ _ _ _))
  | |- bind (fwrite _ _) _ _ = _ => eapply bind_step; [apply fwrite_run|]
  | |- bind (fprintf _ _) _ _ = _ => eapply bind_step; [apply fprintf_run|]
  | |- bind (GuiGetStyle _ _) _ _ = _ =>
      eapply bind_step; [apply GuiGetStyle_run|]
  | |- bind (global _) _ _ = _ => eapply bind_step; [apply global_run|]
  | |- bind StyleChangesCounter _ _ = _ =>
      eapply bind_step; [apply StyleChangesCounter_run|]
  | |- bind (ret _) _ _ = _ => eapply bind_step; [apply ret_run|]
  | |- bind (fclose _) _ _ = _ => eapply bind_step; [apply ret_run|]
  | |- bind (if _ then LOG _ else ret tt) _ _ = _ =>
      eapply bind_step; [apply log_run|]
  end;
  cbv beta iota zeta.

Lemma binary_font_run f st :
  (if customFontLoaded (globals st) then SaveStyle_font f
   else fwrite (le_bytes sizeof_int 0) f) st
  = (tt, with_file f (binary_font_section (globals st)) st).
Proof.
  unfold binary_font_section. destruct (customFontLoaded _); [|done].
  apply SaveStyle_font_run.
Qed.

(** A successful binary save writes [binary_file]. *)
Lemma SaveStyle_binary_run fileName st :
  writable (world st) fileName = true ->
  SaveStyle fileName STYLE_BINARY st
  = (true, saved fileName "wb" (binary_file (globals st)) st).
Proof.
  intros Hw. unfold SaveStyle.
  change (STYLE_BINARY =? STYLE_BINARY) with true.
  change (STYLE_BINARY =? STYLE_TEXT) with false. cbv iota.
  eapply bind_step; [|apply ret_run].
  eapply bind_step; [by apply fopen_run_ok|]. cbv beta iota zeta.
  do 5 step.
  eapply bind_step.
  { apply (default_loop_writes fileName record_bytes).
    intros j st'. apply binary_default_body. }
  eapply bind_step.
  { apply (control_loops_write fileName record_bytes).
    intros i j st' _. apply binary_control_body. }
  step. eapply bind_step; [apply binary_font_run|].
  step. rewrite ret_run. f_equal.
  rewrite !with_file_app, with_file_saved. cbn [globals with_file saved].
  unfold binary_file, binary_header, computeChanges.
  rewrite flat_map_app. simpl app at 1.
  by rewrite <- ?app_assoc.
Qed.

(** ** SaveStyle, text *)

Lemma bytes_of_text_app s1 s2 :
  bytes_of_text (s1 +:+ s2) = bytes_of_text s1 ++ bytes_of_text s2.
Proof.
  unfold bytes_of_text, list_byte_of_string.
  induction s1 as [|c s1 IH]; simpl; [done|]. by f_equal.
Qed.

Lemma bytes_of_text_concat {A} (line : A -> string) (l : list A) :
  bytes_of_text (String.concat EmptyString (map line l))
  = flat_map (fun e => bytes_of_text (line e)) l.
Proof.
  induction l as [|e l IH]; [done|].
  simpl flat_map. rewrite <- IH. simpl map.
  destruct (map line l) as [|s ss] eqn:E.
  - simpl. destruct l; [|done]. simpl. by rewrite app_nil_r.
  - simpl String.concat at 1. simpl append at 1.
    by rewrite bytes_of_text_app.
Qed.

Lemma text_default_body f j st :
  if_ (ne_ (styleBackup_at j) (GuiGetStyle 0 j))
    (bind (GuiGetStyle 0 j) (fun value =>
     fprintf f
       ("p 00 " +:+ fmt_02i (Z.of_nat j) +:+ " 0x" +:+ fmt_08x value
        +:+ "    DEFAULT_" +:+ prop_label j +:+ " " +:+ nl))) st
  = (tt, with_file f (if changedDefault (globals st) j
                      then bytes_of_text (text_line (entry (globals st) 0 j))
                      else []) st).
Proof.
  unfold if_. rewrite bind_run, default_test_run. cbn [fst snd].
  destruct (changedDefault _ _).
  - run_step. reflexivity.
  - by rewrite ret_run, with_file_nil.
Qed.

Lemma text_control_body f i j st :
  if_ (and_ (ne_ (styleBackup_at (i * NPROPS + j)) (GuiGetStyle i j))
            (ne_ (GuiGetStyle i j) (GuiGetStyle 0 j)))
    (bind (GuiGetStyle i j) (fun value =>
     fprintf f
       ("p " +:+ fmt_02i (Z.of_nat i) +:+ " " +:+ fmt_02i (Z.of_nat j)
        +:+ " 0x" +:+ fmt_08x value +:+ "    "
        +:+ text_at guiControlText i +:+ "_" +:+ prop_label j
        +:+ " " +:+ nl))) st
  = (tt, with_file f (if changedControl (globals st) i j
                      then bytes_of_text (text_line (entry (globals st) i j))
                      else []) st).
Proof.
  unfold if_. rewrite bind_run, control_test_run. cbn [fst snd].
  destruct (changedControl _ _ _).
  - run_step. reflexivity.
  - by rewrite ret_run, with_file_nil.
Qed.

Lemma text_font_run f st :
  (if customFontLoaded (globals st) then
     bind (fprintf f
             ("# WARNING: This style uses a custom font, must be provided with style file"
              +:+ nl)) (fun _ =>
     bind (GuiGetStyle DEFAULT TEXT_SIZE) (fun size =>
     bind (GuiGetStyle DEFAULT TEXT_SPACING) (fun spacing =>
     bind (global fontFilePath) (fun path =>
     fprintf f
       ("f " +:+ fmt_i (cast_int size) +:+ " "
        +:+ fmt_i (cast_int spacing) +:+ " "
        +:+ GetFileName path +:+ nl)))))
   else ret tt) st
  = (tt, with_file f
           (bytes_of_text
              (if customFontLoaded (globals st)
               then text_font_warning +:+ text_font_line (globals st)
               else EmptyString)) st).
Proof.
  destruct (customFontLoaded _).
  - do 4 step. rewrite fprintf_run, with_file_app, bytes_of_text_app.
    reflexivity.
  - by rewrite ret_run, with_file_nil.
Qed.

(** A successful text save writes [text_file]. *)
Lemma SaveStyle_text_run fileName st :
  writable (world st) fileName = true ->
  SaveStyle fileName STYLE_TEXT st
  = (true, saved fileName "wt" (bytes_of_text (text_file (globals st))) st).
Proof.
  intros Hw. unfold SaveStyle.
  change (STYLE_TEXT =? STYLE_BINARY) with false.
  change (STYLE_TEXT =? STYLE_TEXT) with true. cbv iota.
  step. eapply bind_step; [|apply ret_run].
  eapply bind_step; [by apply fopen_run_ok|]. cbv beta iota zeta.
  do 3 step. eapply bind_step; [apply text_font_run|].
  eapply bind_step.
  { apply (default_loop_writes fileName (fun e => bytes_of_text (text_line e))).
    intros j st'. apply text_default_body. }
  eapply bind_step.
  { apply (control_loops_write fileName (fun e => bytes_of_text (text_line e))).
    intros i j st' _. apply text_control_body. }
  step. rewrite ret_run. f_equal.
  rewrite !with_file_app, with_file_saved. cbn [globals with_file saved].
  f_equal. unfold text_file, text_header.
  rewrite !bytes_of_text_app, bytes_of_text_concat.
  unfold computeChanges. rewrite flat_map_app. simpl app at 1.
  by rewrite <- ?app_assoc.
Qed.

(** ** SaveStyle, the other paths *)

Lemma SaveStyle_binary_refused fileName st :
  writable (world st) fileName = false ->
  SaveStyle fileName STYLE_BINARY st = (false, refused fileName "wb" st).
Proof.
  intros Hw. unfold SaveStyle.
  change (STYLE_BINARY =? STYLE_BINARY) with true.
  change (STYLE_BINARY =? STYLE_TEXT) with false. cbv iota.
  eapply bind_step; [|apply ret_run].
  eapply bind_step; [by apply fopen_run_fail|]. cbv beta iota zeta.
  reflexivity.
Qed.

Lemma SaveStyle_text_refused fileName st :
  writable (world st) fileName = false ->
  SaveStyle fileName STYLE_TEXT st = (false, refused fileName "wt" st).
Proof.
  intros Hw. unfold SaveStyle.
  change (STYLE_TEXT =? STYLE_BINARY) with false.
  change (STYLE_TEXT =? STYLE_TEXT) with true. cbv iota.
  step. eapply bind_step; [|apply ret_run].
  eapply bind_step; [by apply fopen_run_fail|]. cbv beta iota zeta.
  reflexivity.
Qed.

Lemma SaveStyle_other_format fileName format st :
  format <> STYLE_BINARY -> format <> STYLE_TEXT ->
  SaveStyle fileName format st = (false, st).
Proof.
  intros Hb Ht. unfold SaveStyle.
  destruct (format =? STYLE_BINARY) eqn:Eb; [apply Z.eqb_eq in Eb; done|].
  destruct (format =? STYLE_TEXT) eqn:Et; [apply Z.eqb_eq in Et; done|].
  reflexivity.
Qed.

(** ** ExportStyleAsCode *)

Lemma code_default_body f i st :
  if_ (ne_ (styleBackup_at i) (GuiGetStyle 0 i))
    (bind (GuiGetStyle DEFAULT i) (fun value =>
     fprintf f
       ("    { 0, " +:+ fmt_i (Z.of_nat i) +:+ ", 0x" +:+ fmt_08x value
        +:+ " },    // DEFAULT_" +:+ code_default_label i +:+ " " +:+ nl))) st
  = (tt, with_file f (if changedDefault (globals st) i
                      then bytes_of_text (code_line (entry (globals st) 0 i))
                      else []) st).
Proof.
  unfold if_. rewrite bind_run, default_test_run. cbn [fst snd].
  destruct (changedDefault _ _).
  - run_step. reflexivity.
  - by rewrite ret_run, with_file_nil.
Qed.

Lemma code_control_body f i j st :
  (1 <= i)%nat ->
  if_ (and_ (ne_ (styleBackup_at (i * NPROPS + j)) (GuiGetStyle i j))
            (ne_ (GuiGetStyle i j) (GuiGetStyle 0 j)))
    (bind (GuiGetStyle i j) (fun value =>
     fprintf f
       ("    { " +:+ fmt_i (Z.of_nat i) +:+ ", " +:+ fmt_i (Z.of_nat j)
        +:+ ", 0x" +:+ fmt_08x value +:+ " },    // "
        +:+ text_at guiControlText i +:+ "_" +:+ code_prop_label j
        +:+ " " +:+ nl))) st
  = (tt, with_file f (if changedControl (globals st) i j
                      then bytes_of_text (code_line (entry (globals st) i j))
                      else []) st).
Proof.
  intros Hi. unfold if_. rewrite bind_run, control_test_run. cbn [fst snd].
  destruct (changedControl _ _ _).
  - run_step. unfold code_line. cbn [controlId propertyId propertyValue entry].
    destruct i; [lia|]. reflexivity.
  - by rewrite ret_run, with_file_nil.
Qed.

(** The elements of the font data array. *)
Lemma ExportStyleAsCode_fontData_run f compData st :
  ExportStyleAsCode_fontData f compData (Z.of_nat (length compData)) st
  = (tt, with_file f (bytes_of_text (code_font_data compData)) st).
Proof.
  unfold ExportStyleAsCode_fontData.
  replace (Z.to_nat (Z.of_nat (length compData) - 1))
    with (length compData - 1)%nat by lia.
  eapply bind_step.
  { apply (for_writes f (fun i _ => bytes_of_text (code_byte compData i))).
    intros i st' _. unfold code_byte.
    destruct (Z.of_nat i mod BYTES_TEXT_PER_LINE =? 0); reflexivity. }
  rewrite fprintf_run, with_file_app, Nat.sub_0_r. do 2 f_equal.
  unfold code_font_data.
  by rewrite (bytes_of_text_app (String.concat _ _)), bytes_of_text_concat.
Qed.

Lemma code_recs_loop f (font : Font) n st :
  for_ 0 n (fun i _ =>
    let r := nth i (recs font) rect_zero in
    fprintf f
      ("    { " +:+ fmt_1_0f (rec_x r) +:+ ", " +:+ fmt_1_0f (rec_y r) +:+ ", "
       +:+ fmt_1_0f (rec_width r) +:+ " , " +:+ fmt_1_0f (rec_height r)
       +:+ " }," +:+ nl)) tt st
  = (tt, with_file f
           (bytes_of_text
              (String.concat EmptyString
                 (map (fun i => code_rec_line (nth i (recs font) rect_zero))
                    (seq 0 n)))) st).
Proof.
  rewrite (for_writes f (fun i _ =>
    bytes_of_text (code_rec_line (nth i (recs font) rect_zero))));
    [|reflexivity].
  by rewrite Nat.sub_0_r,
    (bytes_of_text_concat (fun i => code_rec_line (nth i (recs font) rect_zero))).
Qed.

Lemma code_glyphs_loop f (font : Font) n st :
  for_ 0 n (fun i _ =>
    let glyph := nth i (glyphs font) glyph_zero in
    fprintf f
      ("    { " +:+ fmt_i (glyph_value glyph) +:+ ", "
       +:+ fmt_i (glyph_offsetX glyph) +:+ ", " +:+ fmt_i (glyph_offsetY glyph)
       +:+ ", " +:+ fmt_i (glyph_advanceX glyph) +:+ ", { 0 }}," +:+ nl)) tt st
  = (tt, with_file f
           (bytes_of_text
              (String.concat EmptyString
                 (map (fun i => code_glyph_line (nth i (glyphs font) glyph_zero))
                    (seq 0 n)))) st).
Proof.
  rewrite (for_writes f (fun i _ =>
    bytes_of_text (code_glyph_line (nth i (glyphs font) glyph_zero))));
    [|reflexivity].
  by rewrite Nat.sub_0_r,
    (bytes_of_text_concat
       (fun i => code_glyph_line (nth i (glyphs font) glyph_zero))).
Qed.

(** *** Streams as lists of chunks *)

Lemma with_files_snoc f b l st :
  with_file f b (with_files f l st) = with_files f (l ++ [b]) st.
Proof. unfold with_files. by rewrite fold_left_app. Qed.

Lemma globals_with_files f l st : globals (with_files f l st) = globals st.
Proof.
  revert st. induction l as [|b l IH]; intros st; [done|].
  simpl. by rewrite IH.
Qed.

Lemma with_files_saved f mode content l st :
  with_files f l (saved f mode content st)
  = saved f mode (content ++ concat l) st.
Proof.
  revert content. induction l as [|b l IH]; intros content; simpl.
  - by rewrite app_nil_r.
  - by rewrite with_file_saved, IH, <- app_assoc.
Qed.

Lemma with_stdout_files s f l st :
  with_stdout s (with_files f l st) = with_files f l (with_stdout s st).
Proof.
  revert st. induction l as [|b l IH]; intros st; [done|].
  simpl. by rewrite IH.
Qed.

Lemma bind_step_write {A B} (m : M A) (k : A -> M B) f l st a b r :
  m (with_files f l st) = (a, with_file f b (with_files f l st)) ->
  k a (with_files f (l ++ [b]) st) = r ->
  bind m k (with_files f l st) = r.
Proof. intros Hm Hk. by rewrite bind_run, Hm, with_files_snoc. Qed.

Lemma bind_step_log {A B} (m : M A) (k : A -> M B) f l st a s r :
  m (with_files f l st) = (a, with_stdout s (with_files f l st)) ->
  k a (with_files f l (with_stdout s st)) = r ->
  bind m k (with_files f l st) = r.
Proof. intros Hm Hk. by rewrite bind_run, Hm, with_stdout_files. Qed.

Lemma bytes_of_text_chunks (l : list string) :
  bytes_of_text (String.concat EmptyString l) = flat_map bytes_of_text l.
Proof.
  rewrite <- (map_id l) at 1. apply (bytes_of_text_concat (fun s => s)).
Qed.

Lemma chunks_bytes_app l rest :
  flat_map bytes_of_text l ++ rest = chunks_bytes l rest.
Proof.
  induction l as [|s l IH]; [done|]. simpl. by rewrite <- app_assoc, IH.
Qed.

Lemma chunks_bytes_nil l : flat_map bytes_of_text l = chunks_bytes l [].
Proof. by rewrite <- chunks_bytes_app, app_nil_r. Qed.

Lemma flat_map_text_map {A} (line : A -> string) (l : list A) :
  flat_map bytes_of_text (map line l)
  = flat_map (fun e => bytes_of_text (line e)) l.
Proof. induction l as [|e l IH]; [done|]. simpl. by rewrite IH. Qed.

(** One step of a computation that writes to a stream whose content is
    kept as a list of chunks. *)
Ltac fstep :=
  lazymatch goal with
  | |- bind (bind _ _) _ _ = _ => apply (eq_trans (bind_assoc_run _ _ _ _))
  | |- bind (fprintf _ _) _ _ = _ =>
      eapply bind_step_write; [apply fprintf_run|]
  | |- bind (GuiGetStyle _ _) _ _ = _ =>
      eapply bind_step; [apply GuiGetStyle_run|]
  | |- bind (global _) _ _ = _ => eapply bind_step; [apply global_run|]
  | |- bind StyleChangesCounter _ _ = _ =>
      eapply bind_step; [apply StyleChangesCounter_run|]
  | |- bind (ret _) _ _ = _ => eapply bind_step; [apply ret_run|]
  | |- bind (if _ then LOG _ else ret tt) _ _ = _ =>
      eapply bind_step_log; [apply log_run|]
  end;
  cbv beta iota zeta;
  repeat change (globals (with_files ?f ?l (saved ?f' ?m ?c ?s)))
    with (globals s);
  repeat change (globals (with_files ?f ?l (with_stdout ?o (saved ?f' ?m ?c ?s))))
    with (globals s).

(** A successful export writes [code_file]; the only other effect is the
    message on the standard output. *)
Lemma ExportStyleAsCode_run fileName styleName st :
  writable (world st) fileName = true ->
  ExportStyleAsCode fileName styleName st
  = (tt, with_stdout (code_log (globals st))
           (saved fileName "wt"
              (bytes_of_text (code_file (globals st) styleName)) st)).
Proof.
  intros Hw. unfold ExportStyleAsCode.
  eapply bind_step; [by apply fopen_run_ok|]. cbv beta iota zeta.
  change (saved fileName "wt" [] st)
    with (with_files fileName [] (saved fileName "wt" [] st)).
  repeat fstep.
  eapply bind_step_write.
  { apply (default_loop_writes fileName (fun e => bytes_of_text (code_line e))).
    intros j st'. apply code_default_body. }
  eapply bind_step_write.
  { apply (control_loops_write fileName (fun e => bytes_of_text (code_line e))).
    intros i j st' Hi. by apply code_control_body. }
  repeat fstep.
  unfold code_log, code_file, code_loader.
  destruct (customFontLoaded (globals st)); cbv iota; cbn [andb].
  - repeat fstep.
    eapply bind_step_write; [apply ExportStyleAsCode_fontData_run|].
    repeat fstep. eapply bind_step_write; [apply code_recs_loop|].
    repeat fstep. eapply bind_step_write; [apply code_glyphs_loop|].
    repeat fstep.
    unfold fclose. rewrite ret_run. f_equal.
    rewrite <- with_stdout_files, with_files_saved. f_equal. f_equal.
    rewrite (bytes_of_text_chunks (code_prologue _ _ ++ _)).
    rewrite !flat_map_app, flat_map_text_map.
    unfold computeChanges.
    rewrite flat_map_app, <- (app_assoc (flat_map _ (defaultChanges _))).
    rewrite !chunks_bytes_app, chunks_bytes_nil.
    reflexivity.
  - repeat fstep.
    unfold fclose. rewrite ret_run, with_stdout_nil. f_equal.
    rewrite with_files_saved. f_equal.
    rewrite (bytes_of_text_chunks (code_prologue _ _ ++ _)).
    rewrite !flat_map_app, flat_map_text_map.
    unfold computeChanges.
    rewrite flat_map_app, <- (app_assoc (flat_map _ (defaultChanges _))).
    rewrite !chunks_bytes_app, chunks_bytes_nil.
    reflexivity.
Qed.

(** ** The Change-Set *)

Lemma in_cond_flat_map {A} (c : nat -> bool) (e : nat -> A) l x :
  In x (flat_map (fun j => if c j then [e j] else []) l)
  <-> exists j, In j l /\ c j = true /\ x = e j.
Proof.
  rewrite in_flat_map. split.
  - intros (j & Hj & Hx). exists j. destruct (c j); simpl in Hx; [|done].
    destruct Hx as [<-|[]]. done.
  - intros (j & Hj & Hc & ->). exists j. rewrite Hc. split; [done|].
    by left.
Qed.

Lemma in_defaultChanges g e :
  In e (defaultChanges g)
  <-> exists j, (j < NPROPS)%nat /\ changedDefault g j = true
                /\ e = entry g 0 j.
Proof.
  unfold defaultChanges. rewrite in_cond_flat_map.
  split; intros (j & Hj & Hc & He); exists j; (split; [|done]);
    rewrite in_seq in *; lia.
Qed.

Lemma in_controlChanges g i e :
  In e (controlChanges g i)
  <-> exists j, (j < NPROPS)%nat /\ changedControl g i j = true
                /\ e = entry g i j.
Proof.
  unfold controlChanges. rewrite in_cond_flat_map.
  split; intros (j & Hj & Hc & He); exists j; (split; [|done]);
    rewrite in_seq in *; lia.
Qed.

(** The entries of the Change-Set. *)
Lemma in_computeChanges g e :
  In e (computeChanges g)
  <-> (exists j, (j < NPROPS)%nat /\ changedDefault g j = true
                 /\ e = entry g 0 j)
      \/ (exists i j, (1 <= i < RAYGUI_MAX_CONTROLS)%nat /\ (j < NPROPS)%nat
                      /\ changedControl g i j = true /\ e = entry g i j).
Proof.
  unfold computeChanges. rewrite in_app_iff, in_defaultChanges, in_flat_map.
  split; (intros [Hd|Hc]; [by left|right]).
  - destruct Hc as (i & Hi & He). apply in_controlChanges in He.
    destruct He as (j & Hj & Hc & He). exists i, j.
    rewrite in_seq in Hi. repeat split; try done; lia.
  - destruct Hc as (i & j & Hi & Hj & Hc & He). exists i.
    split; [rewrite in_seq; lia|]. apply in_controlChanges. by exists j.
Qed.

Lemma changedControl_spec g i j :
  changedControl g i j = true
  <-> current g i j <> baseline g i j /\ current g i j <> current g 0 j.
Proof.
  unfold changedControl. rewrite andb_true_iff, !negb_true_iff, !Z.eqb_neq.
  split; intros [H1 H2]; split; congruence.
Qed.

Lemma changedDefault_spec g j :
  changedDefault g j = true <-> current g 0 j <> baseline g 0 j.
Proof.
  unfold changedDefault. rewrite negb_true_iff, Z.eqb_neq.
  split; congruence.
Qed.

(** *** Order *)

Lemma sorted_cond_seq (c : nat -> bool) (v : nat -> Z) i n lo :
  StronglySorted prop_before
    (flat_map (fun j =>
       if c j
       then [ {| controlId := i; propertyId := j; propertyValue := v j |} ]
       else []) (seq lo n)).
Proof.
  revert lo. induction n as [|n IH]; intros lo; simpl; [constructor|].
  apply StronglySorted_app_2; [|destruct (c lo); repeat constructor|apply IH].
  intros x1 x2 H1 H2. apply list_elem_of_In in H1, H2.
  apply in_cond_flat_map in H2. destruct H2 as (j & Hj & _ & ->).
  apply in_seq in Hj. destruct (c lo); simpl in H1; [|done].
  destruct H1 as [<-|[]]. right. simpl. lia.
Qed.

Lemma sorted_controls g lo n :
  StronglySorted prop_before (flat_map (controlChanges g) (seq lo n)).
Proof.
  revert lo. induction n as [|n IH]; intros lo; simpl; [constructor|].
  apply StronglySorted_app_2; [|apply sorted_cond_seq|apply IH].
  intros x1 x2 H1 H2. apply list_elem_of_In in H1, H2.
  apply in_controlChanges in H1. destruct H1 as (j1 & _ & _ & ->).
  apply in_flat_map in H2. destruct H2 as (i2 & Hi2 & H2).
  apply in_controlChanges in H2. destruct H2 as (j2 & _ & _ & ->).
  apply in_seq in Hi2. left. simpl. lia.
Qed.

(** The Change-Set is in strictly ascending order of (control, property). *)
Lemma sorted_computeChanges g :
  StronglySorted prop_before (computeChanges g).
Proof.
  unfold computeChanges.
  apply StronglySorted_app_2; [|apply sorted_cond_seq|apply sorted_controls].
  intros x1 x2 H1 H2. apply list_elem_of_In in H1, H2.
  apply in_defaultChanges in H1. destruct H1 as (j1 & _ & _ & ->).
  apply in_flat_map in H2. destruct H2 as (i2 & Hi2 & H2).
  apply in_controlChanges in H2. destruct H2 as (j2 & _ & _ & ->).
  apply in_seq in Hi2. left. simpl. lia.
Qed.

(** *** Size *)

Lemma length_cond_flat_map {A} (c : nat -> bool) (e : nat -> A) l :
  (length (flat_map (fun j => if c j then [e j] else []) l) <= length l)%nat.
Proof.
  induction l as [|j l IH]; simpl; [lia|].
  rewrite length_app. destruct (c j); simpl; lia.
Qed.

Lemma length_controls g lo n :
  (length (flat_map (controlChanges g) (seq lo n)) <= n * NPROPS)%nat.
Proof.
  revert lo. induction n as [|n IH]; intros lo; simpl; [lia|].
  rewrite length_app. specialize (IH (S lo)).
  pose proof (length_cond_flat_map (changedControl g lo) (entry g lo)
                (seq 0 NPROPS)) as Hl.
  rewrite length_seq in Hl. unfold controlChanges at 1. lia.
Qed.

(** The Change-Set has at most as many entries as the style table. *)
Lemma length_computeChanges g :
  (1 <= RAYGUI_MAX_CONTROLS)%nat ->
  (length (computeChanges g) <= RAYGUI_MAX_CONTROLS * NPROPS)%nat.
Proof.
  intros Hc. unfold computeChanges. rewrite length_app.
  pose proof (length_cond_flat_map (changedDefault g) (entry g 0)
                (seq 0 NPROPS)) as Hd.
  rewrite length_seq in Hd.
  pose proof (length_controls g 1 (RAYGUI_MAX_CONTROLS - 1)) as Hl.
  unfold defaultChanges. nia.
Qed.

(** ** Bytes *)

Lemma length_le_bytes n z : length (le_bytes n z) = n.
Proof. revert z. induction n as [|n IH]; intros z; simpl; [done|]. by rewrite IH. Qed.

Lemma byte_of_Z_value z : Z.of_N (Byte.to_N (byte_of_Z z)) = z mod 256.
Proof.
  unfold byte_of_Z. pose proof (Z.mod_pos_bound z 256 ltac:(lia)) as Hz.
  destruct (Byte.of_N (Z.to_N (z mod 256))) as [b|] eqn:E; simpl.
  - apply Byte.to_of_N in E. rewrite E. lia.
  - apply Byte.of_N_None_iff in E. lia.
Qed.

(** Reading back what [le_bytes] wrote gives the value, reduced to the
    width of the field. *)
Lemma le_value_le_bytes n z :
  le_value (le_bytes n z) = z mod 256 ^ Z.of_nat n.
Proof.
  revert z. induction n as [|n IH]; intros z.
  - simpl. by rewrite Z.mod_1_r.
  - cbn [le_bytes le_value]. rewrite byte_of_Z_value, IH.
    rewrite Nat2Z.inj_succ, Z.pow_succ_r by lia.
    rewrite (Z.mul_comm 256), Z.rem_mul_r by lia. lia.
Qed.

Lemma le_value_int z : 0 <= z < 2 ^ 32 -> le_value (le_bytes sizeof_int z) = z.
Proof.
  intros Hz. rewrite le_value_le_bytes.
  change (256 ^ Z.of_nat sizeof_int) with (2 ^ 32). by apply Z.mod_small.
Qed.

Lemma length_record_bytes e : length (record_bytes e) = 8%nat.
Proof. unfold record_bytes. by rewrite !length_app, !length_le_bytes. Qed.

Lemma length_records (l : list GuiStyleProp) :
  length (flat_map record_bytes l) = (8 * length l)%nat.
Proof.
  induction l as [|e l IH]; [done|]. cbn [flat_map length].
  rewrite length_app, length_record_bytes, IH. lia.
Qed.

Lemma length_binary_header count : length (binary_header count) = 12%nat.
Proof. unfold binary_header. by rewrite !length_app, !length_le_bytes. Qed.

(** ** printf conversions *)

Lemma length_append (s1 s2 : string) :
  String.length (s1 +:+ s2) = (String.length s1 + String.length s2)%nat.
Proof. induction s1 as [|c s1 IH]; simpl; [done|]. by rewrite IH. Qed.

(** [%08x] prints exactly eight digits, [%02x] exactly two. *)
Lemma length_fmt_hex width v : String.length (fmt_hex width v) = width.
Proof.
  revert v. induction width as [|w IH]; intros v; simpl; [done|].
  rewrite length_append, IH. simpl. lia.
Qed.

(** [%02i] prints exactly two digits for the numbers from 0 to 99. *)
Lemma length_fmt_02i (n : nat) :
  (n < 100)%nat -> String.length (fmt_02i (Z.of_nat n)) = 2%nat.
Proof.
  intros Hn.
  assert (Hall : forallb (fun k =>
            (String.length (fmt_02i (Z.of_nat k)) =? 2)%nat) (seq 0 100) = true)
    by (vm_compute; reflexivity).
  rewrite forallb_forall in Hall. apply Nat.eqb_eq, Hall, in_seq. lia.
Qed.

(** ** Files *)

Lemma written_saved {A} (a : A) f mode content st :
  written (a, saved f mode content st) f = Some content.
Proof. unfold written, saved. simpl. apply lookup_insert_eq. Qed.

Lemma written_logged {A} (a : A) s f mode content st :
  written (a, with_stdout s (saved f mode content st)) f = Some content.
Proof. unfold written, with_stdout, saved. simpl. apply lookup_insert_eq. Qed.

(** ** What the program writes *)

Lemma written_binary fileName st :
  writable (world st) fileName = true ->
  written (SaveStyle fileName STYLE_BINARY st) fileName
  = Some (binary_file (globals st)).
Proof. intros Hw. rewrite SaveStyle_binary_run by done. apply written_saved. Qed.

Lemma written_text fileName st :
  writable (world st) fileName = true ->
  written (SaveStyle fileName STYLE_TEXT st) fileName
  = Some (bytes_of_text (text_file (globals st))).
Proof. intros Hw. rewrite SaveStyle_text_run by done. apply written_saved. Qed.

Lemma written_code fileName styleName st :
  writable (world st) fileName = true ->
  written (ExportStyleAsCode fileName styleName st) fileName
  = Some (bytes_of_text (code_file (globals st) styleName)).
Proof.
  intros Hw. rewrite ExportStyleAsCode_run by done. apply written_logged.
Qed.

(** [SaveStyle] leaves the global variables as they are, on every path. *)
Lemma SaveStyle_globals fileName format st :
  globals (snd (SaveStyle fileName format st)) = globals st.
Proof.
  destruct (Z.eq_dec format STYLE_BINARY) as [->|Hb];
    [|destruct (Z.eq_dec format STYLE_TEXT) as [->|Ht]].
  - destruct (writable (world st) fileName) eqn:Hw.
    + by rewrite SaveStyle_binary_run.
    + by rewrite SaveStyle_binary_refused.
  - destruct (writable (world st) fileName) eqn:Hw.
    + by rewrite SaveStyle_text_run.
    + by rewrite SaveStyle_text_refused.
  - by rewrite SaveStyle_other_format.
Qed.

(** A call of [SaveStyle] whose [fopen] fails returns false and changes
    neither the global variables nor a file. *)
Lemma SaveStyle_refused fileName format st :
  writable (world st) fileName = false ->
  exists mode,
    SaveStyle fileName format st = (false, st)
    \/ SaveStyle fileName format st = (false, refused fileName mode st).
Proof.
  intros Hw.
  destruct (Z.eq_dec format STYLE_BINARY) as [->|Hb];
    [|destruct (Z.eq_dec format STYLE_TEXT) as [->|Ht]].
  - exists "wb"%string. right. by apply SaveStyle_binary_refused.
  - exists "wt"%string. right. by apply SaveStyle_text_refused.
  - exists EmptyString. left. by apply SaveStyle_other_format.
Qed.

(** The result and the file of a save depend on the global variables and
    on whether the file can be opened, not on the rest of the state. *)
Lemma SaveStyle_depends fileName format st st' :
  globals st = globals st' ->
  writable (world st) = writable (world st') ->
  fst (SaveStyle fileName format st) = fst (SaveStyle fileName format st')
  /\ (writable (world st) fileName = true ->
      written (SaveStyle fileName format st) fileName
      = written (SaveStyle fileName format st') fileName
      \/ (format <> STYLE_BINARY /\ format <> STYLE_TEXT)).
Proof.
  intros Hg Hw.
  destruct (Z.eq_dec format STYLE_BINARY) as [->|Hb];
    [|destruct (Z.eq_dec format STYLE_TEXT) as [->|Ht]].
  - destruct (writable (world st) fileName) eqn:E.
    + rewrite !SaveStyle_binary_run by congruence. rewrite !written_saved.
      split; [done|]. intros _. left. by rewrite Hg.
    + rewrite !SaveStyle_binary_refused by congruence. done.
  - destruct (writable (world st) fileName) eqn:E.
    + rewrite !SaveStyle_text_run by congruence. rewrite !written_saved.
      split; [done|]. intros _. left. by rewrite Hg.
    + rewrite !SaveStyle_text_refused by congruence. done.
  - rewrite !SaveStyle_other_format by done. split; [done|]. intros _.
    by right.
Qed.

(** *** Changes in one place *)

Lemma cond_flat_map_none {A} (c : nat -> bool) (e : nat -> A) l :
  (forall j, In j l -> c j = false) ->
  flat_map (fun j => if c j then [e j] else []) l = [].
Proof.
  induction l as [|j l IH]; intros Hc; simpl; [done|].
  rewrite (Hc j) by (by left). apply IH. intros j' Hj'. apply Hc. by right.
Qed.

Lemma cond_flat_map_single {A} (c : nat -> bool) (e : nat -> A) k n lo :
  (forall j, c j = true <-> j = k) ->
  (lo <= k < lo + n)%nat ->
  flat_map (fun j => if c j then [e j] else []) (seq lo n) = [e k].
Proof.
  intros Hc. revert lo. induction n as [|n IH]; intros lo Hk; [lia|].
  simpl. destruct (c lo) eqn:E.
  - apply Hc in E. subst lo. simpl. f_equal. apply cond_flat_map_none.
    intros j Hj. apply in_seq in Hj.
    destruct (c j) eqn:Ej; [|done]. apply Hc in Ej. lia.
  - simpl. apply IH.
    assert (lo <> k) by (intros ->; rewrite (proj2 (Hc k) eq_refl) in E; done).
    lia.
Qed.

Lemma flat_map_all_nil {A B} (f : A -> list B) l :
  (forall x, In x l -> f x = []) -> flat_map f l = [].
Proof.
  induction l as [|x l IH]; intros Hf; simpl; [done|].
  rewrite (Hf x) by (by left). apply IH. intros y Hy. apply Hf. by right.
Qed.

(** ** The lines of the font data *)

Lemma text_lines_app pre a rest :
  Forall (fun b => Byte.eqb b newline = false) a ->
  text_lines (rev pre) (a ++ rest) = text_lines (rev (pre ++ a)) rest.
Proof.
  intros Ha. revert pre. induction Ha as [|b a Hb Ha IH]; intros pre.
  - by rewrite app_nil_r.
  - simpl. rewrite Hb.
    change (b :: rev pre) with ([b] ++ rev pre)%list.
    replace ([b] ++ rev pre)%list with (rev (pre ++ [b]))
      by (rewrite rev_app_distr; reflexivity).
    rewrite IH. by rewrite <- app_assoc.
Qed.

Lemma text_lines_newline pre rest :
  text_lines (rev pre) (newline :: rest) = pre :: text_lines [] rest.
Proof. simpl. by rewrite rev_involutive. Qed.

Lemma count_literals_app pre a :
  match a with b :: _ => Byte.eqb b "x"%byte = false | [] => True end ->
  count_literals (pre ++ a) = (count_literals pre + count_literals a)%nat.
Proof.
  intros Ha. induction pre as [|b0 pre IH]; [done|].
  destruct pre as [|b1 pre].
  - simpl. destruct a as [|a0 a]; [done|].
    rewrite Ha, andb_false_r. done.
  - change (count_literals ((b0 :: b1 :: pre) ++ a))
      with (if Byte.eqb b0 "0"%byte && Byte.eqb b1 "x"%byte
            then S (count_literals ((b1 :: pre) ++ a))
            else count_literals ((b1 :: pre) ++ a)).
    change (count_literals (b0 :: b1 :: pre))
      with (if Byte.eqb b0 "0"%byte && Byte.eqb b1 "x"%byte
            then S (count_literals (b1 :: pre))
            else count_literals (b1 :: pre)).
    rewrite IH. by destruct (_ && _).
Qed.

(** A hexadecimal digit is neither a line break nor the letter x. *)
Lemma hex_digit_safe d :
  Byte.eqb (byte_of_ascii (hex_digit d)) newline = false
  /\ Byte.eqb (byte_of_ascii (hex_digit d)) "x"%byte = false.
Proof.
  unfold hex_digit. generalize (Z.to_nat d). intros k.
  do 16 (destruct k as [|k]; [by vm_compute|]).
  simpl. destruct k; by vm_compute.
Qed.

Lemma fmt_02x_chars b :
  exists c1 c2,
    fmt_02x b = String c1 (String c2 EmptyString)
    /\ (Byte.eqb (byte_of_ascii c1) newline = false
        /\ Byte.eqb (byte_of_ascii c1) "x"%byte = false)
    /\ (Byte.eqb (byte_of_ascii c2) newline = false
        /\ Byte.eqb (byte_of_ascii c2) "x"%byte = false).
Proof.
  unfold fmt_02x. eexists _, _. split; [reflexivity|].
  split; apply hex_digit_safe.
Qed.

(** The lines of the font data hold the numbers of literals that
    [line_counts] gives. *)
Lemma font_data_line_counts compData m :
  forall i pre,
    map count_literals
      (text_lines (rev pre)
         (flat_map (fun k => bytes_of_text (code_byte compData k)) (seq i m)
          ++ bytes_of_text
               ("0x" +:+ fmt_02x (nth (i + m) compData x00)
                +:+ " };" +:+ nl +:+ nl)))
    = line_counts (count_literals pre) i m.
Proof.
  induction m as [|m IH]; intros i pre.
  - rewrite Nat.add_0_r. cbn [seq flat_map app line_counts].
    destruct (fmt_02x_chars (nth i compData x00))
      as (c1 & c2 & -> & [N1 X1] & [N2 X2]).
    change (bytes_of_text
              ("0x" +:+ String c1 (String c2 EmptyString) +:+ " };" +:+ nl +:+ nl))
      with (["0"%byte; "x"%byte; byte_of_ascii c1; byte_of_ascii c2;
             " "%byte; "}"%byte; ";"%byte] ++ [newline; newline]).
    rewrite text_lines_app by (repeat constructor; done).
    rewrite text_lines_newline. cbn [text_lines Byte.eqb rev app map].
    rewrite count_literals_app by done.
    cbn [count_literals]. rewrite X2, !andb_false_r.
    change (Byte.eqb "0" "0" && Byte.eqb "x" "x") with true.
    change (Byte.eqb "x" "0") with false. cbn [andb].
    f_equal. lia.
  - rewrite <- Nat.add_succ_comm. cbn [seq flat_map line_counts].
    rewrite <- app_assoc. unfold code_byte at 1.
    destruct (fmt_02x_chars (nth i compData x00))
      as (c1 & c2 & -> & [N1 X1] & [N2 X2]).
    destruct (Z.of_nat i mod BYTES_TEXT_PER_LINE =? 0) eqn:Hbreak;
      change BYTES_TEXT_PER_LINE with 20 in Hbreak; rewrite Hbreak.
    + change (bytes_of_text
                ("0x" +:+ String c1 (String c2 EmptyString)
                 +:+ "," +:+ nl +:+ "    "))
        with (["0"%byte; "x"%byte; byte_of_ascii c1; byte_of_ascii c2;
               ","%byte] ++ newline :: [" "%byte; " "%byte; " "%byte; " "%byte]).
      rewrite <- app_assoc. rewrite text_lines_app by (repeat constructor; done).
      rewrite <- app_comm_cons, text_lines_newline.
      change (text_lines []) with (text_lines (rev [])).
      rewrite text_lines_app by (repeat constructor; done).
      cbn [map]. rewrite IH. f_equal.
      rewrite count_literals_app by done.
      cbn [count_literals]. rewrite X2, !andb_false_r.
      change (Byte.eqb "0" "0" && Byte.eqb "x" "x") with true.
      change (Byte.eqb "x" "0") with false. cbn [andb]. lia.
    + change (bytes_of_text
                ("0x" +:+ String c1 (String c2 EmptyString) +:+ ", "))
        with (["0"%byte; "x"%byte; byte_of_ascii c1; byte_of_ascii c2;
               ","%byte; " "%byte]).
      rewrite text_lines_app by (repeat constructor; done).
      rewrite IH. f_equal.
      rewrite count_literals_app by done.
      cbn [count_literals]. rewrite X2, !andb_false_r.
      change (Byte.eqb "0" "0" && Byte.eqb "x" "x") with true.
      change (Byte.eqb "x" "0") with false. cbn [andb]. lia.
Qed.

Lemma line_counts_sum m : forall c i, list_sum (line_counts c i m) = (c + m + 1)%nat.
Proof.
  induction m as [|m IH]; intros c i; simpl; [lia|].
  destruct (_ =? _); simpl; rewrite IH; lia.
Qed.

(** After the first line break every line holds 20 literals, up to the
    last, which holds between 1 and 20. *)
Lemma line_counts_shape m :
  forall c i,
    (c < 20)%nat ->
    (Z.of_nat i - 1 - Z.of_nat c) mod 20 = 0 ->
    exists q last,
      line_counts c i m = repeat 20%nat q ++ [last; 0; 0]%nat
      /\ (1 <= last <= 20)%nat.
Proof.
  induction m as [|m IH]; intros c i Hc Hmod.
  - exists 0%nat, (S c). simpl. split; [done|lia].
  - simpl. destruct (Z.of_nat i mod 20 =? 0) eqn:Hbreak.
    + apply Z.eqb_eq in Hbreak.
      assert (c = 19%nat) as ->.
      { apply Z.mod_divide in Hmod; [|lia]. apply Z.mod_divide in Hbreak; [|lia].
        destruct Hmod as [a Ha], Hbreak as [b Hb]. lia. }
      destruct (IH 0%nat (S i)) as (q & last & Heq & Hlast); [lia| |].
      { replace (Z.of_nat (S i) - 1 - Z.of_nat 0) with (Z.of_nat i) by lia.
        done. }
      exists (S q), last. rewrite Heq. done.
    + apply Z.eqb_neq in Hbreak.
      assert (c <> 19%nat).
      { intros ->. apply Hbreak. apply Z.mod_divide in Hmod; [|lia].
        destruct Hmod as [a Ha]. apply Z.mod_divide; [lia|].
        exists (a + 1). lia. }
      apply (IH (S c) (S i)); [lia|].
      replace (Z.of_nat (S i) - 1 - Z.of_nat (S c))
        with (Z.of_nat i - 1 - Z.of_nat c) by lia.
      done.
Qed.

Lemma filter_counts_repeat q (rest : list nat) :
  List.filter (fun n => negb (n =? 0)%nat) (repeat 20%nat q ++ rest)
  = repeat 20%nat q ++ List.filter (fun n => negb (n =? 0)%nat) rest.
Proof. induction q as [|q IH]; simpl; [done|]. by rewrite IH. Qed.

Lemma list_sum_filter_nonzero (l : list nat) :
  list_sum (List.filter (fun n => negb (n =? 0)%nat) l) = list_sum l.
Proof.
  induction l as [|x l IH]; simpl; [done|].
  destruct x; simpl; lia.
Qed.

Lemma font_data_bytes compData :
  bytes_of_text (code_font_data compData)
  = flat_map (fun k => bytes_of_text (code_byte compData k))
      (seq 0 (length compData - 1))
    ++ bytes_of_text
         ("0x" +:+ fmt_02x (nth (0 + (length compData - 1)) compData x00)
          +:+ " };" +:+ nl +:+ nl).
Proof.
  unfold code_font_data.
  by rewrite (bytes_of_text_app (String.concat _ _)), bytes_of_text_concat.
Qed.

(** The numbers of literals on the lines of the font data. *)
Lemma font_data_entries_per_line compData :
  entries_per_line (bytes_of_text (code_font_data compData))
  = List.filter (fun n => negb (n =? 0)%nat)
      (line_counts 0 0 (length compData - 1)).
Proof.
  unfold entries_per_line. f_equal. rewrite font_data_bytes.
  apply (font_data_line_counts compData (length compData - 1) 0%nat []).
Qed.

Lemma font_data_lines_shape compData :
  entries_per_line (bytes_of_text (code_font_data compData)) = [1%nat]
  \/ exists q last,
       entries_per_line (bytes_of_text (code_font_data compData))
       = 1%nat :: repeat 20%nat q ++ [last]
       /\ (1 <= last <= 20)%nat.
Proof.
  rewrite font_data_entries_per_line.
  destruct (length compData - 1)%nat as [|m]; [by left|right].
  cbn [line_counts]. change (Z.of_nat 0 mod 20 =? 0) with true. cbv iota.
  destruct (line_counts_shape m 0%nat 1%nat) as (q & last & Heq & Hlast);
    [lia|done|].
  exists q, last. split; [|done]. rewrite Heq. cbn [List.filter Nat.eqb negb].
  rewrite filter_counts_repeat. f_equal. f_equal.
  destruct last; [lia|]. reflexivity.
Qed.

Lemma nth_map_seq {A} (f : nat -> A) (d : A) m i :
  (i < m)%nat -> nth i (map f (seq 0 m)) d = f i.
Proof.
  intros Hi. rewrite (nth_indep _ d (f 0%nat))
    by (rewrite length_map, length_seq; lia).
  rewrite (map_nth f (seq 0 m) 0%nat i), seq_nth by lia. done.
Qed.

(** ** The [int] that [GuiGetStyle] returns *)

Lemma cast_int_range v : - 2 ^ 31 <= cast_int v < 2 ^ 31.
Proof.
  unfold cast_int.
  pose proof (Z.mod_pos_bound (v + 2 ^ 31) (2 ^ 32) ltac:(lia)). lia.
Qed.

Lemma cast_int_same_bits v : (cast_int v - v) mod 2 ^ 32 = 0.
Proof.
  unfold cast_int.
  rewrite (Z.mod_eq (v + 2 ^ 31) (2 ^ 32)) by lia.
  replace (v + 2 ^ 31 - 2 ^ 32 * ((v + 2 ^ 31) / 2 ^ 32) - 2 ^ 31 - v)
    with (- ((v + 2 ^ 31) / 2 ^ 32) * 2 ^ 32) by lia.
  apply Z.mod_mul. lia.
Qed.

(** * The claims *)

(** C1. For a control [i] other than DEFAULT and a property [j], the entry
    [(i, j, v)] is in the Change-Set, as [SaveStyle] and
    [ExportStyleAsCode] write it and [StyleChangesCounter] counts it, if
    and only if [v] is the current value [GuiGetStyle(i, j)] and that
    value differs from the baseline [styleBackup[i*NPROPS + j]] and from
    the current DEFAULT value [GuiGetStyle(0, j)]. In particular a
    property whose value equals the current DEFAULT value has no entry,
    whatever the baseline is, and two controls that hold the same
    non-default value both have theirs. (The exported code is given for a
    custom font whose compressed atlas is not empty: the code reads the
    last byte of that array.) *)
Theorem control_entry_emitted_iff st fileName styleName i j v :
  writable (world st) fileName = true ->
  (1 <= i < RAYGUI_MAX_CONTROLS)%nat ->
  (j < NPROPS)%nat ->
  let g := globals st in
  let E := computeChanges g in
  (fst (StyleChangesCounter st) = Z.of_nat (length E)
   /\ written (SaveStyle fileName STYLE_BINARY st) fileName
      = Some (binary_header (Z.of_nat (length E))
              ++ flat_map record_bytes E ++ binary_font_section g)
   /\ written (SaveStyle fileName STYLE_TEXT st) fileName
      = Some (bytes_of_text
                (text_header
                 +:+ (if customFontLoaded g
                      then text_font_warning +:+ text_font_line g
                      else EmptyString)
                 +:+ String.concat EmptyString (map text_line E)))
   /\ ((customFontLoaded g = true -> code_font_atlas g <> []) ->
       written (ExportStyleAsCode fileName styleName st) fileName
       = Some (bytes_of_text
                 (String.concat EmptyString
                    (code_prologue styleName (Z.of_nat (length E))
                     ++ map code_line E
                     ++ [ ("};" +:+ nl +:+ nl)%string ]
                     ++ (if customFontLoaded g then code_font g styleName
                         else [])
                     ++ code_loader g styleName)))))
  /\ (In {| controlId := i; propertyId := j; propertyValue := v |} E
      <-> v = current g i j
          /\ current g i j <> baseline g i j
          /\ current g i j <> current g 0 j)
  /\ (current g i j = current g 0 j ->
      forall v', ~ In {| controlId := i; propertyId := j;
                         propertyValue := v' |} E)
  /\ (forall i',
        (1 <= i' < RAYGUI_MAX_CONTROLS)%nat ->
        current g i' j = current g i j ->
        current g i j <> current g 0 j ->
        current g i j <> baseline g i j ->
        current g i' j <> baseline g i' j ->
        In {| controlId := i; propertyId := j;
              propertyValue := current g i j |} E
        /\ In {| controlId := i'; propertyId := j;
                 propertyValue := current g i j |} E).
Proof.
  intros Hw Hi Hj g E.
  assert (Hin : forall i0 v0, (1 <= i0 < RAYGUI_MAX_CONTROLS)%nat ->
    In {| controlId := i0; propertyId := j; propertyValue := v0 |} E
    <-> v0 = current g i0 j
        /\ current g i0 j <> baseline g i0 j
        /\ current g i0 j <> current g 0 j).
  { intros i0 v0 Hi0. unfold E. rewrite in_computeChanges. split.
    - intros [(j' & _ & _ & He)|(i' & j' & _ & _ & Hc & He)].
      + inversion He. lia.
      + inversion He. subst i' j'. apply changedControl_spec in Hc. done.
    - intros (-> & Hb & Hd). right. exists i0, j.
      repeat split; try done; try lia. by apply changedControl_spec. }
  split; [|split; [by apply Hin|split]].
  - split; [by rewrite StyleChangesCounter_run|].
    split; [by apply written_binary|].
    split; [by apply written_text|intros _; by apply written_code].
  - intros Hd v' Hv'. apply Hin in Hv'; [|done]. by destruct Hv' as (_ & _ & ?).
  - intros i' Hi' Hsame Hd Hb Hb'. split.
    + apply Hin; [done|]. repeat split; done.
    + apply Hin; [done|]. repeat split; congruence.
Qed.

(** C2. The binary file, the text file and the exported code hold the
    entries of one and the same list, each in its own notation and in the
    order of the list; the list is in strictly ascending order of control
    index and, within a control, of property index, so that the DEFAULT
    properties (control 0) come first; and its entries are the changed
    DEFAULT properties, over the whole range of base and extended indices,
    and the qualifying properties of the controls 1 to
    RAYGUI_MAX_CONTROLS-1. (The exported code is given for a custom font
    whose compressed atlas is not empty: the code reads the last byte of
    that array.) *)
Theorem change_set_order st fileName styleName :
  writable (world st) fileName = true ->
  let g := globals st in
  let E := computeChanges g in
  written (SaveStyle fileName STYLE_BINARY st) fileName
  = Some (binary_header (Z.of_nat (length E))
          ++ flat_map record_bytes E ++ binary_font_section g)
  /\ written (SaveStyle fileName STYLE_TEXT st) fileName
     = Some (bytes_of_text
               (text_header
                +:+ (if customFontLoaded g
                     then text_font_warning +:+ text_font_line g
                     else EmptyString)
                +:+ String.concat EmptyString (map text_line E)))
  /\ ((customFontLoaded g = true -> code_font_atlas g <> []) ->
      written (ExportStyleAsCode fileName styleName st) fileName
      = Some (bytes_of_text
                (String.concat EmptyString
                   (code_prologue styleName (Z.of_nat (length E))
                    ++ map code_line E
                    ++ [ ("};" +:+ nl +:+ nl)%string ]
                    ++ (if customFontLoaded g then code_font g styleName
                        else [])
                    ++ code_loader g styleName))))
  /\ StronglySorted prop_before E
  /\ (forall e,
        In e E
        <-> propertyValue e = current g (controlId e) (propertyId e)
            /\ (propertyId e < NPROPS)%nat
            /\ ((controlId e = 0%nat
                 /\ current g 0 (propertyId e) <> baseline g 0 (propertyId e))
                \/ ((1 <= controlId e < RAYGUI_MAX_CONTROLS)%nat
                    /\ current g (controlId e) (propertyId e)
                       <> baseline g (controlId e) (propertyId e)
                    /\ current g (controlId e) (propertyId e)
                       <> current g 0 (propertyId e)))).
Proof.
  intros Hw g E.
  split; [by apply written_binary|].
  split; [by apply written_text|].
  split; [intros _; by apply written_code|].
  split; [apply sorted_computeChanges|].
  intros e. unfold E. rewrite in_computeChanges. split.
  - intros [(j & Hj & Hc & ->)|(i & j & Hi & Hj & Hc & ->)]; simpl.
    + apply changedDefault_spec in Hc. split; [done|]. split; [done|].
      by left.
    + apply changedControl_spec in Hc. split; [done|]. split; [done|].
      by right.
  - destruct e as [i j v]. simpl.
    intros (-> & Hj & [[-> Hc]|(Hi & Hc)]).
    + left. exists j. split; [done|]. split; [|done].
      by apply changedDefault_spec.
    + right. exists i, j. split; [done|]. split; [done|]. split; [|done].
      by apply changedControl_spec.
Qed.

(** C3. The binary file begins with the four bytes of ["rGS "], the two
    bytes of the version 200 and two reserved zero bytes; then come the
    four bytes of the count N, and then exactly N records of eight bytes
    (control: 2, property: 2, value: 4): N, the value that
    [StyleChangesCounter] returns, is the number of records that the two
    loops write. *)
Theorem binary_count_matches_records st fileName :
  writable (world st) fileName = true ->
  (1 <= RAYGUI_MAX_CONTROLS)%nat ->
  Z.of_nat (RAYGUI_MAX_CONTROLS * NPROPS) < 2 ^ 31 ->
  let N := fst (StyleChangesCounter st) in
  let records := map record_bytes (computeChanges (globals st)) in
  written (SaveStyle fileName STYLE_BINARY st) fileName
  = Some ([x72; x47; x53; x20] ++ le_bytes 2 200 ++ le_bytes 2 0
          ++ le_bytes 4 N ++ concat records
          ++ binary_font_section (globals st))
  /\ le_bytes 2 200 = [xc8; x00]
  /\ le_bytes 2 0 = [x00; x00]
  /\ length (le_bytes 4 N) = 4%nat
  /\ le_value (le_bytes 4 N) = N
  /\ N = Z.of_nat (length records)
  /\ Forall (fun r => length r = 8%nat) records
  /\ (forall e,
        record_bytes e
        = le_bytes 2 (cast_short (Z.of_nat (controlId e)))
          ++ le_bytes 2 (cast_short (Z.of_nat (propertyId e)))
          ++ le_bytes 4 (propertyValue e)).
Proof.
  intros Hw Hc Hsize N records. unfold N, records.
  rewrite StyleChangesCounter_run. cbn [fst].
  pose proof (length_computeChanges (globals st) Hc) as Hlen.
  split.
  { rewrite written_binary by done. unfold binary_file, binary_header.
    by rewrite <- flat_map_concat_map, <- !app_assoc. }
  split; [done|]. split; [done|].
  split; [apply length_le_bytes|].
  split; [apply le_value_int; lia|].
  split; [by rewrite length_map|].
  split; [|done].
  apply Forall_forall. intros r Hr. apply list_elem_of_In in Hr.
  apply in_map_iff in Hr. destruct Hr as (e & <- & _).
  apply length_record_bytes.
Qed.

(** C4. When no custom font is loaded, the binary file ends with the
    font-data-size field: after the header (12 bytes) and the N records
    (8 bytes each) come the four bytes of an integer 0, and nothing
    else. *)
Theorem binary_without_font st fileName :
  writable (world st) fileName = true ->
  customFontLoaded (globals st) = false ->
  let E := computeChanges (globals st) in
  written (SaveStyle fileName STYLE_BINARY st) fileName
  = Some (binary_header (Z.of_nat (length E)) ++ flat_map record_bytes E
          ++ [x00; x00; x00; x00])
  /\ length (binary_header (Z.of_nat (length E))) = 12%nat
  /\ length (flat_map record_bytes E) = (8 * length E)%nat
  /\ [x00; x00; x00; x00] = le_bytes sizeof_int 0
  /\ le_value [x00; x00; x00; x00] = 0.
Proof.
  intros Hw Hfont E.
  split.
  { rewrite written_binary by done. unfold binary_file, binary_font_section.
    by rewrite Hfont. }
  split; [apply length_binary_header|].
  split; [apply length_records|]. done.
Qed.

(** C5. If the store differs from the baseline in DEFAULT's
    BASE_COLOR_NORMAL only, [0xFFFFFFFF] in the baseline and [0x202020FF]
    now, and no custom font is loaded, then the Change-Set is the single
    entry (0, BASE_COLOR_NORMAL, 0x202020FF) and the binary file is the
    header ["rGS "], version 200, reserved 0, count 1, followed by one
    record of exactly 8 bytes (control 0, property 1, value 0x202020FF)
    and the empty font field. *)
Theorem base_color_scenario st fileName :
  writable (world st) fileName = true ->
  (BASE_COLOR_NORMAL < NPROPS)%nat ->
  customFontLoaded (globals st) = false ->
  nth BASE_COLOR_NORMAL (styleBackup (globals st)) 0 = 0xFFFFFFFF ->
  nth BASE_COLOR_NORMAL (guiStyle (globals st)) 0 = 0x202020FF ->
  (forall k, k <> BASE_COLOR_NORMAL ->
     nth k (guiStyle (globals st)) 0 = nth k (styleBackup (globals st)) 0) ->
  computeChanges (globals st)
  = [ {| controlId := 0; propertyId := BASE_COLOR_NORMAL;
         propertyValue := 0x202020FF |} ]
  /\ fst (StyleChangesCounter st) = 1
  /\ written (SaveStyle fileName STYLE_BINARY st) fileName
     = Some ([x72; x47; x53; x20] ++ [xc8; x00] ++ [x00; x00]
             ++ [x01; x00; x00; x00]
             ++ [x00; x00; x01; x00; xff; x20; x20; x20]
             ++ [x00; x00; x00; x00]).
Proof.
  intros Hw Hn Hfont Hold Hnew Hsame.
  assert (HE : computeChanges (globals st)
               = [ {| controlId := 0; propertyId := BASE_COLOR_NORMAL;
                      propertyValue := 0x202020FF |} ]).
  { unfold computeChanges, defaultChanges.
    rewrite (cond_flat_map_single _ _ BASE_COLOR_NORMAL).
    - unfold entry, current. simpl Nat.add. rewrite Hnew. simpl. f_equal.
      apply flat_map_all_nil. intros i Hi. apply in_seq in Hi.
      unfold controlChanges. apply cond_flat_map_none. intros j Hj.
      apply in_seq in Hj. unfold changedControl, baseline, current.
      rewrite (Hsame (i * NPROPS + j)%nat)
        by (unfold BASE_COLOR_NORMAL in *; nia).
      by rewrite Z.eqb_refl.
    - intros j. unfold changedDefault, baseline, current. simpl Nat.add.
      rewrite negb_true_iff, Z.eqb_neq. split.
      + intros Hne. destruct (decide (j = BASE_COLOR_NORMAL)); [done|].
        by rewrite Hsame in Hne.
      + intros ->. rewrite Hold, Hnew. done.
    - lia. }
  split; [done|]. split.
  - by rewrite StyleChangesCounter_run, HE.
  - rewrite written_binary by done.
    unfold binary_file, binary_font_section. rewrite HE, Hfont. done.
Qed.

(** C6. If the file cannot be opened for writing, [SaveStyle] returns
    false and leaves the global variables, among them [styleBackup] and
    the style table, and the files as they were; [SaveStyle] changes no
    global variable on any path; and a later call with a path that can be
    opened gives the result and the file that it would have given without
    the failed call. *)
Theorem failed_save_keeps_state st fileName format :
  writable (world st) fileName = false ->
  let r := SaveStyle fileName format st in
  fst r = false
  /\ globals (snd r) = globals st
  /\ files (world (snd r)) = files (world st)
  /\ (forall name fmt s,
        styleBackup (globals (snd (SaveStyle name fmt s)))
        = styleBackup (globals s)
        /\ guiStyle (globals (snd (SaveStyle name fmt s)))
           = guiStyle (globals s))
  /\ (forall fileName',
        writable (world st) fileName' = true ->
        fst (SaveStyle fileName' format (snd r))
        = fst (SaveStyle fileName' format st)
        /\ ((format = STYLE_BINARY \/ format = STYLE_TEXT) ->
            fst (SaveStyle fileName' format (snd r)) = true
            /\ written (SaveStyle fileName' format (snd r)) fileName'
               = written (SaveStyle fileName' format st) fileName')).
Proof.
  intros Hw r.
  assert (Hr : r = (false, st) \/ exists mode, r = (false, refused fileName mode st)).
  { destruct (SaveStyle_refused fileName format st Hw) as (mode & [Hr|Hr]);
      [by left|right; by exists mode]. }
  assert (Hg : globals (snd r) = globals st)
    by (destruct Hr as [->|(mode & ->)]; done).
  assert (Hwr : writable (world (snd r)) = writable (world st))
    by (destruct Hr as [->|(mode & ->)]; done).
  split; [by destruct Hr as [->|(mode & ->)]|].
  split; [done|].
  split; [by destruct Hr as [->|(mode & ->)]|].
  split; [intros name fmt s; by rewrite SaveStyle_globals|].
  intros fileName' Hw'.
  destruct (SaveStyle_depends fileName' format (snd r) st Hg Hwr) as [Hfst Hfile].
  split; [done|]. intros Hfmt. split.
  - rewrite Hfst. destruct Hfmt as [->| ->].
    + by rewrite SaveStyle_binary_run.
    + by rewrite SaveStyle_text_run.
  - destruct Hfile as [Hfile|[Hb Ht]]; [by rewrite Hwr|done|].
    destruct Hfmt; done.
Qed.

(** C7, as amended. After the comment header the text writer prints, when
    a custom font is loaded, the warning line and a line [f <size>
    <spacing> <font file>]; then it prints exactly one line for each entry
    of the Change-Set, in order, of the form [p <control> <property>
    0x<value>    <control name>_<label> ] where the label is the name of
    the base property when the index is below RAYGUI_MAX_PROPS_BASE and
    [EXT<nn>] (nn the index minus RAYGUI_MAX_PROPS_BASE) otherwise, with an
    underscore between the two names and a space before the end of the
    line. Size and spacing are printed in decimal as the 32-bit signed
    [int] that [GuiGetStyle] returns, an entry from [2^31] on as a negative
    number. The indices take two digits (the tables have at most 100
    controls and properties) and the value eight hexadecimal digits. *)
Theorem text_file_lines st fileName :
  writable (world st) fileName = true ->
  (RAYGUI_MAX_CONTROLS <= 100)%nat ->
  (NPROPS <= 100)%nat ->
  let g := globals st in
  let E := computeChanges g in
  written (SaveStyle fileName STYLE_TEXT st) fileName
  = Some (bytes_of_text
            (text_header
             +:+ (if customFontLoaded g
                  then text_font_warning
                       +:+ "f "
                       +:+ fmt_i (cast_int (current g DEFAULT TEXT_SIZE))
                       +:+ " "
                       +:+ fmt_i (cast_int (current g DEFAULT TEXT_SPACING))
                       +:+ " " +:+ GetFileName (fontFilePath g) +:+ nl
                  else EmptyString)
             +:+ String.concat EmptyString
                   (map (fun e =>
                      "p " +:+ fmt_02i (Z.of_nat (controlId e))
                      +:+ " " +:+ fmt_02i (Z.of_nat (propertyId e))
                      +:+ " 0x" +:+ fmt_08x (propertyValue e)
                      +:+ "    " +:+ text_at guiControlText (controlId e)
                      +:+ "_"
                      +:+ (if (propertyId e <? RAYGUI_MAX_PROPS_BASE)%nat
                           then text_at guiPropsText (propertyId e)
                           else "EXT"
                                +:+ fmt_02i (Z.of_nat (propertyId e)
                                             - Z.of_nat RAYGUI_MAX_PROPS_BASE))
                      +:+ " " +:+ nl) E)))
  /\ (forall e, In e E ->
        String.length (fmt_02i (Z.of_nat (controlId e))) = 2%nat
        /\ String.length (fmt_02i (Z.of_nat (propertyId e))) = 2%nat
        /\ String.length (fmt_08x (propertyValue e)) = 8%nat
        /\ ((RAYGUI_MAX_PROPS_BASE <= propertyId e)%nat ->
            String.length (fmt_02i (Z.of_nat (propertyId e)
                                    - Z.of_nat RAYGUI_MAX_PROPS_BASE))
            = 2%nat))
  /\ (forall v, - 2 ^ 31 <= cast_int v < 2 ^ 31
                /\ (cast_int v - v) mod 2 ^ 32 = 0).
Proof.
  intros Hw Hc Hp g E. split; [by apply written_text|].
  split; [|intros v; split; [apply cast_int_range|apply cast_int_same_bits]].
  intros e He. apply in_computeChanges in He.
  assert (Hrange : (controlId e < 100)%nat /\ (propertyId e < 100)%nat).
  { destruct He as [(j & Hj & _ & ->)|(i & j & Hi & Hj & _ & ->)];
      simpl; lia. }
  destruct Hrange as [Hi Hj].
  split; [by apply length_fmt_02i|].
  split; [by apply length_fmt_02i|].
  split; [apply length_fmt_hex|].
  intros Hext.
  replace (Z.of_nat (propertyId e) - Z.of_nat RAYGUI_MAX_PROPS_BASE)
    with (Z.of_nat (propertyId e - RAYGUI_MAX_PROPS_BASE)) by lia.
  apply length_fmt_02i. lia.
Qed.

(** C8, as amended. For every data size greater than zero the bytes of
    the compressed font atlas are written in order as hexadecimal literals
    [0x..] of two digits, each but the last followed by a comma and either
    a space or a line break with four spaces; all the bytes are written;
    no line holds more than 20 literals, and every line other than the
    first and the last holds exactly 20. *)
Theorem font_data_layout f (compData : list byte) st :
  compData <> [] ->
  let n := length compData in
  let out := bytes_of_text (code_font_data compData) in
  let counts := entries_per_line out in
  ExportStyleAsCode_fontData f compData (Z.of_nat n) st
  = (tt, with_file f out st)
  /\ (exists seps : list string,
        length seps = (n - 1)%nat
        /\ Forall (fun s => s = ", "%string
                            \/ s = ("," +:+ nl +:+ "    ")%string) seps
        /\ code_font_data compData
           = (String.concat EmptyString
                (map (fun i =>
                   "0x" +:+ fmt_02x (nth i compData x00)
                   +:+ nth i seps EmptyString) (seq 0 (n - 1)))
              +:+ "0x" +:+ fmt_02x (nth (n - 1) compData x00)
              +:+ " };" +:+ nl +:+ nl)%string)
  /\ (forall b, String.length (fmt_02x b) = 2%nat)
  /\ list_sum counts = n
  /\ Forall (fun c => (c <= 20)%nat) counts
  /\ (forall k, (0 < k)%nat -> (S k < length counts)%nat ->
        nth k counts 0%nat = 20%nat).
Proof.
  intros Hne n out counts.
  split; [apply ExportStyleAsCode_fontData_run|].
  split.
  { exists (map (fun i => if Z.of_nat i mod BYTES_TEXT_PER_LINE =? 0
                          then ("," +:+ nl +:+ "    ")%string
                          else ", "%string) (seq 0 (n - 1))).
    split; [by rewrite length_map, length_seq|]. split.
    - apply Forall_forall. intros s Hs. apply list_elem_of_In in Hs.
      apply in_map_iff in Hs. destruct Hs as (i & <- & _).
      destruct (_ =? _); [by right|by left].
    - unfold code_font_data. do 2 f_equal. apply map_ext_in.
      intros i Hi. apply in_seq in Hi. unfold code_byte.
      rewrite nth_map_seq by lia. done. }
  split; [intros b; apply length_fmt_hex|].
  split.
  { unfold counts, out. rewrite font_data_entries_per_line.
    rewrite list_sum_filter_nonzero, line_counts_sum.
    destruct compData; [done|]. unfold n. simpl. lia. }
  unfold counts, out.
  destruct (font_data_lines_shape compData) as [->|(q & last & -> & Hlast)].
  - split; [constructor; [lia|constructor]|].
    intros k Hk Hlen. simpl in Hlen. lia.
  - split.
    + constructor; [lia|]. apply Forall_app. split.
      * apply Forall_forall. intros c Hc. apply list_elem_of_In in Hc.
        apply repeat_spec in Hc. lia.
      * constructor; [lia|constructor].
    + intros k Hk Hlen. destruct k as [|k]; [lia|].
      cbn [nth]. cbn [length] in Hlen.
      rewrite length_app, repeat_length in Hlen. simpl in Hlen.
      rewrite app_nth1 by (rewrite repeat_length; lia).
      rewrite (nth_indep _ 0%nat 20%nat) by (rewrite repeat_length; lia).
      apply nth_repeat.
Qed.

(** The Change-Set is a function of the style table and of the baseline. *)
Lemma computeChanges_depends g g' :
  guiStyle g' = guiStyle g ->
  styleBackup g' = styleBackup g ->
  computeChanges g' = computeChanges g.
Proof.
  intros Hs Hb.
  unfold computeChanges, defaultChanges, controlChanges, entry,
    changedDefault, changedControl, current, baseline.
  by rewrite Hs, Hb.
Qed.

(** C9. Counting and saving twice, with nothing changed in between, gives
    the same count and the same file both times: [StyleChangesCounter]
    leaves the state as it is, the two binary files hold the records of
    the same list of entries, and count and list are functions of the
    style table and of [styleBackup] alone. *)
Theorem change_set_twice st fileName1 fileName2 :
  writable (world st) fileName1 = true ->
  writable (world st) fileName2 = true ->
  let count1 := StyleChangesCounter st in
  let save1 := SaveStyle fileName1 STYLE_BINARY (snd count1) in
  let count2 := StyleChangesCounter (snd save1) in
  let save2 := SaveStyle fileName2 STYLE_BINARY (snd count2) in
  let E := computeChanges (globals st) in
  fst count1 = fst count2
  /\ snd count1 = st
  /\ snd count2 = snd save1
  /\ written save1 fileName1
     = Some (binary_header (Z.of_nat (length E)) ++ flat_map record_bytes E
             ++ binary_font_section (globals st))
  /\ written save2 fileName2 = written save1 fileName1
  /\ (forall st',
        guiStyle (globals st') = guiStyle (globals st) ->
        styleBackup (globals st') = styleBackup (globals st) ->
        fst (StyleChangesCounter st') = fst count1
        /\ computeChanges (globals st') = E).
Proof.
  intros Hw1 Hw2. cbv zeta.
  rewrite !StyleChangesCounter_run. cbn [fst snd].
  rewrite (SaveStyle_binary_run fileName1) by done. cbn [fst snd].
  rewrite (SaveStyle_binary_run fileName2) by exact Hw2.
  rewrite !written_saved. cbn [globals saved].
  repeat split; try done.
  - rewrite StyleChangesCounter_run. cbn [fst].
    by rewrite (computeChanges_depends (globals st) (globals st')).
  - by apply computeChanges_depends.
Qed.

(** C10. With a format that is neither STYLE_BINARY (0) nor STYLE_TEXT (3),
    among them STYLE_AS_CODE (1) and STYLE_TABLE_IMAGE (2), [SaveStyle]
    returns false and leaves the whole state as it is: no [fopen] is
    recorded and no file has changed. *)
Theorem other_format_does_nothing fileName format st :
  format <> STYLE_BINARY ->
  format <> STYLE_TEXT ->
  let r := SaveStyle fileName format st in
  r = (false, st)
  /\ fopen_log (world (snd r)) = fopen_log (world st)
  /\ files (world (snd r)) = files (world st)
  /\ SaveStyle fileName STYLE_AS_CODE st = (false, st)
  /\ SaveStyle fileName STYLE_TABLE_IMAGE st = (false, st).
Proof.
  intros Hb Ht r. unfold r.
  rewrite SaveStyle_other_format by done. cbn [snd].
  repeat split; by apply SaveStyle_other_format.
Qed.

End Properties.

(** * The theorems at work *)

Section Witnesses.
Import Examples.
#[local] Existing Instance raygui_3_1.
#[local] Existing Instance raylib_plain.

(** LABEL and BUTTON hold the same non-default TEXT_COLOR_NORMAL: both
    entries are in the Change-Set. *)
Lemma control_entry_emitted_iff_witness :
  writable (world st_siblings) "a.rgs" = true
  /\ (1 <= 2 < 16)%nat
  /\ (2 < 16 + 8)%nat
  /\ In {| controlId := 2; propertyId := 2; propertyValue := 0x11223344 |}
       (computeChanges (globals st_siblings))
  /\ In {| controlId := 1; propertyId := 2; propertyValue := 0x11223344 |}
       (computeChanges (globals st_siblings)).
Proof.
  assert (Hw : writable (world st_siblings) "a.rgs" = true) by reflexivity.
  assert (Hi : (1 <= 2 < 16)%nat) by lia.
  assert (Hj : (2 < 16 + 8)%nat) by lia.
  split; [exact Hw|]. split; [exact Hi|]. split; [exact Hj|].
  destruct (control_entry_emitted_iff (gui := raygui_3_1) st_siblings "a.rgs" "style" 2 2
              0x11223344 Hw Hi Hj) as (_ & _ & _ & Hboth).
  apply (Hboth 1%nat).
  - change (1 <= 1 < 16)%nat. lia.
  - reflexivity.
  - vm_compute. discriminate.
  - vm_compute. discriminate.
  - vm_compute. discriminate.
Defined.

Lemma change_set_order_witness :
  writable (world st_font) "a.rgs" = true
  /\ StronglySorted prop_before (computeChanges (globals st_font))
  /\ written (ExportStyleAsCode "a.rgs" "style" st_font) "a.rgs"
     = Some (bytes_of_text (code_file (globals st_font) "style")).
Proof.
  assert (Hw : writable (world st_font) "a.rgs" = true) by reflexivity.
  split; [exact Hw|].
  destruct (change_set_order (gui := raygui_3_1) st_font "a.rgs" "style" Hw)
    as (_ & _ & Hcode & Hsorted & _).
  split; [exact Hsorted|].
  apply Hcode. intros _. vm_compute. discriminate.
Defined.

Lemma binary_count_matches_records_witness :
  writable (world st_siblings) "a.rgs" = true
  /\ (1 <= 16)%nat
  /\ Z.of_nat (16 * (16 + 8)) < 2 ^ 31
  /\ fst (StyleChangesCounter st_siblings)
     = Z.of_nat (length (map record_bytes
                           (computeChanges (globals st_siblings)))).
Proof.
  assert (Hw : writable (world st_siblings) "a.rgs" = true) by reflexivity.
  assert (Hc : (1 <= 16)%nat) by lia.
  assert (Hs : Z.of_nat (16 * (16 + 8)) < 2 ^ 31) by (vm_compute; reflexivity).
  split; [exact Hw|]. split; [exact Hc|]. split; [exact Hs|].
  destruct (binary_count_matches_records (gui := raygui_3_1) st_siblings "a.rgs" Hw Hc Hs)
    as (_ & _ & _ & _ & _ & Hcount & _).
  exact Hcount.
Defined.

Lemma binary_without_font_witness :
  writable (world st_siblings) "a.rgs" = true
  /\ customFontLoaded (globals st_siblings) = false
  /\ written (SaveStyle "a.rgs" STYLE_BINARY st_siblings) "a.rgs"
     = Some (binary_header
               (Z.of_nat (length (computeChanges (globals st_siblings))))
             ++ flat_map record_bytes (computeChanges (globals st_siblings))
             ++ [x00; x00; x00; x00]).
Proof.
  assert (Hw : writable (world st_siblings) "a.rgs" = true) by reflexivity.
  assert (Hf : customFontLoaded (globals st_siblings) = false) by reflexivity.
  split; [exact Hw|]. split; [exact Hf|].
  destruct (binary_without_font (gui := raygui_3_1) st_siblings "a.rgs" Hw Hf) as (Hfile & _).
  exact Hfile.
Defined.

Lemma base_color_scenario_witness :
  writable (world st_base_color) "a.rgs" = true
  /\ (BASE_COLOR_NORMAL < 16 + 8)%nat
  /\ customFontLoaded (globals st_base_color) = false
  /\ nth BASE_COLOR_NORMAL (styleBackup (globals st_base_color)) 0 = 0xFFFFFFFF
  /\ nth BASE_COLOR_NORMAL (guiStyle (globals st_base_color)) 0 = 0x202020FF
  /\ (forall k, k <> BASE_COLOR_NORMAL ->
        nth k (guiStyle (globals st_base_color)) 0
        = nth k (styleBackup (globals st_base_color)) 0)
  /\ written (SaveStyle "a.rgs" STYLE_BINARY st_base_color) "a.rgs"
     = Some ([x72; x47; x53; x20] ++ [xc8; x00] ++ [x00; x00]
             ++ [x01; x00; x00; x00]
             ++ [x00; x00; x01; x00; xff; x20; x20; x20]
             ++ [x00; x00; x00; x00]).
Proof.
  assert (Hw : writable (world st_base_color) "a.rgs" = true) by reflexivity.
  assert (Hn : (BASE_COLOR_NORMAL < 16 + 8)%nat) by (unfold BASE_COLOR_NORMAL; lia).
  assert (Hf : customFontLoaded (globals st_base_color) = false) by reflexivity.
  assert (Hold : nth BASE_COLOR_NORMAL (styleBackup (globals st_base_color)) 0
                 = 0xFFFFFFFF) by reflexivity.
  assert (Hnew : nth BASE_COLOR_NORMAL (guiStyle (globals st_base_color)) 0
                 = 0x202020FF) by reflexivity.
  assert (Hsame : forall k, k <> BASE_COLOR_NORMAL ->
            nth k (guiStyle (globals st_base_color)) 0
            = nth k (styleBackup (globals st_base_color)) 0).
  { intros k Hk. destruct k as [|[|k]]; [reflexivity| |reflexivity].
    exfalso. apply Hk. reflexivity. }
  split; [exact Hw|]. split; [exact Hn|]. split; [exact Hf|].
  split; [exact Hold|]. split; [exact Hnew|]. split; [exact Hsame|].
  destruct (base_color_scenario (gui := raygui_3_1) st_base_color "a.rgs" Hw Hn Hf Hold Hnew Hsame)
    as (_ & _ & Hfile).
  exact Hfile.
Defined.

Lemma failed_save_keeps_state_witness :
  writable (world st_siblings) "/ro/a.rgs" = false
  /\ fst (SaveStyle "/ro/a.rgs" STYLE_BINARY st_siblings) = false
  /\ globals (snd (SaveStyle "/ro/a.rgs" STYLE_BINARY st_siblings))
     = globals st_siblings.
Proof.
  assert (Hw : writable (world st_siblings) "/ro/a.rgs" = false) by reflexivity.
  split; [exact Hw|].
  destruct (failed_save_keeps_state (gui := raygui_3_1) st_siblings "/ro/a.rgs" STYLE_BINARY Hw)
    as (Hfalse & Hglobals & _).
  split; [exact Hfalse|exact Hglobals].
Defined.

(** With a TEXT_SPACING of [0xFFFFFFFF] the line of the font reads
    [f 10 -1 font.ttf]. *)
Lemma text_file_lines_witness :
  writable (world st_font_spacing) "a.rgs" = true
  /\ (16 <= 100)%nat
  /\ (16 + 8 <= 100)%nat
  /\ option_map string_of_list_byte
       (written (SaveStyle "a.rgs" STYLE_TEXT st_font_spacing) "a.rgs")
     = Some (text_header +:+ text_font_warning
             +:+ "f 10 -1 font.ttf" +:+ nl)%string
  /\ (forall e, In e (computeChanges (globals st_font_spacing)) ->
        String.length (fmt_02i (Z.of_nat (controlId e))) = 2%nat).
Proof.
  assert (Hw : writable (world st_font_spacing) "a.rgs" = true) by reflexivity.
  assert (Hc : (16 <= 100)%nat) by lia.
  assert (Hp : (16 + 8 <= 100)%nat) by lia.
  split; [exact Hw|]. split; [exact Hc|]. split; [exact Hp|].
  destruct (text_file_lines (gui := raygui_3_1) st_font_spacing "a.rgs" Hw Hc Hp)
    as (Hfile & Hdigits & _).
  split.
  - rewrite Hfile. vm_compute. reflexivity.
  - intros e He. destruct (Hdigits e He) as (Hcontrol & _). exact Hcontrol.
Defined.

Lemma font_data_layout_witness :
  data21 <> []
  /\ written (ExportStyleAsCode_fontData "out.h" data21 21 st_open) "out.h"
     = written
         (tt, with_file "out.h" (bytes_of_text (code_font_data data21)) st_open)
         "out.h".
Proof.
  assert (Hne : data21 <> []) by (vm_compute; discriminate).
  split; [exact Hne|].
  destruct (font_data_layout "out.h" data21 st_open Hne) as (Hrun & _).
  exact (f_equal (fun r => written r "out.h") Hrun).
Defined.

Lemma change_set_twice_witness :
  writable (world st_siblings) "a.rgs" = true
  /\ writable (world st_siblings) "b.rgs" = true
  /\ fst (StyleChangesCounter st_siblings)
     = fst (StyleChangesCounter
              (snd (SaveStyle "a.rgs" STYLE_BINARY
                      (snd (StyleChangesCounter st_siblings))))).
Proof.
  assert (Ha : writable (world st_siblings) "a.rgs" = true) by reflexivity.
  assert (Hb : writable (world st_siblings) "b.rgs" = true) by reflexivity.
  split; [exact Ha|]. split; [exact Hb|].
  destruct (change_set_twice (gui := raygui_3_1) st_siblings "a.rgs" "b.rgs" Ha Hb) as (Hcount & _).
  exact Hcount.
Defined.

Lemma other_format_does_nothing_witness :
  STYLE_AS_CODE <> STYLE_BINARY
  /\ STYLE_AS_CODE <> STYLE_TEXT
  /\ SaveStyle "a.h" STYLE_AS_CODE st_siblings = (false, st_siblings).
Proof.
  assert (Hb : STYLE_AS_CODE <> STYLE_BINARY) by (vm_compute; discriminate).
  assert (Ht : STYLE_AS_CODE <> STYLE_TEXT) by (vm_compute; discriminate).
  split; [exact Hb|]. split; [exact Ht|].
  destruct (other_format_does_nothing (gui := raygui_3_1) "a.h" STYLE_AS_CODE st_siblings Hb Ht)
    as (Hsame & _).
  exact Hsame.
Defined.

(** ** Where the claims as stated fail *)

(** C7 as stated. With a custom font loaded and two properties of BUTTON
    changed, the text file is not the spec's: after the warning comes the
    line of the font file, the names are joined with an underscore and
    prefixed with the control also for an extended property, and each line
    ends with a space. *)
Lemma text_file_differs_from_spec :
  option_map string_of_list_byte
    (written (SaveStyle "style.rgs" STYLE_TEXT st_font) "style.rgs")
  = Some (text_header +:+ text_font_warning
          +:+ "f 0 0 font.ttf" +:+ nl
          +:+ "p 02 02 0x11223344    BUTTON_TEXT_COLOR_NORMAL " +:+ nl
          +:+ "p 02 16 0x00000005    BUTTON_EXT00 " +:+ nl)%string
  /\ spec_text_file (globals st_font)
     = (text_header +:+ text_font_warning
        +:+ "p 02 02 0x11223344    BUTTONTEXT_COLOR_NORMAL" +:+ nl
        +:+ "p 02 16 0x00000005    EXT00" +:+ nl)%string
  /\ written (SaveStyle "style.rgs" STYLE_TEXT st_font) "style.rgs"
     <> Some (bytes_of_text (spec_text_file (globals st_font))).
Proof.
  split; [vm_compute; reflexivity|]. split; [vm_compute; reflexivity|].
  vm_compute. discriminate.
Qed.

(** C8 as stated. For 21 bytes of data the first line holds one literal and
    the second 20: not every line holds 20. *)
Lemma font_data_first_line :
  option_map entries_per_line
    (written (ExportStyleAsCode_fontData "out.h" data21 21 st_open) "out.h")
  = Some [1; 20]%nat
  /\ ~ (forall content,
          written (ExportStyleAsCode_fontData "out.h" data21 21 st_open) "out.h"
          = Some content ->
          Forall (fun count => count = 20%nat) (entries_per_line content)).
Proof.
  split; [vm_compute; reflexivity|].
  intros Hall.
  specialize (Hall _ eq_refl). vm_compute in Hall.
  inversion Hall as [|? ? Hfirst _]. discriminate Hfirst.
Qed.

End Witnesses.

(** * More properties of the program *)

Section MoreProperties.
Context {gui : Raygui} {ray : Raylib} {text : RaylibText} {loader : RayguiLoader}.
Context {image : StyleTableImage} {input : RaylibInput}.

Local Abbreviation NPROPS := (RAYGUI_MAX_PROPS_BASE + RAYGUI_MAX_PROPS_EXTENDED)%nat.

(** ** SaveStyle and ExportStyleAsCode on every path *)

Lemma SaveStyle_run fileName format st :
  SaveStyle fileName format st
  = if format =? STYLE_BINARY then
      if writable (world st) fileName
      then (true, saved fileName "wb" (binary_file (globals st)) st)
      else (false, refused fileName "wb" st)
    else if format =? STYLE_TEXT then
      if writable (world st) fileName
      then (true, saved fileName "wt" (bytes_of_text (text_file (globals st))) st)
      else (false, refused fileName "wt" st)
    else (false, st).
Proof.
  destruct (Z.eqb_spec format STYLE_BINARY) as [->|Hb].
  { destruct (writable (world st) fileName) eqn:Hw.
    - by apply SaveStyle_binary_run.
    - by apply SaveStyle_binary_refused. }
  destruct (Z.eqb_spec format STYLE_TEXT) as [->|Ht].
  { destruct (writable (world st) fileName) eqn:Hw.
    - by apply SaveStyle_text_run.
    - by apply SaveStyle_text_refused. }
  by apply SaveStyle_other_format.
Qed.

Lemma ExportStyleAsCode_refused fileName styleName st :
  writable (world st) fileName = false ->
  ExportStyleAsCode fileName styleName st = (tt, refused fileName "wt" st).
Proof.
  intros Hw. unfold ExportStyleAsCode.
  rewrite bind_run, (fopen_run_fail _ _ _ Hw). reflexivity.
Qed.

Lemma files_saved_other fileName mode content st name :
  name <> fileName ->
  files (world (saved fileName mode content st)) !! name
  = files (world st) !! name.
Proof. intros Hne. simpl. by rewrite lookup_insert_ne. Qed.

(** ** The records of the binary file, read back *)

Lemma drop_records k (l : list GuiStyleProp) (rest : list byte) :
  (k <= length l)%nat ->
  drop (8 * k) (flat_map record_bytes l ++ rest)
  = flat_map record_bytes (drop k l) ++ rest.
Proof.
  revert l. induction k as [|k IH]; intros l Hk; [reflexivity|].
  destruct l as [|e l]; [simpl in Hk; lia|].
  replace (8 * S k)%nat with (8 + 8 * k)%nat by lia.
  cbn [flat_map drop]. rewrite <- app_assoc.
  rewrite drop_app_add' by (by rewrite length_record_bytes).
  apply IH. simpl in Hk. lia.
Qed.

Lemma cast_short_index (i : nat) :
  Z.of_nat i < 2 ^ 15 -> cast_short (Z.of_nat i) = Z.of_nat i.
Proof.
  intros Hi. unfold cast_short.
  rewrite Z.mod_small by lia. lia.
Qed.

Lemma le_value_short (i : nat) :
  Z.of_nat i < 2 ^ 15 ->
  le_value (le_bytes sizeof_short (cast_short (Z.of_nat i))) = Z.of_nat i.
Proof.
  intros Hi. rewrite cast_short_index by done.
  rewrite le_value_le_bytes. apply Z.mod_small.
  change (256 ^ Z.of_nat sizeof_short) with 65536. lia.
Qed.

Lemma entry_indices g e :
  In e (computeChanges g) ->
  (controlId e < Nat.max 1 RAYGUI_MAX_CONTROLS)%nat
  /\ (propertyId e < NPROPS)%nat
  /\ propertyValue e = current g (controlId e) (propertyId e).
Proof.
  intros He. apply in_computeChanges in He.
  destruct He as [(j & Hj & _ & ->)|(i & j & Hi & Hj & _ & ->)]; simpl;
    repeat split; lia.
Qed.

Lemma length_flat_map_const {A B} (f : A -> list B) (c : nat) (l : list A) :
  (forall x, length (f x) = c) ->
  length (flat_map f l) = (c * length l)%nat.
Proof.
  intros Hf. rewrite (flat_map_constant_length (c := c)) by (intros; apply Hf).
  lia.
Qed.

(** ** The empty Change-Set *)

Lemma computeChanges_nil_iff g :
  computeChanges g = []
  <-> (forall j, (j < NPROPS)%nat -> current g 0 j = baseline g 0 j)
      /\ (forall i j, (1 <= i < RAYGUI_MAX_CONTROLS)%nat -> (j < NPROPS)%nat ->
            current g i j = baseline g i j \/ current g i j = current g 0 j).
Proof.
  split.
  - intros Hnil. split.
    + intros j Hj. destruct (Z.eq_dec (current g 0 j) (baseline g 0 j)) as [|Hne];
        [done|].
      assert (Hin : In (entry g 0 j) (computeChanges g)).
      { apply in_computeChanges. left. exists j.
        split; [done|]. split; [by apply changedDefault_spec|done]. }
      rewrite Hnil in Hin. destruct Hin.
    + intros i j Hi Hj.
      destruct (Z.eq_dec (current g i j) (baseline g i j)) as [|Hb]; [by left|].
      destruct (Z.eq_dec (current g i j) (current g 0 j)) as [|Hd]; [by right|].
      assert (Hin : In (entry g i j) (computeChanges g)).
      { apply in_computeChanges. right. exists i, j.
        split; [done|]. split; [done|].
        split; [by apply changedControl_spec|done]. }
      rewrite Hnil in Hin. destruct Hin.
  - intros [Hdef Hctl].
    destruct (computeChanges g) as [|e l] eqn:HE; [done|].
    assert (Hin : In e (computeChanges g)) by (rewrite HE; by left).
    apply in_computeChanges in Hin.
    destruct Hin as [(j & Hj & Hc & _)|(i & j & Hi & Hj & Hc & _)].
    + apply changedDefault_spec in Hc. by specialize (Hdef j Hj).
    + apply changedControl_spec in Hc. destruct Hc as [Hb Hd].
      by destruct (Hctl i j Hi Hj).
Qed.

(** * Further properties of the save and export functions *)

(** X1. [SaveStyle] returns true exactly when the format is STYLE_BINARY
    or STYLE_TEXT and the file could be opened for writing. *)
Theorem SaveStyle_result fileName format st :
  fst (SaveStyle fileName format st)
  = ((format =? STYLE_BINARY) || (format =? STYLE_TEXT))
    && writable (world st) fileName.
Proof.
  rewrite SaveStyle_run.
  destruct (format =? STYLE_BINARY); [by destruct (writable _ _)|].
  destruct (format =? STYLE_TEXT); [by destruct (writable _ _)|].
  reflexivity.
Qed.

(** X2. [SaveStyle] touches nothing but the file it is given: every other
    file, the standard output and the global variables are as before, and
    [fopen] is called once, with mode [wb] for STYLE_BINARY and [wt] for
    STYLE_TEXT, and not at all for another format. *)
Theorem SaveStyle_frame fileName format st name :
  name <> fileName ->
  let st' := snd (SaveStyle fileName format st) in
  files (world st') !! name = files (world st) !! name
  /\ stdout (world st') = stdout (world st)
  /\ globals st' = globals st
  /\ fopen_log (world st')
     = fopen_log (world st)
       ++ (if format =? STYLE_BINARY then [(fileName, "wb"%string)]
           else if format =? STYLE_TEXT then [(fileName, "wt"%string)]
           else []).
Proof.
  intros Hne st'. unfold st'. rewrite SaveStyle_run.
  destruct (format =? STYLE_BINARY).
  { destruct (writable _ _); simpl; by rewrite ?lookup_insert_ne. }
  destruct (format =? STYLE_TEXT).
  { destruct (writable _ _); simpl; by rewrite ?lookup_insert_ne. }
  simpl. by rewrite app_nil_r.
Qed.

(** X3. When the file cannot be opened, [ExportStyleAsCode] does nothing
    and says nothing: no file and no global variable changes and nothing is
    printed, whether a custom font is loaded or not. *)
Theorem ExportStyleAsCode_refused_silent fileName styleName st :
  writable (world st) fileName = false ->
  let st' := snd (ExportStyleAsCode fileName styleName st) in
  files (world st') = files (world st)
  /\ stdout (world st') = stdout (world st)
  /\ globals st' = globals st
  /\ fopen_log (world st') = fopen_log (world st) ++ [(fileName, "wt"%string)].
Proof.
  intros Hw st'. unfold st'. by rewrite ExportStyleAsCode_refused.
Qed.

(** X4. When the file can be opened, [ExportStyleAsCode] replaces that
    file and leaves every other file and the global variables as they
    were; it prints the warning about the image format when a custom font
    is loaded whose atlas is not GRAY+ALPHA, and nothing otherwise (for a
    custom font whose compressed atlas is not empty, as the code reads its
    last byte). *)
Theorem ExportStyleAsCode_frame fileName styleName st name :
  writable (world st) fileName = true ->
  name <> fileName ->
  (customFontLoaded (globals st) = true -> code_font_atlas (globals st) <> []) ->
  let st' := snd (ExportStyleAsCode fileName styleName st) in
  let g := globals st in
  files (world st') !! name = files (world st) !! name
  /\ globals st' = g
  /\ stdout (world st')
     = stdout (world st)
       ++ (if customFontLoaded g
              && negb (im_format (LoadImageFromTexture (texture (customFont g)))
                       =? PIXELFORMAT_UNCOMPRESSED_GRAY_ALPHA)
           then bytes_of_text "WARNING: Font image format is not GRAY+ALPHA!"
           else []).
Proof.
  intros Hw Hne _ st' g. unfold st'. rewrite ExportStyleAsCode_run by done.
  simpl. rewrite lookup_insert_ne by done.
  split; [done|]. split; [done|].
  unfold code_log. fold g. by destruct (_ && _).
Qed.

(** X5. Record [k] of the binary file is at offset [12 + 8*k] and reads
    back as entry [k] of the Change-Set: two bytes for the control, two
    for the property, four for the value (modulo 2^32), all little-endian;
    the value is the one the style table holds for that control and
    property. *)
Theorem binary_record_at st fileName k e content :
  writable (world st) fileName = true ->
  Z.of_nat RAYGUI_MAX_CONTROLS <= 2 ^ 15 ->
  Z.of_nat NPROPS <= 2 ^ 15 ->
  computeChanges (globals st) !! k = Some e ->
  written (SaveStyle fileName STYLE_BINARY st) fileName = Some content ->
  let record := take 8 (drop (12 + 8 * k) content) in
  record = record_bytes e
  /\ le_value (take 2 record) = Z.of_nat (controlId e)
  /\ le_value (take 2 (drop 2 record)) = Z.of_nat (propertyId e)
  /\ le_value (drop 4 record) = propertyValue e mod 2 ^ 32
  /\ propertyValue e = current (globals st) (controlId e) (propertyId e).
Proof.
  intros Hw Hc Hp He Hcontent record.
  rewrite written_binary in Hcontent by done.
  injection Hcontent as <-.
  assert (Hrec : record = record_bytes e).
  { unfold record, binary_file.
    rewrite drop_app_add' by (by rewrite length_binary_header).
    rewrite drop_records by (apply lookup_lt_Some in He; lia).
    rewrite (drop_S _ _ _ He). cbn [flat_map]. rewrite <- app_assoc.
    by rewrite take_app_length' by (by rewrite length_record_bytes). }
  split; [done|].
  assert (Hin : In e (computeChanges (globals st))).
  { apply list_elem_of_In. by eapply list_elem_of_lookup_2. }
  apply entry_indices in Hin. destruct Hin as (Hi & Hj & Hv).
  rewrite Hrec. unfold record_bytes.
  rewrite take_app_length' by (by rewrite length_le_bytes).
  rewrite drop_app_length' by (by rewrite length_le_bytes).
  rewrite take_app_length' by (by rewrite length_le_bytes).
  change 4%nat with (2 + 2)%nat.
  rewrite drop_app_add' by (by rewrite length_le_bytes).
  rewrite drop_app_length' by (by rewrite length_le_bytes).
  split; [apply le_value_short; lia|].
  split; [apply le_value_short; lia|].
  split; [|done].
  by rewrite le_value_le_bytes.
Qed.

(** X6. The font-size field of the binary file is zero exactly when no
    custom font is loaded. With a font it holds 32 plus the size of the
    compressed atlas plus 32 for each glyph, which is 20 less than the
    number of bytes of the font section: the five integers written before
    the atlas are not counted. *)
Theorem font_size_field st fileName :
  writable (world st) fileName = true ->
  (forall x, length (float_bytes x) = 4%nat) ->
  0 <= glyphCount (customFont (globals st)) ->
  let g := globals st in
  let E := computeChanges g in
  let section := binary_font_section g in
  let declared := le_value (take 4 section) in
  Z.of_nat (length section) < 2 ^ 31 ->
  written (SaveStyle fileName STYLE_BINARY st) fileName
  = Some (binary_header (Z.of_nat (length E)) ++ flat_map record_bytes E
          ++ section)
  /\ (customFontLoaded g = false -> declared = 0 /\ length section = 4%nat)
  /\ (customFontLoaded g = true ->
      32 <= declared /\ Z.of_nat (length section) = declared + 20).
Proof.
  intros Hw Hfloat Hglyphs g E section declared Hsize.
  split; [by apply written_binary|].
  unfold declared, section in *. unfold binary_font_section in *.
  split; intros Hfont; rewrite Hfont in *; [by split|].
  revert Hsize. unfold font_bytes. fold g.
  set (font := customFont g).
  set (im0 := LoadImageFromTexture (texture font)).
  change (0 <= glyphCount font) in Hglyphs.
  destruct (negb (im_format im0 =? PIXELFORMAT_UNCOMPRESSED_GRAY_ALPHA)).
  all: cbv zeta.
  all: match goal with
       | |- context [CompressData ?d ?s] => set (compData := CompressData d s)
       end.
  all: rewrite take_app_length' by (by rewrite length_le_bytes).
  all: rewrite le_value_le_bytes.
  all: rewrite !length_app, !length_le_bytes.
  all: rewrite (length_flat_map_const _ 16)
         by (intros i; unfold rect_bytes; rewrite !length_app, !Hfloat; lia).
  all: rewrite (length_flat_map_const _ 16)
         by (intros i; cbv zeta; rewrite !length_app, !length_le_bytes;
             unfold sizeof_int; lia).
  all: unfold rect_bytes; rewrite !length_app, !Hfloat, length_seq.
  all: unfold sizeof_int; change (256 ^ Z.of_nat 4) with (2 ^ 32).
  all: intros Hsize; rewrite Z.mod_small by lia; lia.
Qed.

(** X7. [StyleChangesCounter] returns 0 exactly when every DEFAULT
    property equals its baseline and every property of another control
    equals its baseline or the current DEFAULT value: a style can differ
    from the baseline and still count no change. *)
Theorem StyleChangesCounter_zero_iff st :
  let g := globals st in
  fst (StyleChangesCounter st) = 0
  <-> (forall j, (j < NPROPS)%nat -> current g 0 j = baseline g 0 j)
      /\ (forall i j, (1 <= i < RAYGUI_MAX_CONTROLS)%nat -> (j < NPROPS)%nat ->
            current g i j = baseline g i j \/ current g i j = current g 0 j).
Proof.
  intros g. rewrite StyleChangesCounter_run. cbn [fst].
  rewrite <- computeChanges_nil_iff. fold g.
  destruct (computeChanges g); simpl; split; intros H; try done; lia.
Qed.

(** X8. When the style table equals the baseline and no custom font is
    loaded, the binary file is sixteen bytes, the header with a count of 0
    and an empty font field, and the text file is its comment header. *)
Theorem unchanged_style_files st fileName :
  (1 <= RAYGUI_MAX_CONTROLS)%nat ->
  writable (world st) fileName = true ->
  customFontLoaded (globals st) = false ->
  (forall k, (k < RAYGUI_MAX_CONTROLS * NPROPS)%nat ->
     nth k (guiStyle (globals st)) 0 = nth k (styleBackup (globals st)) 0) ->
  fst (StyleChangesCounter st) = 0
  /\ written (SaveStyle fileName STYLE_BINARY st) fileName
     = Some [x72; x47; x53; x20; xc8; x00; x00; x00;
             x00; x00; x00; x00; x00; x00; x00; x00]
  /\ written (SaveStyle fileName STYLE_TEXT st) fileName
     = Some (bytes_of_text text_header).
Proof.
  intros Hc Hw Hfont Hsame.
  assert (Hnil : computeChanges (globals st) = []).
  { apply computeChanges_nil_iff. split.
    - intros j Hj. unfold current, baseline. apply Hsame. nia.
    - intros i j Hi Hj. left. unfold current, baseline. apply Hsame. nia. }
  rewrite StyleChangesCounter_run, written_binary, written_text by done.
  unfold binary_file, text_file, binary_font_section.
  rewrite Hnil, Hfont.
  split; [reflexivity|]. split; reflexivity.
Qed.

(** X9. The count of changes lies between 0 and the size of the table,
    and without a custom font the binary file is 16 + 8*N bytes long for a
    count of N. *)
Theorem binary_file_size st fileName content :
  (1 <= RAYGUI_MAX_CONTROLS)%nat ->
  writable (world st) fileName = true ->
  customFontLoaded (globals st) = false ->
  written (SaveStyle fileName STYLE_BINARY st) fileName = Some content ->
  let N := fst (StyleChangesCounter st) in
  0 <= N <= Z.of_nat (RAYGUI_MAX_CONTROLS * NPROPS)
  /\ Z.of_nat (length content) = 16 + 8 * N.
Proof.
  intros Hc Hw Hfont Hcontent N. unfold N.
  rewrite StyleChangesCounter_run. cbn [fst].
  pose proof (length_computeChanges (globals st) Hc) as Hlen.
  split; [lia|].
  rewrite written_binary in Hcontent by done. injection Hcontent as <-.
  unfold binary_file, binary_font_section. rewrite Hfont.
  rewrite !length_app, length_binary_header, length_records, length_le_bytes.
  unfold sizeof_int. lia.
Qed.

(** ** Loops that change the state *)

Lemma for_count_invariant (P : nat -> state -> Prop)
    (body : nat -> unit -> M unit) n :
  forall lo st,
    P lo st ->
    (forall i s, (lo <= i < lo + n)%nat -> P i s -> P (S i) (snd (body i tt s))) ->
    P (lo + n)%nat (snd (for_count n lo body tt st)).
Proof.
  induction n as [|n IH]; intros lo st Hlo Hstep.
  - simpl. by rewrite Nat.add_0_r.
  - cbn [for_count]. rewrite bind_run.
    destruct (body lo tt st) as [[] st1] eqn:Hbody. cbn [fst snd].
    replace (lo + S n)%nat with (S lo + n)%nat by lia.
    apply IH.
    + specialize (Hstep lo st). rewrite Hbody in Hstep. apply Hstep; [lia|done].
    + intros i s Hi. apply Hstep. lia.
Qed.

Lemma for_invariant (P : nat -> state -> Prop)
    (body : nat -> unit -> M unit) hi st :
  P 0%nat st ->
  (forall i s, (i < hi)%nat -> P i s -> P (S i) (snd (body i tt s))) ->
  P hi (snd (for_ 0 hi body tt st)).
Proof.
  intros H0 Hstep. unfold for_. rewrite Nat.sub_0_r.
  apply (for_count_invariant P body hi 0 st H0).
  intros i s Hi. apply Hstep. lia.
Qed.

(** ** The baseline snapshot *)

Lemma set_styleBackup_nth k v st i :
  nth i (styleBackup (globals (snd (set_styleBackup k v st)))) 0
  = if decide (k = i /\ (k < length (styleBackup (globals st)))%nat)
    then v else nth i (styleBackup (globals st)) 0.
Proof.
  simpl. rewrite !nth_lookup, list_lookup_insert.
  by destruct (decide _).
Qed.

Lemma main_keep_backup_run st :
  length (styleBackup (globals st)) = (RAYGUI_MAX_CONTROLS * NPROPS)%nat ->
  let st' := snd (main_keep_backup st) in
  guiStyle (globals st') = guiStyle (globals st)
  /\ customFont (globals st') = customFont (globals st)
  /\ customFontLoaded (globals st') = customFontLoaded (globals st)
  /\ fontFilePath (globals st') = fontFilePath (globals st)
  /\ world st' = world st
  /\ length (styleBackup (globals st')) = (RAYGUI_MAX_CONTROLS * NPROPS)%nat
  /\ (forall k, (k < RAYGUI_MAX_CONTROLS * NPROPS)%nat ->
        nth k (styleBackup (globals st')) 0 = nth k (guiStyle (globals st)) 0).
Proof.
  intros Hlen.
  set (Inv := fun (K : nat) (s : state) =>
    guiStyle (globals s) = guiStyle (globals st)
    /\ customFont (globals s) = customFont (globals st)
    /\ customFontLoaded (globals s) = customFontLoaded (globals st)
    /\ fontFilePath (globals s) = fontFilePath (globals st)
    /\ world s = world st
    /\ length (styleBackup (globals s)) = (RAYGUI_MAX_CONTROLS * NPROPS)%nat
    /\ (forall k, (k < K)%nat ->
          nth k (styleBackup (globals s)) 0 = nth k (guiStyle (globals st)) 0)).
  assert (Hall : Inv (RAYGUI_MAX_CONTROLS * NPROPS)%nat (snd (main_keep_backup st))).
  { unfold main_keep_backup.
    apply (for_invariant (fun i s => Inv (i * NPROPS)%nat s)).
    { unfold Inv. repeat split; try done. intros k Hk. simpl in Hk. lia. }
    intros i s Hi HInv.
    replace (S i * NPROPS)%nat with (i * NPROPS + NPROPS)%nat by lia.
    apply (for_invariant (fun j s => Inv (i * NPROPS + j)%nat s)).
    { by rewrite Nat.add_0_r. }
    intros j s' Hj (Hstyle & Hfont & Hloaded & Hpath & Hworld & Hlen' & Hcopied).
    rewrite bind_run, GuiGetStyle_run. cbn [fst snd].
    unfold Inv. repeat split; try done.
    - simpl. by rewrite length_insert.
    - intros k Hk. rewrite set_styleBackup_nth.
      destruct (decide _) as [[<- _]|Hno].
      + unfold current. by rewrite Hstyle.
      + apply Hcopied.
        destruct (decide (k = i * NPROPS + j)%nat) as [->|Hne]; [|lia].
        exfalso. apply Hno. split; [done|]. rewrite Hlen'. nia. }
  exact Hall.
Qed.

Lemma binary_file_no_change g :
  computeChanges g = [] ->
  customFontLoaded g = false ->
  binary_file g
  = [x72; x47; x53; x20; xc8; x00; x00; x00;
     x00; x00; x00; x00; x00; x00; x00; x00].
Proof.
  intros Hnil Hfont. unfold binary_file, binary_font_section.
  by rewrite Hnil, Hfont.
Qed.

(** X10. After the loop of [main] that keeps a backup of the style, the
    baseline equals the style table, which the loop leaves as it is:
    [StyleChangesCounter] returns 0 and, with no custom font, a binary
    save writes the sixteen bytes of a file without records. *)
Theorem snapshot_leaves_no_change st fileName :
  (1 <= RAYGUI_MAX_CONTROLS)%nat ->
  length (styleBackup (globals st)) = (RAYGUI_MAX_CONTROLS * NPROPS)%nat ->
  let st' := snd (main_keep_backup st) in
  guiStyle (globals st') = guiStyle (globals st)
  /\ world st' = world st
  /\ (forall i j, (i < RAYGUI_MAX_CONTROLS)%nat -> (j < NPROPS)%nat ->
        baseline (globals st') i j = current (globals st) i j)
  /\ fst (StyleChangesCounter st') = 0
  /\ (writable (world st) fileName = true ->
      customFontLoaded (globals st) = false ->
      written (SaveStyle fileName STYLE_BINARY st') fileName
      = Some [x72; x47; x53; x20; xc8; x00; x00; x00;
              x00; x00; x00; x00; x00; x00; x00; x00]).
Proof.
  intros Hc Hlen st'.
  destruct (main_keep_backup_run st Hlen)
    as (Hstyle & _ & Hloaded & _ & Hworld & _ & Hcopied).
  fold st' in Hstyle, Hloaded, Hworld, Hcopied.
  assert (Hbase : forall i j, (i < RAYGUI_MAX_CONTROLS)%nat -> (j < NPROPS)%nat ->
            baseline (globals st') i j = current (globals st) i j).
  { intros i j Hi Hj. unfold baseline, current. apply Hcopied. nia. }
  assert (Hnil : computeChanges (globals st') = []).
  { apply computeChanges_nil_iff. split.
    - intros j Hj. rewrite Hbase by lia. unfold current. by rewrite Hstyle.
    - intros i j Hi Hj. left. rewrite Hbase by lia.
      unfold current. by rewrite Hstyle. }
  split; [done|]. split; [done|]. split; [done|].
  split.
  - rewrite StyleChangesCounter_run. cbn [fst]. by rewrite Hnil.
  - intros Hw Hfont.
    rewrite written_binary by (by rewrite Hworld).
    f_equal. apply binary_file_no_change; [done|]. by rewrite Hloaded.
Qed.

(** ** The colour boxes *)

(** X11. [GuiColorBox] changes no variable of the program. A left click in
    the box stores the colour of the box in the picker; a right click,
    without a left click, gives the box the colour of the picker; in both
    cases the two hold the same colour afterwards, and without a click in
    the box both keep their colour. The box is drawn filled with the
    colour that is returned, and a second call in the same frame changes
    nothing more. *)
Theorem GuiColorBox_sync mouse bounds colorPicker color st :
  let hit := CheckCollisionPointRec (GetMousePosition mouse) bounds in
  let left := IsMouseButtonPressed mouse MOUSE_LEFT_BUTTON in
  let right := IsMouseButtonPressed mouse MOUSE_RIGHT_BUTTON in
  let r := GuiColorBox mouse bounds colorPicker color st in
  let result := fst (fst (fst r)) in
  let picker := snd (fst (fst r)) in
  snd r = st
  /\ (hit && left = true -> result = color /\ picker = color)
  /\ (hit && negb left && right = true ->
      result = colorPicker /\ picker = colorPicker)
  /\ (hit && (left || right) = false ->
      result = color /\ picker = colorPicker)
  /\ snd (fst r)
     = [ DrawRectangleRec bounds result;
         DrawRectangleLinesEx bounds 1
           (GetColor (current (globals st) DEFAULT BORDER_COLOR_NORMAL)) ]
  /\ GuiColorBox mouse bounds picker result st = r.
Proof.
  intros hit left right r result picker.
  unfold result, picker, r, GuiColorBox. fold hit left right.
  destruct color as [cr cg cb ca], colorPicker as [pr pg pb pa].
  destruct hit, left, right; simpl; repeat split; try done.
Qed.

(** ** The command line *)

Lemma printf_run s st : printf s st = (tt, with_stdout s st).
Proof. reflexivity. Qed.

Lemma with_stdout_app s1 s2 st :
  with_stdout s2 (with_stdout s1 st) = with_stdout (s1 +:+ s2) st.
Proof.
  unfold with_stdout. simpl. by rewrite bytes_of_text_app, app_assoc.
Qed.

Lemma with_stdout_list (l : list string) st :
  fold_left (fun s x => with_stdout x s) l st
  = with_stdout (String.concat EmptyString l) st.
Proof.
  assert (Hbytes : forall s st',
            stdout (world st') = stdout (world st) ++ bytes_of_text s ->
            globals st' = globals st -> files (world st') = files (world st) ->
            writable (world st') = writable (world st) ->
            fopen_log (world st') = fopen_log (world st) ->
            st' = with_stdout s st).
  { intros s [g' [f' w' l' o']]. simpl. by intros -> -> -> -> ->. }
  apply Hbytes; clear Hbytes.
  - rewrite bytes_of_text_chunks. revert st.
    induction l as [|x l IH]; intros st; simpl.
    + by rewrite app_nil_r.
    + rewrite IH. simpl. by rewrite app_assoc.
  - revert st. induction l as [|x l IH]; intros st; simpl; [done|by rewrite IH].
  - revert st. induction l as [|x l IH]; intros st; simpl; [done|by rewrite IH].
  - revert st. induction l as [|x l IH]; intros st; simpl; [done|by rewrite IH].
  - revert st. induction l as [|x l IH]; intros st; simpl; [done|by rewrite IH].
Qed.

Lemma ShowCommandLineInfo_run st :
  ShowCommandLineInfo st
  = (tt, with_stdout (String.concat EmptyString usage_text) st).
Proof.
  unfold ShowCommandLineInfo.
  repeat (rewrite bind_run, printf_run; cbn [fst snd]).
  rewrite printf_run, <- with_stdout_list.
  unfold usage_text. cbn [fold_left]. reflexivity.
Qed.


(** *** The loop over the arguments *)



(** What [ProcessCommandLine_export] does when there is an input file. *)
Lemma export_run v st :
  empty_text (inFileName v) = false ->
  let out := if empty_text (outFileName v) then "output"%string
             else outFileName v in
  let st1 :=
    snd (GuiLoadStyle (inFileName v)
           (with_stdout (nl +:+ "Input file:       " +:+ inFileName v
                         +:+ (nl +:+ "Output file:      " +:+ out)) st)) in
  ProcessCommandLine_export v st
  = (tt,
     if outputFormat v =? STYLE_BINARY then
       snd (SaveStyle (out +:+ ".rgs") (outputFormat v) st1)
     else if outputFormat v =? STYLE_AS_CODE then
       snd (ExportStyleAsCode (out +:+ ".h") (GetFileNameWithoutExt out) st1)
     else if outputFormat v =? STYLE_TABLE_IMAGE then
       snd (ExportImage
              (fst (GenImageStyleControlsTable (GetFileNameWithoutExt out) st1))
              (out +:+ ".png")
              (snd (GenImageStyleControlsTable (GetFileNameWithoutExt out) st1)))
     else st1).
Proof.
  intros Hin out st1. unfold ProcessCommandLine_export. rewrite Hin.
  cbn [negb]. fold out.
  rewrite bind_run, printf_run. cbn [fst snd].
  rewrite bind_run, printf_run. cbn [fst snd].
  rewrite with_stdout_app, bind_run. cbn [fst].
  fold st1.
  destruct (outputFormat v =? STYLE_BINARY).
  { rewrite bind_run. by destruct (SaveStyle _ _ _). }
  destruct (outputFormat v =? STYLE_AS_CODE).
  { by destruct (ExportStyleAsCode _ _ _) as [[] ?]. }
  destruct (outputFormat v =? STYLE_TABLE_IMAGE); [|done].
  rewrite bind_run, bind_run. reflexivity.
Qed.


Lemma ProcessCommandLine_run argv st :
  let r := ProcessCommandLine_arguments (skipn 1 argv)
             {| showUsageInfo := false;
                inFileName := EmptyString;
                outFileName := EmptyString;
                outputFormat := STYLE_BINARY |} st in
  let st1 := snd (ProcessCommandLine_export (fst r) (snd r)) in
  ProcessCommandLine argv st
  = (tt, if showUsageInfo (fst r)
         then with_stdout (String.concat EmptyString usage_text) st1
         else st1).
Proof.
  intros r st1. unfold ProcessCommandLine.
  rewrite bind_run. fold r. rewrite bind_run. fold st1.
  destruct (showUsageInfo r.1).
  - by rewrite ShowCommandLineInfo_run.
  - reflexivity.
Qed.

(** *** Options with their values *)

Ltac eval_options :=
  repeat match goal with
  | |- context [is_option ?a ?s ?l] =>
      let b := eval vm_compute in (is_option a s l) in
      change (is_option a s l) with b
  end.

Lemma arguments_input i inName rest v st :
  In i ["-i"; "--input"]%string ->
  no_dash inName = true ->
  IsFileExtension inName ".rgs" = true ->
  ProcessCommandLine_arguments (i :: inName :: rest) v st
  = ProcessCommandLine_arguments rest
      {| showUsageInfo := showUsageInfo v;
         inFileName := inName;
         outFileName := outFileName v;
         outputFormat := outputFormat v |} st.
Proof.
  intros Hi Hd He. cbn [ProcessCommandLine_arguments].
  destruct Hi as [<-|[<-|[]]]; eval_options; cbv iota; by rewrite Hd, He.
Qed.

Lemma arguments_output o outName rest v st :
  In o ["-o"; "--output"]%string ->
  no_dash outName = true ->
  IsFileExtension outName ".rgs" || IsFileExtension outName ".h"
  || IsFileExtension outName ".png" = true ->
  ProcessCommandLine_arguments (o :: outName :: rest) v st
  = ProcessCommandLine_arguments rest
      {| showUsageInfo := showUsageInfo v;
         inFileName := inFileName v;
         outFileName := outName;
         outputFormat := outputFormat v |} st.
Proof.
  intros Ho Hd He. cbn [ProcessCommandLine_arguments].
  destruct Ho as [<-|[<-|[]]]; eval_options; cbv iota; by rewrite Hd, He.
Qed.

Lemma arguments_output_rejected o outName rest v st :
  In o ["-o"; "--output"]%string ->
  no_dash outName = true ->
  IsFileExtension outName ".rgs" || IsFileExtension outName ".h"
  || IsFileExtension outName ".png" = false ->
  ProcessCommandLine_arguments (o :: outName :: rest) v st
  = ProcessCommandLine_arguments rest v
      (with_stdout ("WARNING: Output file extension not recognized" +:+ nl) st).
Proof.
  intros Ho Hd He. cbn [ProcessCommandLine_arguments].
  destruct Ho as [<-|[<-|[]]]; eval_options; cbv iota; rewrite Hd, He;
    by rewrite bind_run, printf_run.
Qed.

Lemma arguments_format f fmt rest v st :
  In f ["-f"; "--format"]%string ->
  no_dash fmt = true ->
  ProcessCommandLine_arguments (f :: fmt :: rest) v st
  = ProcessCommandLine_arguments rest
      (if (0 <=? TextToInteger fmt) && (TextToInteger fmt <=? 3)
       then {| showUsageInfo := showUsageInfo v;
               inFileName := inFileName v;
               outFileName := outFileName v;
               outputFormat := TextToInteger fmt |}
       else v) st.
Proof.
  intros Hf Hd. cbn [ProcessCommandLine_arguments].
  destruct Hf as [<-|[<-|[]]]; eval_options; cbv iota; by rewrite Hd.
Qed.

Lemma name_with_extension (name ext : string) :
  ext <> EmptyString -> name <> (name +:+ ext)%string.
Proof.
  intros Hext Heq. apply (f_equal String.length) in Heq.
  rewrite length_append in Heq.
  destruct ext; [done|]. simpl in Heq. lia.
Qed.

(** The Change-Set over a baseline of zeros. *)
Lemma in_changes_zero_baseline g e n :
  styleBackup g = repeat 0 n ->
  In e (computeChanges g)
  <-> propertyValue e = current g (controlId e) (propertyId e)
      /\ (propertyId e < NPROPS)%nat
      /\ propertyValue e <> 0
      /\ (controlId e = 0%nat
          \/ ((1 <= controlId e < RAYGUI_MAX_CONTROLS)%nat
              /\ propertyValue e <> current g 0 (propertyId e))).
Proof.
  intros Hzero.
  assert (Hbase : forall i j, baseline g i j = 0).
  { intros i j. unfold baseline. rewrite Hzero. apply nth_repeat. }
  rewrite in_computeChanges. split.
  - intros [(j & Hj & Hc & ->)|(i & j & Hi & Hj & Hc & ->)]; simpl.
    + apply changedDefault_spec in Hc. rewrite Hbase in Hc.
      repeat split; try done. by left.
    + apply changedControl_spec in Hc. rewrite Hbase in Hc.
      destruct Hc as [Hb Hd]. repeat split; try done. by right.
  - destruct e as [i j v]. simpl.
    intros (-> & Hj & Hv & [->|[Hi Hd]]).
    + left. exists j. split; [done|]. split; [|done].
      apply changedDefault_spec. by rewrite Hbase.
    + right. exists i, j. split; [done|]. split; [done|]. split; [|done].
      apply changedControl_spec. by rewrite Hbase.
Qed.

(** * Properties of the command line *)



Ltac in_usage_text :=
  unfold usage_text;
  repeat first [ left; reflexivity | right ].

(** X14. [rguistyler -i in.rgs -o out.x], at the start of the program
    ([styleBackup] all zero, no custom font): the style is loaded and saved
    in binary to the output name with [.rgs] appended to it, although the
    name was accepted for having an extension already; the file named on
    the command line is not touched. As the baseline is zero, the file
    holds every DEFAULT property that is not zero and every property of
    another control that is neither zero nor equal to the DEFAULT value,
    and no font. *)
Theorem command_line_binary prog i inName o outName st :
  In i ["-i"; "--input"]%string ->
  In o ["-o"; "--output"]%string ->
  no_dash inName = true ->
  IsFileExtension inName ".rgs" = true ->
  empty_text inName = false ->
  (String.length inName < 256)%nat ->
  no_dash outName = true ->
  IsFileExtension outName ".rgs" || IsFileExtension outName ".h"
  || IsFileExtension outName ".png" = true ->
  empty_text outName = false ->
  (String.length outName < 256)%nat ->
  writable (world st) (outName +:+ ".rgs") = true ->
  styleBackup (globals st) = repeat 0 (RAYGUI_MAX_CONTROLS * NPROPS) ->
  customFontLoaded (globals st) = false ->
  let r := ProcessCommandLine [prog; i; inName; o; outName] st in
  let g := globals (snd r) in
  let E := computeChanges g in
  guiStyle g = LoadedStyle inName (files (world st)) (guiStyle (globals st))
  /\ written r (outName +:+ ".rgs")
     = Some (binary_header (Z.of_nat (length E)) ++ flat_map record_bytes E
             ++ [x00; x00; x00; x00])
  /\ (forall e,
        In e E
        <-> propertyValue e = current g (controlId e) (propertyId e)
            /\ (propertyId e < NPROPS)%nat
            /\ propertyValue e <> 0
            /\ (controlId e = 0%nat
                \/ ((1 <= controlId e < RAYGUI_MAX_CONTROLS)%nat
                    /\ propertyValue e <> current g 0 (propertyId e))))
  /\ files (world (snd r)) !! outName = files (world st) !! outName.
Proof.
  intros Hi Ho Hdi Hei Hni Hli Hdo Heo Hno Hlo Hw Hzero Hfont r g E.
  assert (Hr : r = (tt, saved (outName +:+ ".rgs") "wb"
                          (binary_file
                             (globals (snd (GuiLoadStyle inName st))))
                          (snd (GuiLoadStyle inName
                                  (with_stdout
                                     (nl +:+ "Input file:       " +:+ inName
                                      +:+ (nl +:+ "Output file:      "
                                           +:+ outName)) st))))).
  { unfold r. rewrite ProcessCommandLine_run. cbn [skipn].
    rewrite arguments_input, arguments_output by done.
    cbn [ProcessCommandLine_arguments ret fst snd showUsageInfo].
    rewrite export_run by done.
    cbn [inFileName outFileName outputFormat]. rewrite Hno.
    change (STYLE_BINARY =? STYLE_BINARY) with true. cbv iota.
    by rewrite SaveStyle_binary_run by done. }
  subst g E. rewrite Hr. cbn [snd].
  split; [reflexivity|].
  split.
  { rewrite written_saved. unfold binary_file, binary_font_section.
    cbn [globals saved GuiLoadStyle snd customFontLoaded].
    by rewrite Hfont. }
  split.
  { intros e.
    apply (in_changes_zero_baseline _ _ (RAYGUI_MAX_CONTROLS * NPROPS)).
    exact Hzero. }
  rewrite files_saved_other by (apply name_with_extension; done).
  reflexivity.
Qed.

Lemma extensions_differ (name : string) :
  (name +:+ ".rgs")%string <> (name +:+ ".h")%string.
Proof.
  intros Heq. apply (f_equal String.length) in Heq.
  rewrite !length_append in Heq. simpl in Heq. lia.
Qed.

(** X15. With [-f 1] the style is exported as code, to the output name
    with [.h] appended and under the style name that
    [GetFileNameWithoutExt] gives for the output name, and no [.rgs] file
    is written; the usage text lists 1 as the binary format and 2 as
    code. *)
Theorem command_line_code prog i inName o outName f fmt st :
  In i ["-i"; "--input"]%string ->
  In o ["-o"; "--output"]%string ->
  In f ["-f"; "--format"]%string ->
  no_dash inName = true ->
  IsFileExtension inName ".rgs" = true ->
  empty_text inName = false ->
  (String.length inName < 256)%nat ->
  no_dash outName = true ->
  IsFileExtension outName ".rgs" || IsFileExtension outName ".h"
  || IsFileExtension outName ".png" = true ->
  empty_text outName = false ->
  (String.length outName < 256)%nat ->
  no_dash fmt = true ->
  TextToInteger fmt = 1 ->
  writable (world st) (outName +:+ ".h") = true ->
  customFontLoaded (globals st) = false ->
  let r := ProcessCommandLine [prog; i; inName; o; outName; f; fmt] st in
  let g := globals (snd r) in
  guiStyle g = LoadedStyle inName (files (world st)) (guiStyle (globals st))
  /\ written r (outName +:+ ".h")
     = Some (bytes_of_text (code_file g (GetFileNameWithoutExt outName)))
  /\ files (world (snd r)) !! (outName +:+ ".rgs")
     = files (world st) !! (outName +:+ ".rgs")
  /\ In ("                                          1 - Style binary format (.rgs)" +:+ nl)%string usage_text
  /\ In ("                                          2 - Style as code (.h)" +:+ nl)%string usage_text.
Proof.
  intros Hi Ho Hf Hdi Hei Hni Hli Hdo Heo Hno Hlo Hdf Hfmt Hw Hfont r g.
  assert (Hr : r = ExportStyleAsCode (outName +:+ ".h")
                     (GetFileNameWithoutExt outName)
                     (snd (GuiLoadStyle inName
                             (with_stdout
                                (nl +:+ "Input file:       " +:+ inName
                                 +:+ (nl +:+ "Output file:      "
                                      +:+ outName)) st)))).
  { unfold r. rewrite ProcessCommandLine_run. cbn [skipn].
    rewrite arguments_input, arguments_output, arguments_format by done.
    rewrite Hfmt. change ((0 <=? 1) && (1 <=? 3)) with true. cbv iota.
    cbn [ProcessCommandLine_arguments ret fst snd showUsageInfo].
    rewrite export_run by done.
    cbn [inFileName outFileName outputFormat]. rewrite Hno.
    change (1 =? STYLE_BINARY) with false.
    change (1 =? STYLE_AS_CODE) with true. cbv iota.
    by destruct (ExportStyleAsCode _ _ _) as [[] ?]. }
  subst g. rewrite Hr.
  rewrite ExportStyleAsCode_run by done. cbn [snd].
  split; [reflexivity|].
  split; [by rewrite written_logged|].
  split.
  { cbn [with_stdout world files].
    rewrite files_saved_other by apply extensions_differ. reflexivity. }
  split; in_usage_text.
Qed.



(** X18. Without an output name, and also when the name given has none of
    the extensions [.rgs], [.h] and [.png], the output goes to
    [output.rgs]: the rejected name is answered with a warning and not
    used. *)
Theorem command_line_default_output prog i inName o outName st :
  In i ["-i"; "--input"]%string ->
  In o ["-o"; "--output"]%string ->
  no_dash inName = true ->
  IsFileExtension inName ".rgs" = true ->
  empty_text inName = false ->
  (String.length inName < 256)%nat ->
  no_dash outName = true ->
  IsFileExtension outName ".rgs" || IsFileExtension outName ".h"
  || IsFileExtension outName ".png" = false ->
  writable (world st) "output.rgs" = true ->
  let r := ProcessCommandLine [prog; i; inName] st in
  written r "output.rgs" = Some (binary_file (globals (snd r)))
  /\ guiStyle (globals (snd r))
     = LoadedStyle inName (files (world st)) (guiStyle (globals st))
  /\ ProcessCommandLine [prog; i; inName; o; outName] st
     = ProcessCommandLine [prog; i; inName]
         (with_stdout ("WARNING: Output file extension not recognized" +:+ nl)
            st).
Proof.
  intros Hi Ho Hdi Hei Hni Hli Hdo Heo Hw r.
  assert (Hr : r = (tt, saved "output.rgs" "wb"
                          (binary_file
                             (globals (snd (GuiLoadStyle inName st))))
                          (snd (GuiLoadStyle inName
                                  (with_stdout
                                     (nl +:+ "Input file:       " +:+ inName
                                      +:+ (nl +:+ "Output file:      "
                                           +:+ "output")) st))))).
  { unfold r. rewrite ProcessCommandLine_run. cbn [skipn].
    rewrite arguments_input by done.
    cbn [ProcessCommandLine_arguments ret fst snd showUsageInfo].
    rewrite export_run by done.
    cbn [inFileName outFileName outputFormat empty_text].
    change (STYLE_BINARY =? STYLE_BINARY) with true. cbv iota.
    by rewrite SaveStyle_binary_run by done. }
  split; [rewrite Hr; by rewrite written_saved|].
  split; [by rewrite Hr|].
  rewrite (ProcessCommandLine_run [prog; i; inName; o; outName]).
  rewrite (ProcessCommandLine_run [prog; i; inName]).
  cbn [skipn].
  rewrite !(arguments_input i inName),
    (arguments_output_rejected o outName) by done.
  reflexivity.
Qed.
End MoreProperties.

(** * The further properties at work *)

Section MoreWitnesses.
Import Examples.
#[local] Existing Instance raygui_3_1.
#[local] Existing Instance raylib_plain.
#[local] Existing Instance raylib_text_plain.
#[local] Existing Instance raygui_loader_plain.
#[local] Existing Instance table_image_plain.
#[local] Existing Instance raylib_input_plain.

Lemma SaveStyle_frame_witness :
  "b.rgs"%string <> "a.rgs"%string
  /\ files (world (snd (SaveStyle "a.rgs" STYLE_BINARY st_siblings))) !! "b.rgs"%string
     = files (world st_siblings) !! "b.rgs"%string.
Proof.
  assert (Hne : "b.rgs"%string <> "a.rgs"%string) by discriminate.
  split; [exact Hne|].
  destruct (SaveStyle_frame (gui := raygui_3_1) "a.rgs" STYLE_BINARY
              st_siblings "b.rgs" Hne) as (Hfiles & _).
  exact Hfiles.
Defined.

Lemma ExportStyleAsCode_refused_silent_witness :
  writable (world st_font) "/ro/style.h" = false
  /\ files (world (snd (ExportStyleAsCode "/ro/style.h" "style" st_font)))
     = files (world st_font).
Proof.
  assert (Hw : writable (world st_font) "/ro/style.h" = false) by reflexivity.
  split; [exact Hw|].
  destruct (ExportStyleAsCode_refused_silent (gui := raygui_3_1)
              "/ro/style.h" "style" st_font Hw) as (Hfiles & _).
  exact Hfiles.
Defined.

Lemma ExportStyleAsCode_frame_witness :
  writable (world st_font) "style.h" = true
  /\ "other.h"%string <> "style.h"%string
  /\ (customFontLoaded (globals st_font) = true ->
      code_font_atlas (globals st_font) <> [])
  /\ globals (snd (ExportStyleAsCode "style.h" "style" st_font))
     = globals st_font.
Proof.
  assert (Hw : writable (world st_font) "style.h" = true) by reflexivity.
  assert (Hne : "other.h"%string <> "style.h"%string) by discriminate.
  assert (Hatlas : customFontLoaded (globals st_font) = true ->
                   code_font_atlas (globals st_font) <> [])
    by (intros _; vm_compute; discriminate).
  split; [exact Hw|]. split; [exact Hne|]. split; [exact Hatlas|].
  destruct (ExportStyleAsCode_frame (gui := raygui_3_1) "style.h" "style"
              st_font "other.h" Hw Hne Hatlas) as (_ & Hglobals & _).
  exact Hglobals.
Defined.

(** The second record of the file of [st_siblings] is LABEL's
    TEXT_COLOR_NORMAL. *)
Lemma binary_record_at_witness :
  writable (world st_siblings) "a.rgs" = true
  /\ Z.of_nat 16 <= 2 ^ 15
  /\ Z.of_nat (16 + 8) <= 2 ^ 15
  /\ computeChanges (globals st_siblings) !! 1%nat
     = Some {| controlId := 1; propertyId := 2; propertyValue := 0x11223344 |}
  /\ written (SaveStyle "a.rgs" STYLE_BINARY st_siblings) "a.rgs"
     = Some (binary_file (globals st_siblings))
  /\ le_value (drop 4 (take 8 (drop (12 + 8 * 1)
                                 (binary_file (globals st_siblings)))))
     = 0x11223344 mod 2 ^ 32.
Proof.
  assert (Hw : writable (world st_siblings) "a.rgs" = true) by reflexivity.
  assert (Hc : Z.of_nat 16 <= 2 ^ 15) by (vm_compute; discriminate).
  assert (Hp : Z.of_nat (16 + 8) <= 2 ^ 15) by (vm_compute; discriminate).
  assert (He : computeChanges (globals st_siblings) !! 1%nat
               = Some {| controlId := 1; propertyId := 2;
                         propertyValue := 0x11223344 |})
    by (vm_compute; reflexivity).
  assert (Hfile : written (SaveStyle "a.rgs" STYLE_BINARY st_siblings) "a.rgs"
                  = Some (binary_file (globals st_siblings)))
    by (vm_compute; reflexivity).
  split; [exact Hw|]. split; [exact Hc|]. split; [exact Hp|].
  split; [exact He|]. split; [exact Hfile|].
  destruct (binary_record_at (gui := raygui_3_1) st_siblings "a.rgs" 1 _ _
              Hw Hc Hp He Hfile) as (_ & _ & _ & Hvalue & _).
  exact Hvalue.
Defined.

(** The font section of [st_font] is 54 bytes long and declares 34. *)
Lemma font_size_field_witness :
  writable (world st_font) "a.rgs" = true
  /\ (forall x, length (float_bytes x) = 4%nat)
  /\ 0 <= glyphCount (customFont (globals st_font))
  /\ Z.of_nat (length (binary_font_section (globals st_font))) < 2 ^ 31
  /\ (customFontLoaded (globals st_font) = true ->
      32 <= le_value (take 4 (binary_font_section (globals st_font)))
      /\ Z.of_nat (length (binary_font_section (globals st_font)))
         = le_value (take 4 (binary_font_section (globals st_font))) + 20).
Proof.
  assert (Hw : writable (world st_font) "a.rgs" = true) by reflexivity.
  assert (Hfloat : forall x, length (float_bytes x) = 4%nat)
    by (intros x; reflexivity).
  assert (Hglyphs : 0 <= glyphCount (customFont (globals st_font)))
    by (vm_compute; discriminate).
  assert (Hsize : Z.of_nat (length (binary_font_section (globals st_font)))
                  < 2 ^ 31) by (vm_compute; reflexivity).
  split; [exact Hw|]. split; [exact Hfloat|]. split; [exact Hglyphs|].
  split; [exact Hsize|].
  destruct (font_size_field (gui := raygui_3_1) st_font "a.rgs"
              Hw Hfloat Hglyphs Hsize) as (_ & _ & Hfont).
  exact Hfont.
Defined.

Lemma unchanged_style_files_witness :
  (1 <= 16)%nat
  /\ writable (world (st_start (table_of 0))) "a.rgs" = true
  /\ customFontLoaded (globals (st_start (table_of 0))) = false
  /\ (forall k, (k < 16 * (16 + 8))%nat ->
        nth k (guiStyle (globals (st_start (table_of 0)))) 0
        = nth k (styleBackup (globals (st_start (table_of 0)))) 0)
  /\ fst (StyleChangesCounter (st_start (table_of 0))) = 0.
Proof.
  assert (Hc : (1 <= 16)%nat) by lia.
  assert (Hw : writable (world (st_start (table_of 0))) "a.rgs" = true)
    by reflexivity.
  assert (Hfont : customFontLoaded (globals (st_start (table_of 0))) = false)
    by reflexivity.
  assert (Hsame : forall k, (k < 16 * (16 + 8))%nat ->
            nth k (guiStyle (globals (st_start (table_of 0)))) 0
            = nth k (styleBackup (globals (st_start (table_of 0)))) 0)
    by (intros k _; reflexivity).
  split; [exact Hc|]. split; [exact Hw|]. split; [exact Hfont|].
  split; [exact Hsame|].
  destruct (unchanged_style_files (gui := raygui_3_1) (st_start (table_of 0))
              "a.rgs" Hc Hw Hfont Hsame) as (Hcount & _).
  exact Hcount.
Defined.

(** The file of [st_siblings], with three records, is 40 bytes long. *)
Lemma binary_file_size_witness :
  (1 <= 16)%nat
  /\ writable (world st_siblings) "a.rgs" = true
  /\ customFontLoaded (globals st_siblings) = false
  /\ written (SaveStyle "a.rgs" STYLE_BINARY st_siblings) "a.rgs"
     = Some (binary_file (globals st_siblings))
  /\ Z.of_nat (length (binary_file (globals st_siblings)))
     = 16 + 8 * fst (StyleChangesCounter st_siblings).
Proof.
  assert (Hc : (1 <= 16)%nat) by lia.
  assert (Hw : writable (world st_siblings) "a.rgs" = true) by reflexivity.
  assert (Hfont : customFontLoaded (globals st_siblings) = false)
    by reflexivity.
  assert (Hfile : written (SaveStyle "a.rgs" STYLE_BINARY st_siblings) "a.rgs"
                  = Some (binary_file (globals st_siblings)))
    by (vm_compute; reflexivity).
  split; [exact Hc|]. split; [exact Hw|]. split; [exact Hfont|].
  split; [exact Hfile|].
  destruct (binary_file_size (gui := raygui_3_1) st_siblings "a.rgs" _
              Hc Hw Hfont Hfile) as (_ & Hsize).
  exact Hsize.
Defined.

Lemma snapshot_leaves_no_change_witness :
  (1 <= 16)%nat
  /\ length (styleBackup (globals st_siblings)) = (16 * (16 + 8))%nat
  /\ fst (StyleChangesCounter (snd (main_keep_backup st_siblings))) = 0.
Proof.
  assert (Hc : (1 <= 16)%nat) by lia.
  assert (Hlen : length (styleBackup (globals st_siblings))
                 = (16 * (16 + 8))%nat) by reflexivity.
  split; [exact Hc|]. split; [exact Hlen|].
  destruct (snapshot_leaves_no_change (gui := raygui_3_1) st_siblings "a.rgs"
              Hc Hlen) as (_ & _ & _ & Hcount & _).
  exact Hcount.
Defined.


(** [rguistyler -i in.rgs -o out.rgs] writes [out.rgs.rgs]. *)
Lemma command_line_binary_witness :
  In "-i"%string ["-i"; "--input"]%string
  /\ In "-o"%string ["-o"; "--output"]%string
  /\ no_dash "in.rgs" = true
  /\ IsFileExtension "in.rgs" ".rgs" = true
  /\ empty_text "in.rgs" = false
  /\ (String.length "in.rgs" < 256)%nat
  /\ no_dash "out.rgs" = true
  /\ IsFileExtension "out.rgs" ".rgs" || IsFileExtension "out.rgs" ".h"
     || IsFileExtension "out.rgs" ".png" = true
  /\ empty_text "out.rgs" = false
  /\ (String.length "out.rgs" < 256)%nat
  /\ writable (world (st_start (table_of 0))) ("out.rgs" +:+ ".rgs") = true
  /\ styleBackup (globals (st_start (table_of 0))) = repeat 0 (16 * (16 + 8))
  /\ customFontLoaded (globals (st_start (table_of 0))) = false
  /\ files (world (snd (ProcessCommandLine
                          ["rguistyler"; "-i"; "in.rgs"; "-o"; "out.rgs"]%string
                          (st_start (table_of 0))))) !! "out.rgs"%string
     = files (world (st_start (table_of 0))) !! "out.rgs"%string.
Proof.
  assert (Hi : In "-i"%string ["-i"; "--input"]%string) by (simpl; tauto).
  assert (Ho : In "-o"%string ["-o"; "--output"]%string) by (simpl; tauto).
  assert (Hdi : no_dash "in.rgs" = true) by reflexivity.
  assert (Hei : IsFileExtension "in.rgs" ".rgs" = true) by reflexivity.
  assert (Hni : empty_text "in.rgs" = false) by reflexivity.
  assert (Hli : (String.length "in.rgs" < 256)%nat) by (vm_compute; lia).
  assert (Hdo : no_dash "out.rgs" = true) by reflexivity.
  assert (Heo : IsFileExtension "out.rgs" ".rgs"
                || IsFileExtension "out.rgs" ".h"
                || IsFileExtension "out.rgs" ".png" = true) by reflexivity.
  assert (Hno : empty_text "out.rgs" = false) by reflexivity.
  assert (Hlo : (String.length "out.rgs" < 256)%nat) by (vm_compute; lia).
  assert (Hw : writable (world (st_start (table_of 0))) ("out.rgs" +:+ ".rgs")
               = true) by reflexivity.
  assert (Hzero : styleBackup (globals (st_start (table_of 0)))
                  = repeat 0 (16 * (16 + 8))) by reflexivity.
  assert (Hfont : customFontLoaded (globals (st_start (table_of 0))) = false)
    by reflexivity.
  repeat (split; [assumption|]).
  destruct (command_line_binary (gui := raygui_3_1) "rguistyler" "-i" "in.rgs"
              "-o" "out.rgs" (st_start (table_of 0))
              Hi Ho Hdi Hei Hni Hli Hdo Heo Hno Hlo Hw Hzero Hfont)
    as (_ & _ & _ & Hfiles).
  exact Hfiles.
Defined.

(** [rguistyler -i in.rgs -o out.rgs -f 1] writes [out.rgs.h]. *)
Lemma command_line_code_witness :
  In "-i"%string ["-i"; "--input"]%string
  /\ In "-o"%string ["-o"; "--output"]%string
  /\ In "-f"%string ["-f"; "--format"]%string
  /\ no_dash "in.rgs" = true
  /\ IsFileExtension "in.rgs" ".rgs" = true
  /\ empty_text "in.rgs" = false
  /\ (String.length "in.rgs" < 256)%nat
  /\ no_dash "out.rgs" = true
  /\ IsFileExtension "out.rgs" ".rgs" || IsFileExtension "out.rgs" ".h"
     || IsFileExtension "out.rgs" ".png" = true
  /\ empty_text "out.rgs" = false
  /\ (String.length "out.rgs" < 256)%nat
  /\ no_dash "1" = true
  /\ TextToInteger "1" = 1
  /\ writable (world (st_start (table_of 0))) ("out.rgs" +:+ ".h") = true
  /\ customFontLoaded (globals (st_start (table_of 0))) = false
  /\ files (world (snd (ProcessCommandLine
                          ["rguistyler"; "-i"; "in.rgs"; "-o"; "out.rgs";
                           "-f"; "1"]%string
                          (st_start (table_of 0)))))
       !! ("out.rgs" +:+ ".rgs")%string
     = files (world (st_start (table_of 0))) !! ("out.rgs" +:+ ".rgs")%string.
Proof.
  assert (Hi : In "-i"%string ["-i"; "--input"]%string) by (simpl; tauto).
  assert (Ho : In "-o"%string ["-o"; "--output"]%string) by (simpl; tauto).
  assert (Hf : In "-f"%string ["-f"; "--format"]%string) by (simpl; tauto).
  assert (Hdi : no_dash "in.rgs" = true) by reflexivity.
  assert (Hei : IsFileExtension "in.rgs" ".rgs" = true) by reflexivity.
  assert (Hni : empty_text "in.rgs" = false) by reflexivity.
  assert (Hli : (String.length "in.rgs" < 256)%nat) by (vm_compute; lia).
  assert (Hdo : no_dash "out.rgs" = true) by reflexivity.
  assert (Heo : IsFileExtension "out.rgs" ".rgs"
                || IsFileExtension "out.rgs" ".h"
                || IsFileExtension "out.rgs" ".png" = true) by reflexivity.
  assert (Hno : empty_text "out.rgs" = false) by reflexivity.
  assert (Hlo : (String.length "out.rgs" < 256)%nat) by (vm_compute; lia).
  assert (Hdf : no_dash "1" = true) by reflexivity.
  assert (Hfmt : TextToInteger "1" = 1) by reflexivity.
  assert (Hw : writable (world (st_start (table_of 0))) ("out.rgs" +:+ ".h")
               = true) by reflexivity.
  assert (Hfont : customFontLoaded (globals (st_start (table_of 0))) = false)
    by reflexivity.
  repeat (split; [assumption|]).
  destruct (command_line_code (gui := raygui_3_1) "rguistyler" "-i" "in.rgs"
              "-o" "out.rgs" "-f" "1" (st_start (table_of 0))
              Hi Ho Hf Hdi Hei Hni Hli Hdo Heo Hno Hlo Hdf Hfmt Hw Hfont)
    as (_ & _ & Hfiles & _).
  exact Hfiles.
Defined.



(** [rguistyler -i in.rgs -o out.txt] writes [output.rgs]. *)
Lemma command_line_default_output_witness :
  In "-i"%string ["-i"; "--input"]%string
  /\ In "-o"%string ["-o"; "--output"]%string
  /\ no_dash "in.rgs" = true
  /\ IsFileExtension "in.rgs" ".rgs" = true
  /\ empty_text "in.rgs" = false
  /\ (String.length "in.rgs" < 256)%nat
  /\ no_dash "out.txt" = true
  /\ IsFileExtension "out.txt" ".rgs" || IsFileExtension "out.txt" ".h"
     || IsFileExtension "out.txt" ".png" = false
  /\ writable (world (st_start (table_of 0))) "output.rgs" = true
  /\ ProcessCommandLine
       ["rguistyler"; "-i"; "in.rgs"; "-o"; "out.txt"]%string
       (st_start (table_of 0))
     = ProcessCommandLine ["rguistyler"; "-i"; "in.rgs"]%string
         (with_stdout ("WARNING: Output file extension not recognized" +:+ nl)
            (st_start (table_of 0))).
Proof.
  assert (Hi : In "-i"%string ["-i"; "--input"]%string) by (simpl; tauto).
  assert (Ho : In "-o"%string ["-o"; "--output"]%string) by (simpl; tauto).
  assert (Hdi : no_dash "in.rgs" = true) by reflexivity.
  assert (Hei : IsFileExtension "in.rgs" ".rgs" = true) by reflexivity.
  assert (Hni : empty_text "in.rgs" = false) by reflexivity.
  assert (Hli : (String.length "in.rgs" < 256)%nat) by (vm_compute; lia).
  assert (Hdo : no_dash "out.txt" = true) by reflexivity.
  assert (Heo : IsFileExtension "out.txt" ".rgs"
                || IsFileExtension "out.txt" ".h"
                || IsFileExtension "out.txt" ".png" = false) by reflexivity.
  assert (Hw : writable (world (st_start (table_of 0))) "output.rgs" = true)
    by reflexivity.
  repeat (split; [assumption|]).
  destruct (command_line_default_output (gui := raygui_3_1) "rguistyler" "-i"
              "in.rgs" "-o" "out.txt" (st_start (table_of 0))
              Hi Ho Hdi Hei Hni Hli Hdo Heo Hw) as (_ & _ & Hsame).
  exact Hsame.
Defined.

End MoreWitnesses.
